(** * autospec [verify_sign.py]: package integrity verification

    A shallow embedding of [src/autospec/verify_sign.py] and the
    properties of its verifier dispatch, GPG signature path, registry
    checksum path, key-identifier extraction and download helper.

    Conventions of the embedding
    - a Python [str] is a [string] of 8-bit characters (ASCII text; the
      Unicode-only behaviour of [str.upper], [str.strip] and [\d] is outside
      the model), and so is a [bytes] value, one character per byte;
    - [None] is the [None] of an [option];
    - a Python call that may raise returns an [outcome]; code that touches
      the file system, the process environment, standard output or an
      external program is a function of the interpreter state [pystate]
      (monad [M]);
    - the programs and libraries the script calls ([gpg], [gpgme], [pycurl],
      [json.loads]), the answer of the operating system to [open] for
      writing, and which of [gpgme] and [Popen] the import at load time
      bound, are the fields of a [world] record: the script is verified for
      every behaviour of them. *)

From Stdlib Require Import ZArith Ascii String List Lia Bool.
From stdpp Require Import base gmap strings list fin_maps stringmap.

Open Scope string_scope.

(** ** Python strings *)

Module PyStr.

(** [s[n:]] *)
Fixpoint drop (n : nat) (s : string) : string :=
  match n, s with
  | O, _ => s
  | S k, EmptyString => EmptyString
  | S k, String _ s' => drop k s'
  end.

(** [s[:n]] *)
Fixpoint take (n : nat) (s : string) : string :=
  match n, s with
  | O, _ => EmptyString
  | S k, EmptyString => EmptyString
  | S k, String c s' => String c (take k s')
  end.

(** [s[a:b]] for non-negative [a], [b]. *)
Definition slice (a b : nat) (s : string) : string := take (b - a) (drop a s).

(** [s.startswith(p)] *)
Fixpoint startswith (p s : string) : bool :=
  match p, s with
  | EmptyString, _ => true
  | String _ _, EmptyString => false
  | String a p', String b s' => if Ascii.eqb a b then startswith p' s' else false
  end.

(** [s.find(sub)]: the lowest index where [sub] occurs, [None] for Python's -1. *)
Fixpoint find (sub s : string) : option nat :=
  if startswith sub s then Some O
  else match s with
       | EmptyString => None
       | String _ s' => S <$> find sub s'
       end.

(** [s.rfind(c)] for a one-character [c], as Python's integer (-1 when absent). *)
Fixpoint rfind_from (c : ascii) (s : string) (i acc : Z) : Z :=
  match s with
  | EmptyString => acc
  | String a s' => rfind_from c s' (i + 1) (if Ascii.eqb a c then i else acc)
  end.

Definition rfind (c : ascii) (s : string) : Z := rfind_from c s 0 (-1).

(** [s[a:b]] with Python integers that are known to be at least 0. *)
Definition zslice (a b : Z) (s : string) : string :=
  slice (Z.to_nat a) (Z.to_nat b) s.

(** [str.isspace] on one ASCII character: tab, LF, VT, FF, CR, FS, GS, RS,
    US and space. *)
Definition isspace (c : ascii) : bool :=
  let n := nat_of_ascii c in
  ((9 <=? n)%nat && (n <=? 13)%nat) || ((28 <=? n)%nat && (n <=? 32)%nat).

Fixpoint lstrip (s : string) : string :=
  match s with
  | EmptyString => EmptyString
  | String c s' => if isspace c then lstrip s' else s
  end.

Fixpoint rstrip (s : string) : string :=
  match s with
  | EmptyString => EmptyString
  | String c s' =>
      match rstrip s' with
      | EmptyString => if isspace c then EmptyString else String c EmptyString
      | r => String c r
      end
  end.

(** [s.strip()] *)
Definition strip (s : string) : string := rstrip (lstrip s).

Definition upper_char (c : ascii) : ascii :=
  let n := nat_of_ascii c in
  if (97 <=? n)%nat && (n <=? 122)%nat then ascii_of_nat (n - 32) else c.

(** [s.upper()] *)
Fixpoint upper (s : string) : string :=
  match s with
  | EmptyString => EmptyString
  | String c s' => String (upper_char c) (upper s')
  end.

(** [s.replace(old, new)]: every non-overlapping occurrence, left to right.
    [skip] counts the characters of the occurrence just replaced that are
    still to be passed over. *)
Fixpoint replace_from (old new : string) (skip : nat) (s : string) : string :=
  match s with
  | EmptyString => EmptyString
  | String c s' =>
      match skip with
      | S k => replace_from old new k s'
      | O =>
          if startswith old s
          then new +:+ replace_from old new (String.length old - 1) s'
          else String c (replace_from old new O s')
      end
  end.

Fixpoint intersperse (new s : string) : string :=
  match s with
  | EmptyString => new
  | String c s' => new +:+ String c (intersperse new s')
  end.

Definition replace (old new s : string) : string :=
  match old with
  | EmptyString => intersperse new s
  | _ => replace_from old new O s
  end.

(** [c.isdigit()] for ASCII, the class [\d] of [re] on ASCII text. *)
Definition isdigit (c : ascii) : bool :=
  let n := nat_of_ascii c in (48 <=? n)%nat && (n <=? 57)%nat.

(** Truth value of a string: the empty string is false. *)
Definition truthy (s : string) : bool := negb (String.eqb s "").

End PyStr.

(** ** [os.path] for POSIX paths *)

Module OsPath.

(** The loop of [genericpath._splitext]: looks for a character other than
    the dot between the last separator and the last dot. [fuel] is the
    number of remaining iterations, [dotIndex - filenameIndex]. *)
Fixpoint splitext_loop (p : string) (dotIndex filenameIndex : Z) (fuel : nat)
  : string * string :=
  match fuel with
  | O => (p, "")
  | S fuel' =>
      if String.eqb (PyStr.zslice filenameIndex (filenameIndex + 1) p) "."
      then splitext_loop p dotIndex (filenameIndex + 1) fuel'
      else (PyStr.zslice 0 dotIndex p, PyStr.drop (Z.to_nat dotIndex) p)
  end.

(** [os.path.splitext] *)
Definition splitext (p : string) : string * string :=
  let sepIndex := PyStr.rfind "/" p in
  let dotIndex := PyStr.rfind "." p in
  if (sepIndex <? dotIndex)%Z
  then splitext_loop p dotIndex (sepIndex + 1)
         (Z.to_nat (dotIndex - (sepIndex + 1)))
  else (p, "").

(** [os.path.basename] *)
Definition basename (p : string) : string :=
  PyStr.drop (Z.to_nat (PyStr.rfind "/" p + 1)) p.

(** [os.path.join] of two components. *)
Definition join (a b : string) : string :=
  if PyStr.startswith "/" b then b
  else if String.eqb a "" then b
  else if String.eqb (PyStr.drop (String.length a - 1) a) "/" then a +:+ b
  else a +:+ "/" +:+ b.

End OsPath.

(** ** Verifier dispatch *)

(** The two strategy classes stored in [VERIFIER_TYPES]. *)
Inductive verifier_class := GPGVerifier | GEMShaVerifier.

#[global] Instance verifier_class_eq_dec : EqDecision verifier_class.
Proof. solve_decision. Defined.

Definition VERIFIER_TYPES : gmap string verifier_class :=
  <[".gz" := GPGVerifier]> (<[".gem" := GEMShaVerifier]> ∅).

Definition get_file_ext (filename : string) : string :=
  snd (OsPath.splitext filename).

Definition get_verifier (filename : string) : option verifier_class :=
  VERIFIER_TYPES !! get_file_ext filename.

(** ** [re.split('-\d+\.', s)] *)

Module Re.

(** Number of leading digits of [s]: what the greedy [\d+] consumes. *)
Fixpoint digits_len (s : string) : nat :=
  match s with
  | EmptyString => O
  | String c s' => if PyStr.isdigit c then S (digits_len s') else O
  end.

(** Length of the match of ['-\d+\.'] anchored at the start of [s], if any.
    The dot is no digit, so the pattern can only match with every leading
    digit consumed. *)
Definition match_at (s : string) : option nat :=
  match s with
  | String "-" s' =>
      let d := digits_len s' in
      if (0 <? d)%nat && PyStr.startswith "." (PyStr.drop d s')
      then Some (d + 2)%nat else None
  | _ => None
  end.

(** The pieces between the successive leftmost matches. [skip] counts the
    characters of the current match still to be passed over. *)
Fixpoint split_from (skip : nat) (s : string) : list string :=
  match s with
  | EmptyString => [EmptyString]
  | String c s' =>
      match skip with
      | S k => split_from k s'
      | O =>
          match match_at s with
          | Some n => EmptyString :: split_from (n - 1) s'
          | None =>
              match split_from O s' with
              | piece :: pieces => String c piece :: pieces
              | [] => [String c EmptyString]
              end
          end
      end
  end.

Definition split (s : string) : list string := split_from O s.

End Re.

(** ** SHA-256 (FIPS 180-4) on 32-bit words held in [Z] *)

Module SHA256.

Open Scope Z_scope.

Definition w32 (x : Z) : Z := x mod 2 ^ 32.
Definition add32 (x y : Z) : Z := w32 (x + y).
Definition rotr (n x : Z) : Z := Z.lor (Z.shiftr x n) (w32 (Z.shiftl x (32 - n))).
Definition not32 (x : Z) : Z := Z.lxor x 0xffffffff.

Definition Ch (x y z : Z) : Z := Z.lxor (Z.land x y) (Z.land (not32 x) z).
Definition Maj (x y z : Z) : Z :=
  Z.lxor (Z.lxor (Z.land x y) (Z.land x z)) (Z.land y z).
Definition Sigma0 (x : Z) : Z := Z.lxor (Z.lxor (rotr 2 x) (rotr 13 x)) (rotr 22 x).
Definition Sigma1 (x : Z) : Z := Z.lxor (Z.lxor (rotr 6 x) (rotr 11 x)) (rotr 25 x).
Definition sigma0 (x : Z) : Z := Z.lxor (Z.lxor (rotr 7 x) (rotr 18 x)) (Z.shiftr x 3).
Definition sigma1 (x : Z) : Z := Z.lxor (Z.lxor (rotr 17 x) (rotr 19 x)) (Z.shiftr x 10).

(** The constants are derived as the standard defines them, from the first
    64 primes: the first 32 bits of the fractional parts of their cube
    roots (round constants) and, for the first 8, of their square roots
    (initial hash value). *)
Definition is_prime (n : Z) : bool :=
  forallb (fun d => negb (n mod Z.of_nat d =? 0)) (seq 2 (Z.to_nat n - 2)).

Definition primes : list Z := List.filter is_prime (map Z.of_nat (seq 2 310)).

(** Integer cube root by bisection between [lo] and [hi]. *)
Fixpoint icbrt_between (fuel : nat) (lo hi n : Z) : Z :=
  match fuel with
  | O => lo
  | S fuel' =>
      if hi - lo <=? 1 then lo
      else
        let mid := (lo + hi) / 2 in
        if mid * mid * mid <=? n
        then icbrt_between fuel' mid hi n
        else icbrt_between fuel' lo mid n
  end.

Definition icbrt (n : Z) : Z := icbrt_between 64 0 (2 ^ 36) n.

Definition K : list Z := map (fun q => w32 (icbrt (q * 2 ^ 96))) primes.

Definition H0 : list Z := map (fun q => w32 (Z.sqrt (q * 2 ^ 64))) (firstn 8 primes).

Definition bytes_of (s : string) : list Z :=
  map (fun c => Z.of_nat (nat_of_ascii c)) (list_ascii_of_string s).

(** Big-endian bytes of [x], [n] of them. *)
Fixpoint be_bytes (n : nat) (x : Z) : list Z :=
  match n with
  | O => []
  | S k => (Z.shiftr x (8 * Z.of_nat k)) mod 256 :: be_bytes k x
  end.

(** The message followed by 0x80, zeros up to 56 modulo 64, and the length
    in bits on 8 bytes. *)
Definition pad (msg : list Z) : list Z :=
  let len := Z.of_nat (length msg) in
  let zeros := Z.to_nat ((55 - len) mod 64) in
  msg ++ [0x80] ++ repeat 0 zeros ++ be_bytes 8 (8 * len).

Fixpoint words (fuel : nat) (bs : list Z) : list Z :=
  match fuel, bs with
  | S k, b0 :: b1 :: b2 :: b3 :: rest =>
      (b0 * 2 ^ 24 + b1 * 2 ^ 16 + b2 * 2 ^ 8 + b3) :: words k rest
  | _, _ => []
  end.

(** The message schedule, most recent word first. *)
Fixpoint schedule (n : nat) (w : list Z) : list Z :=
  match n with
  | O => w
  | S k =>
      let x := add32 (add32 (sigma1 (nth 1 w 0)) (nth 6 w 0))
                     (add32 (sigma0 (nth 14 w 0)) (nth 15 w 0)) in
      schedule k (x :: w)
  end.

Definition round (st : list Z) (kw : Z * Z) : list Z :=
  match st with
  | [a; b; c; d; e; f; g; h] =>
      let t1 := add32 (add32 (add32 h (Sigma1 e)) (add32 (Ch e f g) (fst kw))) (snd kw) in
      let t2 := add32 (Sigma0 a) (Maj a b c) in
      [add32 t1 t2; a; b; c; add32 d t1; e; f; g]
  | _ => st
  end.

Definition compress (h : list Z) (block : list Z) : list Z :=
  let w := rev (schedule 48 (rev (words 16 block))) in
  let st := fold_left round (combine K w) h in
  map (fun p => add32 (fst p) (snd p)) (combine h st).

Fixpoint blocks (fuel : nat) (h : list Z) (bs : list Z) : list Z :=
  match fuel with
  | O => h
  | S k =>
      match bs with
      | [] => h
      | _ => blocks k (compress h (firstn 64 bs)) (skipn 64 bs)
      end
  end.

Definition digest_words (s : string) : list Z :=
  let bs := pad (bytes_of s) in
  blocks (length bs) H0 bs.

Definition hex_digit (x : Z) : ascii :=
  if x <? 10 then ascii_of_nat (Z.to_nat (48 + x))
  else ascii_of_nat (Z.to_nat (87 + x)).

Fixpoint hex_word (n : nat) (x : Z) : string :=
  match n with
  | O => EmptyString
  | S k => String (hex_digit ((Z.shiftr x (4 * Z.of_nat k)) mod 16)) (hex_word k x)
  end.

(** The lower-case hexadecimal digest, as [hashlib]'s [hexdigest]. *)
Definition hexdigest_of (s : string) : string :=
  fold_right (fun w acc => hex_word 8 w +:+ acc) EmptyString (digest_words s).

End SHA256.

(** ** Values, exceptions and the interpreter state *)

(** The exceptions the script can meet; the string is the message. *)
Inductive exn :=
| AttributeError (msg : string)
| ValueError (msg : string)
| TypeError (msg : string)
| KeyError (msg : string)
| NameError (msg : string)
| IndexError (msg : string)
| OSError (msg : string)
| PycurlError (msg : string)
| JSONDecodeError (msg : string)
| Exception (msg : string).

Inductive outcome (A : Type) :=
| Ret (a : A)
| Raise (e : exn).
Arguments Ret {A} a.
Arguments Raise {A} e.

(** A decoded JSON document, as [json.loads] builds it. [JNull] is Python's
    [None]; [JNum] keeps the text of a number (the script only ever compares
    values with strings). *)
#[warnings="-register-all"]
Inductive json :=
| JNull
| JBool (b : bool)
| JNum (literal : string)
| JStr (s : string)
| JList (items : list json)
| JDict (entries : list (string * json)).

(** Calls that leave the interpreter. *)
Inductive call :=
| CallGpg (args : list string)
| CallListPacket (args : list string)
| CallGpgmeImport (pubkey : string)
| CallGpgmeVerify (signature tarball : string)
| CallCurl (url : option string).

(** The part of the machine the script reads and writes: regular files
    (path to bytes), directories, the [GNUPGHOME] entry of [os.environ],
    the lines printed so far and the external calls made so far (both oldest
    first). *)
Record pystate := mkState {
  files : gmap string string;
  dirs : gset string;
  environ_GNUPGHOME : option string;
  stdout : list string;
  calls : list call
}.

(** Result of [curl.perform()]: the final status code and the body, or a
    [pycurl.error] after part of the body has been written. *)
Inductive curl_result :=
| CurlDone (code : Z) (body : string)
| CurlError (msg : string) (partial : string).

(** What the [try: import gpgme as _gpg] at load time leaves bound. When
    the import succeeds the library is bound as [_gpg] and [GPG_CLI] stays
    [False]; when it fails, the handler imports [Popen] and [PIPE] and sets
    [GPG_CLI]. Exactly one of the two sets of names exists in a run. *)
Inductive gpg_binding :=
| GpgmeLibrary
    (** [_gpg.Context()] *)
    (context : pystate -> outcome unit)
    (** [ctx.import_], [ctx.get_key(result.imports[0][0])] and the
        assignment of [ctx.signers], on the bytes of a public key *)
    (import_key : string -> pystate -> outcome unit)
    (** [ctx.verify(signature, tarball, None)]: the [status] field of each
        signature found, [None] or an error with its [strerror] *)
    (verify_signature : string -> string -> pystate -> outcome (list (option string)))
| Subprocess
    (** [Popen(args, stdout=PIPE, stderr=PIPE)] then [communicate()]:
        standard output, standard error, return code *)
    (communicate : list string -> pystate -> outcome (string * string * Z)).

(** What the script does not contain: the programs and libraries it calls,
    the operating system's answer to creating a file, and what was bound at
    import time. Process output is given as decoded text. The world answers
    from what it can observe of the machine; it does not create or remove
    the files and directories the machine tracks. *)
Record world := mkWorld {
  (** [os.path.dirname(os.path.abspath(__file__))] *)
  script_dir : string;
  (** the outcome of [import gpgme] *)
  imported : gpg_binding;
  (** [open(path, 'wb')]: whether the operating system creates or truncates
      the file; it refuses with an [OSError] when the parent directory is
      missing, the path is a directory or permission is denied *)
  os_open_wb : string -> pystate -> outcome unit;
  (** [curl.perform()] on a handle set to a URL; the flag is FOLLOWLOCATION *)
  curl_perform : option string -> bool -> curl_result;
  (** [json.loads] *)
  json_loads : string -> outcome json
}.

(** The module global [GPG_CLI]: true when [import gpgme] failed. *)
Definition GPG_CLI (w : world) : bool :=
  match imported w with
  | Subprocess _ => true
  | GpgmeLibrary _ _ _ => false
  end.

(** [Popen(args, stdout=PIPE, stderr=PIPE)] then [communicate()]. The name
    is looked up when the call is reached and is unbound when [import gpgme]
    succeeded. *)
Definition popen (w : world) (args : list string) (st : pystate)
  : outcome (string * string * Z) :=
  match imported w with
  | Subprocess communicate => communicate args st
  | GpgmeLibrary _ _ _ => Raise (NameError "name 'Popen' is not defined")
  end.

(** The operations of [_gpg], unbound when [import gpgme] failed. The
    context is made first, so only its lookup can fail in a run. *)
Definition gpgme_context (w : world) (st : pystate) : outcome unit :=
  match imported w with
  | GpgmeLibrary context _ _ => context st
  | Subprocess _ => Raise (NameError "name '_gpg' is not defined")
  end.

Definition gpgme_import (w : world) (pubkey : string) (st : pystate) : outcome unit :=
  match imported w with
  | GpgmeLibrary _ import_key _ => import_key pubkey st
  | Subprocess _ => Raise (NameError "name '_gpg' is not defined")
  end.

Definition gpgme_verify (w : world) (signature tarball : string) (st : pystate)
  : outcome (list (option string)) :=
  match imported w with
  | GpgmeLibrary _ _ verify_signature => verify_signature signature tarball st
  | Subprocess _ => Raise (NameError "name '_gpg' is not defined")
  end.

Arguments GPG_CLI : simpl never.
Arguments popen : simpl never.
Arguments gpgme_context : simpl never.
Arguments gpgme_import : simpl never.
Arguments gpgme_verify : simpl never.

(** ** The monad of effectful code *)

Definition M (A : Type) : Type := pystate -> outcome A * pystate.

Definition ret {A} (a : A) : M A := fun st => (Ret a, st).
Definition raise {A} (e : exn) : M A := fun st => (Raise e, st).
Definition bind {A B} (m : M A) (k : A -> M B) : M B :=
  fun st =>
    match m st with
    | (Ret a, st') => k a st'
    | (Raise e, st') => (Raise e, st')
    end.
Definition lift {A} (o : outcome A) : M A := fun st => (o, st).

Declare Scope py_scope.
Delimit Scope py_scope with py.
Notation "x <- m ;; k" := (bind m (fun x => k))
  (at level 100, m at next level, right associativity) : py_scope.
Notation "m ;;; k" := (bind m (fun _ => k))
  (at level 100, right associativity) : py_scope.
Open Scope py_scope.

(** [try: body finally: fin], after [body] has run with outcome [r]: an
    exception of [fin] replaces [r]. *)
Definition finally {A} (r : outcome A) (fin : M unit) : M A :=
  fun st =>
    match fin st with
    | (Ret _, st') => (r, st')
    | (Raise e, st') => (Raise e, st')
    end.

(** [print(line)] *)
Definition print (line : string) : M unit :=
  fun st => (Ret tt, mkState (files st) (dirs st) (environ_GNUPGHOME st)
                             (stdout st ++ [line]) (calls st)).

Definition record_call (c : call) : M unit :=
  fun st => (Ret tt, mkState (files st) (dirs st) (environ_GNUPGHOME st)
                             (stdout st) (calls st ++ [c])).

(** What an external program can observe of the interpreter: the file
    system and the environment, not what was printed or called before. *)
Definition visible (st : pystate) : pystate :=
  mkState (files st) (dirs st) (environ_GNUPGHOME st) [] [].

(** [os.path.exists] *)
Definition path_exists (p : string) (st : pystate) : bool :=
  bool_decide (is_Some (files st !! p)) || bool_decide (p ∈ dirs st).

Definition os_path_exists (p : option string) : M bool :=
  match p with
  | None => raise (TypeError "stat: path should be string, bytes, os.PathLike or integer, not NoneType")
  | Some p => fun st => (Ret (path_exists p st), st)
  end.

(** [open(path, 'rb')] followed by [read()] of the whole file. *)
Definition read_file (p : string) : M string :=
  fun st =>
    match files st !! p with
    | Some bytes => (Ret bytes, st)
    | None => (Raise (OSError ("No such file or directory: " +:+ p)), st)
    end.

(** [open(path, 'wb')]: the operating system refuses, or the file exists
    and is empty afterwards. *)
Definition open_wb (w : world) (p : string) : M unit :=
  fun st =>
    match os_open_wb w p (visible st) with
    | Ret _ => (Ret tt, mkState (<[p := ""]> (files st)) (dirs st)
                                (environ_GNUPGHOME st) (stdout st) (calls st))
    | Raise e => (Raise e, st)
    end.

(** [curl.setopt(curl.URL, url)]: [None] asks pycurl to unset the option,
    which it does not support for the URL. *)
Definition setopt_URL (url : option string) : M unit :=
  match url with
  | Some _ => ret tt
  | None => raise (TypeError "unsetopt() is not supported for this option")
  end.

Definition write_file (p : string) (bytes : string) : M unit :=
  fun st => (Ret tt, mkState (<[p := bytes]> (files st)) (dirs st)
                             (environ_GNUPGHOME st) (stdout st) (calls st)).

(** [os.unlink] *)
Definition os_unlink (p : string) : M unit :=
  fun st =>
    match files st !! p with
    | Some _ => (Ret tt, mkState (delete p (files st)) (dirs st)
                                 (environ_GNUPGHOME st) (stdout st) (calls st))
    | None => (Raise (OSError ("No such file or directory: " +:+ p)), st)
    end.

(** [tempfile.mkdtemp(prefix=...)]: creates a directory under a name that
    did not exist. *)
Definition mkdtemp (prefix : string) (st : pystate) : string * pystate :=
  let d := fresh_string_of_set ("/tmp/" +:+ prefix) (dirs st) in
  (d, mkState (files st) ({[d]} ∪ dirs st) (environ_GNUPGHOME st)
              (stdout st) (calls st)).

(** [shutil.rmtree(d, ignore_errors=True)] *)
Definition rmtree (d : string) : M unit :=
  fun st => (Ret tt, mkState (files st) (dirs st ∖ {[d]}) (environ_GNUPGHOME st)
                             (stdout st) (calls st)).

(** [os.environ['GNUPGHOME'] = d] *)
Definition set_GNUPGHOME (d : string) : M unit :=
  fun st => (Ret tt, mkState (files st) (dirs st) (Some d) (stdout st) (calls st)).

(** [del os.environ['GNUPGHOME']] *)
Definition del_GNUPGHOME : M unit :=
  fun st =>
    match environ_GNUPGHOME st with
    | Some _ => (Ret tt, mkState (files st) (dirs st) None (stdout st) (calls st))
    | None => (Raise (KeyError "GNUPGHOME"), st)
    end.

(** ['{}'.format(x)] for a value that is [None] or a string. *)
Definition fmt (v : option string) : string :=
  match v with
  | Some s => s
  | None => "None"
  end.

(** A value that must be a string where [None] makes the operation raise. *)
Definition as_str (v : option string) : M string :=
  match v with
  | Some s => ret s
  | None => raise (TypeError "expected str, not NoneType")
  end.

Definition LF : string := String (ascii_of_nat 10) EmptyString.
Definition ESC : string := String (ascii_of_nat 27) EmptyString.

(** ** [hashlib.sha256] objects and binary files opened for reading *)

Module Hashlib.

(** A hash object is determined by the bytes fed to it so far: [update(a)]
    then [update(b)] is [update(a + b)]. *)
Record sha256 := { fed : string }.

Definition new : sha256 := {| fed := "" |}.
Definition update (h : sha256) (block : string) : sha256 :=
  {| fed := fed h +:+ block |}.
Definition hexdigest (h : sha256) : string := SHA256.hexdigest_of (fed h).

End Hashlib.

(** [for block in iter(lambda: gem.read(BLOCK_SIZE), b''): sha256.update(block)]
    on the unread part [rest] of the file. Each turn of the loop is one
    [read]; [fuel] bounds the number of turns. *)
Fixpoint read_blocks (fuel BLOCK_SIZE : nat) (rest : string) (h : Hashlib.sha256)
  : Hashlib.sha256 :=
  match fuel with
  | O => h
  | S fuel' =>
      let block := PyStr.take BLOCK_SIZE rest in
      if String.eqb block "" then h
      else read_blocks fuel' BLOCK_SIZE (PyStr.drop BLOCK_SIZE rest)
             (Hashlib.update h block)
  end.

(** ** The script *)

Definition SEPT : string :=
  "-------------------------------------------------------------------------------".

Definition RUBYORG_API (package_name : string) : string :=
  "https://rubygems.org/api/v1/versions/" +:+ package_name +:+ ".json".

(** An instance is its [__dict__]: attribute name to [None] or a string. *)
Abbreviation instance := (gmap string (option string)).

Definition getattr (cls : string) (self : instance) (attr : string)
  : M (option string) :=
  match self !! attr with
  | Some v => ret v
  | None => raise (AttributeError
      ("'" +:+ cls +:+ "' object has no attribute '" +:+ attr +:+ "'"))
  end.

Definition print_success (msg : string) : M unit :=
  print (ESC +:+ "[92mSUCCESS:" +:+ ESC +:+ "[0m " +:+ msg).

Definition print_error (msg : string) : M unit :=
  print (ESC +:+ "[91mERROR  :" +:+ ESC +:+ "[0m " +:+ msg).

Definition filename_from_url (url : string) : string := OsPath.basename url.

(** [name, _ = pieces] *)
Definition unpack2 (pieces : list string) : M (string * string) :=
  match pieces with
  | [a; b] => ret (a, b)
  | [] | [_] => raise (ValueError "not enough values to unpack (expected 2)")
  | _ => raise (ValueError "too many values to unpack (expected 2)")
  end.

(** [gem.get(key, default)] on a decoded JSON value; only a dict has [get]. *)
Fixpoint dict_lookup (key : string) (entries : list (string * json)) : option json :=
  match entries with
  | [] => None
  | (k, v) :: rest => if String.eqb k key then Some v else dict_lookup key rest
  end.

Definition json_get (gem : json) (key : string) (default : json) : outcome json :=
  match gem with
  | JDict entries =>
      match dict_lookup key entries with
      | Some v => Ret v
      | None => Ret default
      end
  | _ => Raise (AttributeError "object has no attribute 'get'")
  end.

(** [value == text] for a decoded JSON value and a string. *)
Definition json_eq_str (value : json) (text : string) : bool :=
  match value with
  | JStr s => String.eqb s text
  | _ => false
  end.

(** Iterating over a decoded JSON value: a list yields its items, a dict
    its keys, a string its characters; anything else is not iterable. *)
Definition json_iter (gems : json) : outcome (list json) :=
  match gems with
  | JList items => Ret items
  | JDict entries => Ret (map (fun kv => JStr (fst kv)) entries)
  | JStr s => Ret (map (fun c => JStr (String c EmptyString)) (list_ascii_of_string s))
  | _ => Raise (TypeError "object is not iterable")
  end.

(** [[gem for gem in gems if gem.get('number', -100) == number]] *)
Fixpoint select_gems (items : list json) (number : string) : outcome (list json) :=
  match items with
  | [] => Ret []
  | gem :: rest =>
      match json_get gem "number" (JNum "-100") with
      | Raise e => Raise e
      | Ret v =>
          match select_gems rest number with
          | Raise e => Raise e
          | Ret mygem => Ret (if json_eq_str v number then gem :: mygem else mygem)
          end
      end
  end.

(** [GEMShaVerifier.get_gemnumber_sha] *)
Definition get_gemnumber_sha (gems : json) (number : string) : outcome json :=
  match json_iter gems with
  | Raise e => Raise e
  | Ret items =>
      match select_gems items number with
      | Raise e => Raise e
      | Ret [gem] => json_get gem "sha" JNull
      | Ret _ => Ret JNull
      end
  end.

(** [GEMShaVerifier.calc_sha] with the block size as a parameter. The loop
    needs at most one [read] per byte and a last one at the end of file. *)
Definition calc_sha_with (BLOCK_SIZE : nat) (gemfile_path : string) : M string :=
  content <- read_file gemfile_path ;;
  ret (Hashlib.hexdigest
         (read_blocks (S (String.length content)) BLOCK_SIZE content Hashlib.new)).

Definition calc_sha (gemfile_path : string) : M string :=
  calc_sha_with 4096 gemfile_path.

(** The [GPGCli] wrapper object. *)
Record GPGCli := { cli_args : list string }.

Section Script.

Context (w : world).

(** [GPGCli.exec_cmd]: a process is started where [Popen] is bound; where
    it is not, looking the name up raises [NameError]. *)
Definition exec_cmd (args : list string) : M (string * string * Z) :=
  if GPG_CLI w
  then record_call (CallGpg args) ;;;
       fun st => (popen w args (visible st), st)
  else raise (NameError "name 'Popen' is not defined").

(** [GPGCli.__init__] *)
Definition GPGCli_init (pubkey home : option string) : M GPGCli :=
  (match pubkey with
   | Some pk =>
       _gpghome <- (match home with
                    | Some h => ret h
                    | None => fun st => let '(d, st') := mkdtemp "tmp.gpghome" st in
                                        (Ret d, st')
                    end) ;;
       set_GNUPGHOME _gpghome ;;;
       r <- exec_cmd ["gpg"; "--import"; pk] ;;
       let '(_, err, code) := r in
       if (code =? 0)%Z then ret tt else raise (Exception err)
   | None => ret tt
   end) ;;;
  ret {| cli_args := ["gpg"; "--verify"] |}.

(** [GPGCli.verify]: [None], or the [strerror] of a [GPGCliStatus]. *)
Definition GPGCli_verify (self : GPGCli) (_pubkey : option string)
    (tarfile signature : string) : M (option string) :=
  r <- exec_cmd (cli_args self ++ [signature; tarfile]) ;;
  let '(_, err, code) := r in
  if (code =? 0)%Z then ret None else ret (Some err).

(** [with cli_gpg_ctx(pubkey, gpghome) as ctx: body(ctx)] *)
Definition cli_gpg_ctx {A} (pubkey gpghome : option string)
    (body : GPGCli -> M A) : M A :=
  match pubkey with
  | None => ctx <- GPGCli_init None None ;; body ctx
  | Some _ =>
      fun st =>
        (* try: *)
        let '(_gpghome, st1) :=
          match gpghome with
          | Some h => (h, st)
          | None => mkdtemp "tmp.gpghome" st
          end in
        let '(r, st2) :=
          (ctx <- GPGCli_init pubkey (Some _gpghome) ;; body ctx) st1 in
        (* finally: *)
        finally r
          (match gpghome with
           | None => del_GNUPGHOME ;;; rmtree _gpghome
           | Some _ => ret tt
           end) st2
  end.

(** [with gpg_ctx(pubkey, gpghome) as ctx: body(ctx)] *)
Definition gpg_ctx {A} (pubkey gpghome : option string)
    (body : unit -> M A) : M A :=
  match pubkey with
  | None => (fun s => (gpgme_context w (visible s), s)) ;;; body tt
  | Some pk =>
      fun st =>
        let '(_gpghome, st1) := mkdtemp "tmp.gpghome" st in
        let '(_, st2) := set_GNUPGHOME _gpghome st1 in
        (* try: *)
        let '(r, st3) :=
          ((fun s => (gpgme_context w (visible s), s)) ;;;
           _pubkey <- read_file pk ;;
           record_call (CallGpgmeImport pk) ;;;
           (fun s => (gpgme_import w _pubkey (visible s), s)) ;;;
           body tt) st2 in
        (* finally: *)
        finally r
          (match gpghome with
           | None => del_GNUPGHOME ;;; rmtree _gpghome
           | Some _ => ret tt
           end) st3
  end.

(** [verify_gpgme]; the [raise] after the [with] block is never reached,
    the block returns or raises. *)
Definition verify_gpgme (pubkey : option string) (tarball signature : string)
    (gpghome : option string) : M (option string) :=
  signature_bytes <- read_file signature ;;
  tarball_bytes <- read_file tarball ;;
  gpg_ctx pubkey gpghome (fun _ =>
    record_call (CallGpgmeVerify signature tarball) ;;;
    sigs <- (fun s => (gpgme_verify w signature_bytes tarball_bytes (visible s), s)) ;;
    match sigs with
    | status :: _ => ret status
    | [] => raise (IndexError "list index out of range")
    end).

(** [verify_cli] *)
Definition verify_cli (pubkey : option string) (tarball signature : string)
    (gpghome : option string) : M (option string) :=
  cli_gpg_ctx pubkey gpghome (fun ctx =>
    GPGCli_verify ctx pubkey tarball signature).

(** [parse_keyid] *)
Definition parse_keyid (sig_filename : string) : M (option string) :=
  let args := ["gpg"; "--list-packet"; sig_filename] in
  r <- (if GPG_CLI w
        then record_call (CallListPacket args) ;;;
             fun st => (popen w args (visible st), st)
        else raise (NameError "name 'Popen' is not defined")) ;;
  let '(out, err, _) := r in
  if negb (String.eqb err "") then print err ;;; ret None
  else
    match PyStr.find "keyid" out with
    | None => raise (ValueError "substring not found")
    | Some i =>
        let ai := (i + String.length "keyid ")%nat in
        match PyStr.find LF (PyStr.drop ai out) with
        | None => raise (ValueError "substring not found")
        | Some j =>
            let bi := (ai + j)%nat in
            ret (Some (PyStr.strip (PyStr.slice ai bi out)))
        end
    end.

(** [get_keyid] *)
Definition get_keyid (sig_filename : string) : M string :=
  keyid <- parse_keyid sig_filename ;;
  match keyid with
  | Some k => ret (PyStr.upper k)
  | None => raise (AttributeError "'NoneType' object has no attribute 'upper'")
  end.

(** [attempt_to_download]: [None] or the HTTP status code. The destination
    is opened first; an exception of [open] or of [setopt] is not caught. *)
Definition attempt_to_download (url : option string) (sign_filename : string)
  : M (option Z) :=
  open_wb w sign_filename ;;;
  setopt_URL url ;;;
  record_call (CallCurl url) ;;;
  match curl_perform w url true with
  | CurlError msg partial =>
      write_file sign_filename partial ;;;
      print msg ;;;
      ret None
  | CurlDone code body =>
      write_file sign_filename body ;;;
      (if negb (code =? 200)%Z then os_unlink sign_filename else ret tt) ;;;
      ret (Some code)
  end.

(** [Verifier.__init__] on a fresh instance. *)
Definition Verifier_init (kwargs : gmap string string) (self : instance)
  : M instance :=
  let self := <["url" := kwargs !! "url"]> self in
  let self := <["package_sign_path" := kwargs !! "package_sign_path"]> self in
  print SEPT ;;;
  ret self.

(** [Verifier.download_file] *)
Definition download_file (url : option string) (destination : string)
  : M (option Z) :=
  attempt_to_download url destination.

(** [Verifier.print_result] *)
Definition print_result (cls : string) (self : instance) (result : bool)
    (err_msg : string) : M unit :=
  url <- getattr cls self "url" ;;
  let package_name :=
    match url with
    | Some u => OsPath.basename u
    | None => ""
    end in
  if result
  then print_success (package_name +:+ " verification was successful")
  else print_error (package_name +:+ " verification failed " +:+ err_msg).

(** [GPGVerifier.__init__] *)
Definition GPGVerifier_init (kwargs : gmap string string) : M instance :=
  self <- Verifier_init kwargs ∅ ;;
  let self := <["key_url" := kwargs !! "key_url"]> self in
  let self := <["package_path" := kwargs !! "package_path"]> self in
  key_url <- getattr "GPGVerifier" self "key_url" ;;
  url <- getattr "GPGVerifier" self "url" ;;
  let self :=
    match key_url, url with
    | None, Some u => <["key_url" := Some (u +:+ ".asc")]> self
    | _, _ => self
    end in
  package_sign_path <- getattr "GPGVerifier" self "package_sign_path" ;;
  match package_sign_path with
  | Some _ => ret self
  | None =>
      package_path <- getattr "GPGVerifier" self "package_path" ;;
      p <- as_str package_path ;;
      ret (<["package_sign_path" := Some (p +:+ ".asc")]> self)
  end.

(** [GPGVerifier.get_pubkey_path] *)
Definition get_pubkey_path (self : instance) : M string :=
  package_sign_path <- getattr "GPGVerifier" self "package_sign_path" ;;
  sig_filename <- as_str package_sign_path ;;
  keyid <- get_keyid sig_filename ;;
  ret (script_dir w +:+ "/" +:+ "keyring" +:+ "/" +:+ keyid +:+ ".pkey").

(** [GPGVerifier.get_sign]: true for [True], false for the implicit [None]. *)
Definition get_sign (self : instance) : M bool :=
  key_url <- getattr "GPGVerifier" self "key_url" ;;
  package_sign_path <- getattr "GPGVerifier" self "package_sign_path" ;;
  destination <- as_str package_sign_path ;;
  code <- download_file key_url destination ;;
  match code with
  | Some 200%Z => ret true
  | _ =>
      print_error ("Unable to download file " +:+ fmt key_url +:+ " http code "
                   +:+ match code with Some c => pretty c | None => "None" end) ;;;
      ret false
  end.

(** [GPGVerifier.verify]: [Some true] for [True], [None] for [None]. *)
Definition GPGVerifier_verify (self : instance) : M (option bool) :=
  print ("Performing GPG signature verification for package" +:+ LF) ;;;
  package_path <- getattr "GPGVerifier" self "package_path" ;;
  found <- os_path_exists package_path ;;
  if negb found
  then print_result "GPGVerifier" self false (fmt package_path +:+ " not found") ;;;
       ret None
  else
    package_sign_path <- getattr "GPGVerifier" self "package_sign_path" ;;
    have_sign <- os_path_exists package_sign_path ;;
    missing <- (if negb have_sign
                then got <- get_sign self ;; ret (negb got)
                else ret false) ;;
    if (missing : bool)
    then print_result "GPGVerifier" self false
           (fmt package_sign_path +:+ " not found") ;;;
         ret None
    else
      pub_key <- get_pubkey_path self ;;
      have_key <- os_path_exists (Some pub_key) ;;
      if negb have_key
      then sig_filename <- as_str package_sign_path ;;
           key_id <- get_keyid sig_filename ;;
           print_result "GPGVerifier" self false
             ("Public key " +:+ key_id +:+ " not found in keyring") ;;;
           ret None
      else
        tarball <- as_str package_path ;;
        signature <- as_str package_sign_path ;;
        sign_status <- (if GPG_CLI w then verify_cli else verify_gpgme)
                         (Some pub_key) tarball signature None ;;
        match sign_status with
        | None =>
            print_result "GPGVerifier" self (PyStr.truthy tarball) "" ;;;
            ret (Some true)
        | Some strerror =>
            print_result "GPGVerifier" self false strerror ;;;
            ret None
        end.

(** [GEMShaVerifier.__init__] *)
Definition GEMShaVerifier_init (kwargs : gmap string string) : M instance :=
  Verifier_init kwargs ∅.

(** [GEMShaVerifier.get_rubygems_info] *)
Definition get_rubygems_info (package_name : string) : M json :=
  let url := RUBYORG_API package_name in
  record_call (CallCurl (Some url)) ;;;
  match curl_perform w (Some url) false with
  | CurlError msg _ => raise (PycurlError msg)
  | CurlDone _ body => lift (json_loads w body)
  end.

(** [GEMShaVerifier.verify] *)
Definition GEMShaVerifier_verify (self : instance) : M (option bool) :=
  print ("Performing SHA256 checksum for package" +:+ LF) ;;;
  attr <- getattr "GEMShaVerifier" self "package_path" ;;
  package_path <- as_str attr ;;
  let gemname := PyStr.replace ".gem" "" (OsPath.basename package_path) in
  name_rest <- unpack2 (Re.split package_path) ;;
  let name := fst name_rest in
  let number := PyStr.replace (name +:+ "-") "" gemname in
  geminfo <- get_rubygems_info name ;;
  gemsha <- lift (get_gemnumber_sha geminfo number) ;;
  match geminfo with
  | JNull =>
      print_error ("unable to parse info for gem " +:+ gemname) ;;;
      ret None
  | _ =>
      calcsha <- calc_sha package_path ;;
      print_result "GEMShaVerifier" self (json_eq_str gemsha calcsha) "" ;;;
      ret (Some (json_eq_str gemsha calcsha))
  end.

(** Calling the class found by [get_verifier] and then [verify] on the new
    instance; [__del__] prints when the instance is released on return. *)
Definition construct (cls : verifier_class) (kwargs : gmap string string)
  : M instance :=
  match cls with
  | GPGVerifier => GPGVerifier_init kwargs
  | GEMShaVerifier => GEMShaVerifier_init kwargs
  end.

Definition verify (cls : verifier_class) (v : instance) : M (option bool) :=
  match cls with
  | GPGVerifier => GPGVerifier_verify v
  | GEMShaVerifier => GEMShaVerifier_verify v
  end.

Definition Verifier_del : M unit := print SEPT.

(** [from_url] *)
Definition from_url (url download_path : string) : M (option bool) :=
  let package_name := filename_from_url url in
  let package_path := OsPath.join download_path package_name in
  match get_verifier package_name with
  | None =>
      print_error ("File " +:+ package_name +:+ " is not verifiable (yet)") ;;;
      ret None
  | Some verifier =>
      v <- construct verifier
             (<["package_path" := package_path]> (<["url" := url]> ∅)) ;;
      r <- verify verifier v ;;
      Verifier_del ;;;
      ret r
  end.

(** [from_disk] *)
Definition from_disk (package_path package_check : string) : M (option bool) :=
  match get_verifier package_path with
  | None =>
      print ("File " +:+ package_path +:+ " is not verifiable") ;;;
      ret None
  | Some verifier =>
      v <- construct verifier
             (<["package_path" := package_path]>
                (<["package_check" := package_check]> ∅)) ;;
      r <- verify verifier v ;;
      Verifier_del ;;;
      ret r
  end.

(** The namespace [parse_args] returns: [--tar] and [--sig] are required,
    [--pubkey] and [--gnupghome] default to [None]. *)
Record namespace := mkArgs {
  arg_tar : string;
  arg_sig : string;
  arg_pubkey : option string;
  arg_gnupghome : option string
}.

(** [main]: the result of [from_disk] is dropped. *)
Definition main (args : namespace) : M unit :=
  from_disk (arg_tar args) (arg_sig args) ;;;
  ret tt.

End Script.

(** ** Vocabulary of the statements *)

Fixpoint all_digits (s : string) : bool :=
  match s with
  | EmptyString => true
  | String c s' => PyStr.isdigit c && all_digits s'
  end.

(** The strings the pattern ['-\d+\.'] matches: a hyphen, one or more
    digits, a dot. *)
Definition version_delimiter (m : string) : Prop :=
  exists ds : string, m = "-" +:+ ds +:+ "." /\ ds <> "" /\ all_digits ds = true.

(** [s] has a substring the pattern matches. *)
Definition contains_delimiter (s : string) : Prop :=
  exists pre m post : string, version_delimiter m /\ s = pre +:+ m +:+ post.

(** Whether the pattern matches at some position of [s]. *)
Fixpoint has_match (s : string) : bool :=
  match s with
  | EmptyString => false
  | String c s' =>
      match Re.match_at s with
      | Some _ => true
      | None => has_match s'
      end
  end.

(** [c in s] for a character. *)
Fixpoint has_char (c : ascii) (s : string) : bool :=
  match s with
  | EmptyString => false
  | String a s' => Ascii.eqb a c || has_char c s'
  end.

Fixpoint all_dots (s : string) : bool :=
  match s with
  | EmptyString => true
  | String c s' => Ascii.eqb c "." && all_dots s'
  end.

(** The file extension of a name, in words: the name is a directory part
    (empty or ending with the separator), a stem and the extension; the
    extension is a dot followed by characters other than the dot and the
    separator; the stem has no separator and has a character other than
    the dot, so that a name such as [.gz] or [dl/..gem] has no extension. *)
Definition has_extension (filename ext : string) : Prop :=
  exists dir stem t : string,
    filename = dir +:+ stem +:+ ext
    /\ ext = String "." t
    /\ (dir = "" \/ exists d, dir = d +:+ "/")
    /\ has_char "/" stem = false
    /\ all_dots stem = false
    /\ has_char "." t = false
    /\ has_char "/" t = false.

(** The outcome a return value of [verify] of the gem strategy stands for:
    [True] after the success line, [False] after the failure line, [None]
    after ["unable to parse info"]. *)
Inductive verification_outcome := Verified | Failed | Indeterminate.

Definition outcome_of (r : option bool) : verification_outcome :=
  match r with
  | Some true => Verified
  | Some false => Failed
  | None => Indeterminate
  end.

Definition is_dict (value : json) : bool :=
  match value with
  | JDict _ => true
  | _ => false
  end.

(** A release record whose ['number'] is the string [number]. *)
Definition release_matches (number : string) (gem : json) : bool :=
  match gem with
  | JDict entries =>
      match dict_lookup "number" entries with
      | Some (JStr v) => String.eqb v number
      | _ => false
      end
  | _ => false
  end.

(** The version [GEMShaVerifier.verify] looks up for a path that splits
    into [name] and a rest. *)
Definition gem_number (package_path name : string) : string :=
  PyStr.replace (name +:+ "-") ""
    (PyStr.replace ".gem" "" (OsPath.basename package_path)).

(** The directories on disk are [D] and [GNUPGHOME] is [E]. *)
Definition keyring_state (D : gset string) (E : option string) (st : pystate) : Prop :=
  dirs st = D /\ environ_GNUPGHOME st = E.

(** A computation maintains a property of the machine on every exit. *)
Definition maintains {A} (I : pystate -> Prop) (m : M A) : Prop :=
  forall st, I st -> I (snd (m st)).

(** ** Sample worlds and machines for the concrete runs *)

(** A world without network in which every [gpg] call succeeds silently. *)
Definition quiet_world : world :=
  {| script_dir := "/opt/autospec";
     imported :=
       Subprocess
         (fun _ _ => Ret ("", "", 0%Z));
     os_open_wb := fun _ _ => Ret tt;
     curl_perform := fun _ _ => CurlError "(6, 'Could not resolve host')" "";
     json_loads := fun _ => Raise (JSONDecodeError "Expecting value: line 1 column 1 (char 0)") |}.

(** A world whose registry answers every query with status [code] and
    [body], which [json.loads] decodes to [doc] or rejects. *)
Definition registry_world (code : Z) (body : string) (doc : outcome json) : world :=
  {| script_dir := "/opt/autospec";
     imported :=
       Subprocess
         (fun _ _ => Ret ("", "", 0%Z));
     os_open_wb := fun _ _ => Ret tt;
     curl_perform := fun _ _ => CurlDone code body;
     json_loads := fun _ => doc |}.

Definition empty_machine : pystate := mkState ∅ ∅ None [] [].

(** A machine holding the gem [bar-2.0.0.gem] with the three bytes [abc]. *)
Definition gem_machine : pystate :=
  mkState {["bar-2.0.0.gem" := "abc"]} ∅ None [] [].

(** A gem verifier for [bar-2.0.0.gem] with [package_path] set. *)
Definition bar_verifier : instance :=
  <["package_path" := Some "bar-2.0.0.gem"]>
    (<["package_sign_path" := None]> (<["url" := None]> ∅)).

Definition sha_of_abc : string :=
  "ba7816bf8f01cfea414140de5dae2223b00361a396177a9cb410ff61f20015ad".

(** A world in which [gpg --list-packet] answers with the given standard
    output and standard error. *)
Definition listing_world (out err : string) (code : Z) : world :=
  {| script_dir := "/opt/autospec";
     imported :=
       Subprocess
         (fun _ _ => Ret (out, err, code));
     os_open_wb := fun _ _ => Ret tt;
     curl_perform := fun _ _ => CurlError "(6, 'Could not resolve host')" "";
     json_loads := fun _ => Raise (JSONDecodeError "Expecting value: line 1 column 1 (char 0)") |}.

(** The start of what [gpg --list-packet] prints for a detached signature. *)
Definition sample_listing : string :=
  ":signature packet: algo 1, keyid 0123456789abcdef" +:+ LF +:+
  "	version 4, created 1500000000, md5len 0, sigclass 0x00" +:+ LF.

(** A world whose transfers break after the bytes [partial]. *)
Definition broken_network (partial : string) : world :=
  {| script_dir := "/opt/autospec";
     imported :=
       Subprocess
         (fun _ _ => Ret ("", "", 0%Z));
     os_open_wb := fun _ _ => Ret tt;
     curl_perform := fun _ _ => CurlError "(56, 'Recv failure: Connection reset by peer')" partial;
     json_loads := fun _ => Raise (JSONDecodeError "Expecting value: line 1 column 1 (char 0)") |}.

(** A world whose [gpg] fails every command with the given message. *)
Definition failing_gpg_world (err : string) : world :=
  {| script_dir := "/opt/autospec";
     imported :=
       Subprocess
         (fun _ _ => Ret ("", err, 2%Z));
     os_open_wb := fun _ _ => Ret tt;
     curl_perform := fun _ _ => CurlError "(6, 'Could not resolve host')" "";
     json_loads := fun _ => Raise (JSONDecodeError "Expecting value: line 1 column 1 (char 0)") |}.

(** A machine with a keyring directory of the caller. *)
Definition keyring_machine : pystate :=
  mkState ∅ {["/opt/pki/gpghome"]} None [] [].

(** A machine with the package and its signature, and no keyring entry. *)
Definition package_machine : pystate :=
  mkState {["foo-1.2.3.tar.gz" := "data"; "foo-1.2.3.tar.gz.asc" := "signature"]}
    ∅ None [] [].

(** The verifier [from_disk] builds for [foo-1.2.3.tar.gz]. *)
Definition foo_verifier : instance :=
  <["package_sign_path" := Some "foo-1.2.3.tar.gz.asc"]>
    (<["package_path" := Some "foo-1.2.3.tar.gz"]>
       (<["key_url" := None]>
          (<["package_sign_path" := None]> (<["url" := None]> ∅)))).

(** ** Vocabulary of the further properties *)

(** A world in which [open] refuses every destination with the given
    message; the server would answer 200. *)
Definition read_only_world (msg : string) : world :=
  {| script_dir := "/opt/autospec";
     imported := Subprocess (fun _ _ => Ret ("", "", 0%Z));
     os_open_wb := fun _ _ => Raise (OSError msg);
     curl_perform := fun _ _ => CurlDone 200 "signature";
     json_loads := fun _ => Raise (JSONDecodeError "Expecting value: line 1 column 1 (char 0)") |}.

(** A verifier as [from_url] builds it for
    [https://example.org/foo-1.2.3.tar.gz] with the current directory as
    download path. *)
Definition foo_url_verifier : instance :=
  <["key_url" := Some "https://example.org/foo-1.2.3.tar.gz.asc"]>
    (<["url" := Some "https://example.org/foo-1.2.3.tar.gz"]> foo_verifier).

(** A computation whose normal results all satisfy [P]. *)
Definition returns_only {A} (P : A -> Prop) (m : M A) : Prop :=
  forall st a, fst (m st) = Ret a -> P a.


(** Empty, or starting with a character that is no white space. *)
Definition starts_black (s : string) : bool :=
  match s with
  | EmptyString => true
  | String c _ => negb (PyStr.isspace c)
  end.

(** A machine on which the package [foo-1.2.3.tar.gz] is present and its
    signature is not. *)
Definition unsigned_machine : pystate :=
  mkState {["foo-1.2.3.tar.gz" := "data"]} ∅ None [] [].

(** A world whose server answers every request with [code] and [body]. *)
Definition status_world (code : Z) (body : string) : world :=
  {| script_dir := "/opt/autospec";
     imported :=
       Subprocess
         (fun _ _ => Ret ("", "", 0%Z));
     os_open_wb := fun _ _ => Ret tt;
     curl_perform := fun _ _ => CurlDone code body;
     json_loads := fun _ => Raise (JSONDecodeError "Expecting value: line 1 column 1 (char 0)") |}.

(** A world with the native engine, whose verification reports the given
    signature statuses. *)
Definition gpgme_world (sigs : list (option string)) : world :=
  {| script_dir := "/opt/autospec";
     imported :=
       GpgmeLibrary (fun _ => Ret tt) (fun _ _ => Ret tt)
         (fun _ _ _ => Ret sigs);
     os_open_wb := fun _ _ => Ret tt;
     curl_perform := fun _ _ => CurlError "(6, 'Could not resolve host')" "";
     json_loads := fun _ => Raise (JSONDecodeError "Expecting value: line 1 column 1 (char 0)") |}.

(** A machine with the package, its signature, a public key file and the
    keyring entry of the sample signature. *)
Definition signed_machine : pystate :=
  mkState (<["author.pubkey" := "key"]>
             (<["/opt/autospec/keyring/0123456789ABCDEF.pkey" := "key"]>
                (files package_machine))) ∅ None [] [].

(** A world with the command-line engine: the packet listing shows the
    sample signature, the import succeeds, and [gpg --verify] ends with the
    given standard error and exit code. *)
Definition gpg_world (verify_err : string) (verify_code : Z) : world :=
  {| script_dir := "/opt/autospec";
     imported :=
       Subprocess
         (fun args _ =>
            match args with
            | [_; command; _] =>
                if String.eqb command "--list-packet" then Ret (sample_listing, "", 0%Z)
                else Ret ("", "gpg: key imported", 0%Z)
            | _ => Ret ("", verify_err, verify_code)
            end);
     os_open_wb := fun _ _ => Ret tt;
     curl_perform := fun _ _ => CurlError "(6, 'Could not resolve host')" "";
     json_loads := fun _ => Raise (JSONDecodeError "Expecting value: line 1 column 1 (char 0)") |}.

(** * Properties *)

(** ** Strings *)

Lemma app_cons (c : ascii) (s t : string) : String c s +:+ t = String c (s +:+ t).
Proof. reflexivity. Qed.

Lemma app_empty_l (s : string) : "" +:+ s = s.
Proof. reflexivity. Qed.

Lemma app_empty_r (s : string) : s +:+ "" = s.
Proof. induction s as [|c s IH]; [reflexivity|]. rewrite app_cons, IH. reflexivity. Qed.

Lemma app_assoc_str (s t u : string) : (s +:+ t) +:+ u = s +:+ (t +:+ u).
Proof.
  induction s as [|c s IH]; [reflexivity|].
  rewrite !app_cons, IH. reflexivity.
Qed.

Lemma take_drop (n : nat) (s : string) : PyStr.take n s +:+ PyStr.drop n s = s.
Proof.
  revert s; induction n as [|n IH]; intros [|c s]; simpl; try reflexivity.
  rewrite app_cons, IH. reflexivity.
Qed.

Lemma drop_length_le (n : nat) (s : string) :
  String.length (PyStr.drop n s) = (String.length s - n)%nat.
Proof.
  revert s; induction n as [|n IH]; intros [|c s]; simpl; try reflexivity.
  apply IH.
Qed.

Lemma take_empty_inv (n : nat) (s : string) :
  (0 < n)%nat -> PyStr.take n s = "" -> s = "".
Proof. destruct n; [lia|]. destruct s; [reflexivity|discriminate]. Qed.

Lemma drop_drop (n m : nat) (s : string) :
  PyStr.drop n (PyStr.drop m s) = PyStr.drop (m + n) s.
Proof.
  revert s; induction m as [|m IH]; intros s; [reflexivity|].
  destruct s as [|c s]; simpl; [destruct n; reflexivity|apply IH].
Qed.

Lemma drop_empty (n : nat) : PyStr.drop n "" = "".
Proof. destruct n; reflexivity. Qed.

(** ** Sample values of the pure functions *)

Example get_file_ext_tar_gz : get_file_ext "foo-1.2.3.tar.gz" = ".gz".
Proof. reflexivity. Qed.

Example get_file_ext_gem : get_file_ext "dl/bar-2.0.0.gem" = ".gem".
Proof. reflexivity. Qed.

Example get_file_ext_hidden : get_file_ext "dl.d/.gz" = "".
Proof. reflexivity. Qed.

Example get_verifier_tar_gz : get_verifier "foo-1.2.3.tar.gz" = Some GPGVerifier.
Proof. vm_compute. reflexivity. Qed.

Example get_verifier_gem : get_verifier "bar-2.0.0.gem" = Some GEMShaVerifier.
Proof. vm_compute. reflexivity. Qed.

Example get_verifier_zip : get_verifier "foo-1.2.3.zip" = None.
Proof. vm_compute. reflexivity. Qed.

Example sha256_abc : SHA256.hexdigest_of "abc" = sha_of_abc.
Proof. vm_compute. reflexivity. Qed.

Example sha256_round_constants :
  length SHA256.K = 64%nat
  /\ nth 0 SHA256.K 0%Z = 0x428a2f98%Z /\ nth 63 SHA256.K 0%Z = 0xc67178f2%Z
  /\ nth 0 SHA256.H0 0%Z = 0x6a09e667%Z /\ nth 7 SHA256.H0 0%Z = 0x5be0cd19%Z.
Proof. vm_compute. repeat split; reflexivity. Qed.

Example sha256_empty :
  SHA256.hexdigest_of "" =
  "e3b0c44298fc1c149afbf4c8996fb92427ae41e4649b934ca495991b7852b855".
Proof. vm_compute. reflexivity. Qed.

Example sha256_two_blocks :
  SHA256.hexdigest_of "abcdbcdecdefdefgefghfghighijhijkijkljklmklmnlmnomnopnopq" =
  "248d6a61d20638b8e5c026930c3e6039a33ce45964ff2167f6ecedd419db06c1".
Proof. vm_compute. reflexivity. Qed.

Example re_split_one : Re.split "dl/bar-2.0.0.gem" = ["dl/bar"; "0.0.gem"].
Proof. reflexivity. Qed.

Example re_split_none : Re.split "bar.gem" = ["bar.gem"].
Proof. reflexivity. Qed.

Example re_split_two : Re.split "a-1.b-22.c" = ["a"; "b"; "c"].
Proof. reflexivity. Qed.

(** ** C8: the digest engine *)

(** Feeding the file block by block feeds the whole file: with enough fuel
    for one [read] per byte and the final empty [read], any positive block
    size leaves the hash object with the bytes fed before followed by the
    unread part. *)
Lemma read_blocks_feeds_all (fuel BLOCK_SIZE : nat) (rest : string)
    (h : Hashlib.sha256) :
  (0 < BLOCK_SIZE)%nat ->
  (String.length rest < fuel)%nat ->
  read_blocks fuel BLOCK_SIZE rest h = Hashlib.update h rest.
Proof.
  intros Hpos. revert rest h.
  induction fuel as [|fuel IH]; intros rest h Hfuel; [lia|].
  simpl.
  destruct (String.eqb_spec (PyStr.take BLOCK_SIZE rest) "") as [Hnil|Hblock].
  - apply (take_empty_inv _ _ Hpos) in Hnil. subst rest.
    unfold Hashlib.update. rewrite app_empty_r. destruct h; reflexivity.
  - rewrite IH.
    + unfold Hashlib.update; simpl.
      rewrite app_assoc_str, take_drop. reflexivity.
    + rewrite drop_length_le.
      destruct rest as [|c rest]; [destruct BLOCK_SIZE; contradiction|].
      simpl in *. lia.
Qed.

Lemma calc_sha_with_whole (BLOCK_SIZE : nat) (gemfile_path content : string)
    (st : pystate) :
  (0 < BLOCK_SIZE)%nat ->
  files st !! gemfile_path = Some content ->
  calc_sha_with BLOCK_SIZE gemfile_path st = (Ret (SHA256.hexdigest_of content), st).
Proof.
  intros Hpos Hfile.
  unfold calc_sha_with, bind, read_file. rewrite Hfile.
  rewrite read_blocks_feeds_all by (auto; lia).
  reflexivity.
Qed.

(** C8. For every file content and every positive read-block size,
    [calc_sha] returns the SHA-256 hex digest of the whole content hashed at
    once and leaves the machine unchanged; the result depends on the bytes
    only, so two files with identical bytes (whatever their paths and
    whatever block sizes are used) yield the identical digest. *)
Theorem calc_sha_content_addressed (BLOCK_SIZE : nat) (gemfile_path : string)
    (content : string) (st : pystate) :
  (0 < BLOCK_SIZE)%nat ->
  files st !! gemfile_path = Some content ->
  calc_sha_with BLOCK_SIZE gemfile_path st = (Ret (SHA256.hexdigest_of content), st)
  /\ calc_sha gemfile_path st = (Ret (SHA256.hexdigest_of content), st)
  /\ (forall (BLOCK_SIZE' : nat) (path' : string) (st' : pystate),
        (0 < BLOCK_SIZE')%nat ->
        files st' !! path' = Some content ->
        fst (calc_sha_with BLOCK_SIZE' path' st') =
        fst (calc_sha_with BLOCK_SIZE gemfile_path st)).
Proof.
  intros Hpos Hfile. split; [|split].
  - apply calc_sha_with_whole; assumption.
  - apply calc_sha_with_whole; [lia|assumption].
  - intros n' p' st' Hn' Hfile'.
    rewrite (calc_sha_with_whole _ _ _ _ Hn' Hfile'),
            (calc_sha_with_whole _ _ _ _ Hpos Hfile).
    reflexivity.
Qed.

Lemma calc_sha_content_addressed_witness :
  calc_sha_with 2 "bar-2.0.0.gem" (mkState {["bar-2.0.0.gem" := "abc"]} ∅ None [] [])
  = (Ret (SHA256.hexdigest_of "abc"),
     mkState {["bar-2.0.0.gem" := "abc"]} ∅ None [] []).
Proof.
  apply (proj1 (calc_sha_content_addressed 2 "bar-2.0.0.gem" "abc"
                  (mkState {["bar-2.0.0.gem" := "abc"]} ∅ None [] [])
                  ltac:(lia) ltac:(reflexivity))).
Defined.

(** A missing file makes [calc_sha] raise instead of returning a digest. *)
Lemma calc_sha_missing_file (gemfile_path : string) (st : pystate) :
  files st !! gemfile_path = None ->
  calc_sha gemfile_path st =
    (Raise (OSError ("No such file or directory: " +:+ gemfile_path)), st).
Proof.
  intros Hnone. unfold calc_sha, calc_sha_with, bind, read_file.
  rewrite Hnone. reflexivity.
Qed.

(** ** C9: the signature argument of [from_disk] *)

(** The keyword arguments [from_disk] passes carry no [url], [key_url] or
    [package_sign_path]. *)
Lemma from_disk_kwargs (package_path package_check key : string) :
  key <> "package_path" -> key <> "package_check" ->
  (<["package_path" := package_path]>
     (<["package_check" := package_check]> (∅ : gmap string string))) !! key = None.
Proof.
  intros Hpath Hcheck.
  rewrite lookup_insert_ne by congruence.
  rewrite lookup_insert_ne by congruence.
  apply lookup_empty.
Qed.

(** C9. When [from_disk] is called on a package whose extension is [.gz],
    the constructed verifier does not depend on the signature-path argument
    [package_check]: its [package_sign_path] is [package_path + '.asc']
    whatever that argument is, and the whole run of [from_disk] is the same
    for every value of it. *)
Theorem from_disk_signature_argument_unused (w : world)
    (package_path : string) (st : pystate) :
  get_file_ext package_path = ".gz" ->
  exists v : instance,
    v !! "package_sign_path" = Some (Some (package_path +:+ ".asc"))
    /\ v !! "package_path" = Some (Some package_path)
    /\ forall package_check : string,
         construct GPGVerifier
           (<["package_path" := package_path]>
              (<["package_check" := package_check]> ∅)) st
           = (Ret v, snd (print SEPT st))
         /\ from_disk w package_path package_check st =
              (r <- GPGVerifier_verify w v ;; Verifier_del ;;; ret r)
                (snd (print SEPT st)).
Proof.
  intros Hext.
  exists (<["package_sign_path" := Some (package_path +:+ ".asc")]>
            (<["package_path" := Some package_path]>
               (<["key_url" := None]>
                  (<["package_sign_path" := None]>
                     (<["url" := None]> ∅))))).
  split; [apply lookup_insert_eq|].
  split; [rewrite lookup_insert_ne by discriminate; apply lookup_insert_eq|].
  intros package_check.
  assert (Hctor :
    construct GPGVerifier
      (<["package_path" := package_path]>
         (<["package_check" := package_check]> ∅)) st
    = (Ret (<["package_sign_path" := Some (package_path +:+ ".asc")]>
              (<["package_path" := Some package_path]>
                 (<["key_url" := None]>
                    (<["package_sign_path" := None]>
                       (<["url" := None]> ∅))))), snd (print SEPT st))).
  { unfold construct, GPGVerifier_init, Verifier_init.
    rewrite (from_disk_kwargs package_path package_check "url") by discriminate.
    rewrite (from_disk_kwargs package_path package_check "package_sign_path") by discriminate.
    rewrite (from_disk_kwargs package_path package_check "key_url") by discriminate.
    rewrite lookup_insert_eq.
    vm_compute. reflexivity. }
  split; [exact Hctor|].
  unfold from_disk.
  replace (get_verifier package_path) with (Some GPGVerifier)
    by (unfold get_verifier; rewrite Hext; reflexivity).
  unfold bind at 1. rewrite Hctor. reflexivity.
Qed.

Lemma from_disk_signature_argument_unused_witness :
  exists v : instance,
    v !! "package_sign_path" = Some (Some "foo-1.2.3.tar.gz.asc")
    /\ v !! "package_path" = Some (Some "foo-1.2.3.tar.gz")
    /\ forall package_check : string,
         construct GPGVerifier
           (<["package_path" := "foo-1.2.3.tar.gz"]>
              (<["package_check" := package_check]> ∅))
           empty_machine
           = (Ret v, snd (print SEPT empty_machine))
         /\ from_disk
              quiet_world
              "foo-1.2.3.tar.gz" package_check empty_machine =
              (r <- GPGVerifier_verify quiet_world v ;;
               Verifier_del ;;; ret r)
                (snd (print SEPT empty_machine)).
Proof.
  apply (from_disk_signature_argument_unused _ "foo-1.2.3.tar.gz").
  reflexivity.
Defined.

(** ** C10: name and version of a gem *)

Lemma all_digits_take_digits_len (s : string) :
  all_digits (PyStr.take (Re.digits_len s) s) = true.
Proof.
  induction s as [|c s IH]; [reflexivity|].
  simpl. destruct (PyStr.isdigit c) eqn:Hc; [|reflexivity].
  simpl. rewrite Hc, IH. reflexivity.
Qed.

Lemma startswith_dot (t : string) :
  PyStr.startswith "." t = true -> t = "." +:+ PyStr.drop 1 t.
Proof.
  destruct t as [|c t]; [discriminate|].
  change (PyStr.startswith "." (String c t))
    with (if Ascii.eqb "."%char c then true else false).
  destruct (Ascii.eqb_spec "."%char c) as [<-|]; [reflexivity|discriminate].
Qed.

(** A match found by [Re.match_at] is a hyphen, digits and a dot at the
    start of the string, and its length is what gets skipped. *)
Lemma match_at_sound (s : string) (n : nat) :
  Re.match_at s = Some n ->
  exists m, version_delimiter m /\ s = m +:+ PyStr.drop n s.
Proof.
  destruct s as [|c s']; [discriminate|].
  unfold Re.match_at.
  destruct (Ascii.eqb_spec c "-"%char) as [->|Hne].
  2:{ destruct c as [[] [] [] [] [] [] [] []]; try discriminate.
      contradiction Hne; reflexivity. }
  destruct (Re.digits_len s') as [|d] eqn:Hd; [intros [=]|].
  change ((0 <? S d)%nat) with true. cbv beta iota delta [andb].
  destruct (PyStr.startswith "." (PyStr.drop (S d) s')) eqn:Hdot; [|discriminate].
  intros [= <-].
  exists ("-" +:+ PyStr.take (S d) s' +:+ ".").
  split.
  - exists (PyStr.take (S d) s'). split; [reflexivity|]. split.
    + destruct s'; [discriminate Hd|discriminate].
    + rewrite <- Hd. apply all_digits_take_digits_len.
  - replace (PyStr.drop _ (String "-" s'))
      with (PyStr.drop 1 (PyStr.drop (S d) s')).
    2:{ rewrite drop_drop.
        replace (S d + 1)%nat with (d + 2)%nat by lia. reflexivity. }
    rewrite !app_cons, app_empty_l, app_assoc_str.
    rewrite <- (startswith_dot _ Hdot), take_drop. reflexivity.
Qed.

Lemma split_from_skip (k : nat) (s : string) :
  Re.split_from k s = Re.split_from 0 (PyStr.drop k s).
Proof.
  revert k; induction s as [|c s IH]; intros [|k]; try reflexivity.
  simpl Re.split_from at 1. rewrite IH. reflexivity.
Qed.

Lemma split_from_cons (c : ascii) (s : string) :
  Re.split_from 0 (String c s) =
    match Re.match_at (String c s) with
    | Some n => "" :: Re.split_from (n - 1) s
    | None =>
        match Re.split_from 0 s with
        | piece :: pieces => String c piece :: pieces
        | [] => [String c ""]
        end
    end.
Proof. reflexivity. Qed.

Lemma split_nonempty (s : string) : Re.split s <> [].
Proof.
  unfold Re.split. destruct s as [|c s]; [discriminate|].
  rewrite split_from_cons.
  destruct (Re.match_at _); [discriminate|].
  destruct (Re.split_from 0 s); discriminate.
Qed.

Lemma match_at_pos (s : string) (n : nat) : Re.match_at s = Some n -> (0 < n)%nat.
Proof.
  destruct s as [|c s]; [discriminate|]. unfold Re.match_at.
  destruct c as [[] [] [] [] [] [] [] []]; try discriminate.
  destruct (_ && _); [|discriminate]. intros [= <-]. lia.
Qed.

(** The first piece of a split is the whole string, or it ends where the
    leftmost match starts and the other pieces come from what follows. *)
Lemma split_structure (s piece : string) (pieces : list string) :
  Re.split s = piece :: pieces ->
  (pieces = [] /\ piece = s)
  \/ (exists m post, version_delimiter m /\ s = piece +:+ m +:+ post
                     /\ pieces = Re.split post).
Proof.
  unfold Re.split. revert piece pieces.
  induction s as [|c s IH]; intros piece pieces.
  - intros Heq; inversion Heq; subst. left. split; reflexivity.
  - rewrite split_from_cons.
    destruct (Re.match_at (String c s)) as [n|] eqn:Hm.
    + intros Heq; inversion Heq; subst; clear Heq. right.
      destruct (match_at_sound _ _ Hm) as (m & Hdelim & Hs).
      exists m, (PyStr.drop n (String c s)). split; [exact Hdelim|].
      split; [exact Hs|].
      rewrite split_from_skip.
      pose proof (match_at_pos _ _ Hm) as Hpos.
      destruct n as [|n]; [lia|]. simpl. rewrite Nat.sub_0_r. reflexivity.
    + destruct (Re.split_from 0 s) as [|p ps] eqn:Hsplit.
      * contradiction (split_nonempty s).
      * intros [= <- <-].
        destruct (IH p ps eq_refl) as [[-> ->] | (m & post & Hd & -> & ->)].
        -- left. split; reflexivity.
        -- right. exists m, post. split; [exact Hd|]. split; reflexivity.
Qed.

(** Without a delimiter there is one piece, the string itself. *)
Lemma split_no_delimiter (s : string) :
  ~ contains_delimiter s -> Re.split s = [s].
Proof.
  intros Hno. destruct (Re.split s) as [|piece pieces] eqn:Hsplit.
  - contradiction (split_nonempty s).
  - destruct (split_structure _ _ _ Hsplit) as [[-> ->] | (m & post & Hd & Hs & _)].
    + reflexivity.
    + contradiction Hno. exists piece, m, post. split; assumption.
Qed.

(** With exactly two pieces, the string is the first piece, one delimiter
    and the second piece. *)
Lemma split_two_pieces (s name rest : string) :
  Re.split s = [name; rest] ->
  exists m, version_delimiter m /\ s = name +:+ m +:+ rest.
Proof.
  intros Hsplit.
  destruct (split_structure _ _ _ Hsplit) as [[? _] | (m & post & Hd & Hs & Hrest)];
    [discriminate|].
  exists m. split; [exact Hd|].
  symmetry in Hrest.
  destruct (split_structure _ _ _ Hrest) as [[_ ->] | (_ & post' & _ & _ & Hnil)].
  - exact Hs.
  - symmetry in Hnil. contradiction (split_nonempty post').
Qed.

Lemma digits_len_all_digits (ds tail : string) :
  all_digits ds = true ->
  Re.digits_len (ds +:+ "." +:+ tail) = String.length ds.
Proof.
  induction ds as [|c ds IH]; intros Hds; [reflexivity|].
  simpl in Hds. apply andb_prop in Hds as [Hc Hds].
  rewrite app_cons. simpl. rewrite Hc, IH by exact Hds. reflexivity.
Qed.

Lemma drop_app_length (a b : string) : PyStr.drop (String.length a) (a +:+ b) = b.
Proof. induction a as [|c a IH]; [reflexivity|]. rewrite app_cons. exact IH. Qed.

(** Every delimiter is matched where it starts. *)
Lemma match_at_complete (m post : string) :
  version_delimiter m -> Re.match_at (m +:+ post) <> None.
Proof.
  intros (ds & -> & Hne & Hds).
  rewrite !app_cons, app_empty_l, app_assoc_str.
  unfold Re.match_at.
  rewrite digits_len_all_digits by exact Hds.
  rewrite drop_app_length.
  destruct ds as [|c ds]; [contradiction|]. discriminate.
Qed.

Lemma has_match_complete (s : string) : contains_delimiter s -> has_match s = true.
Proof.
  intros (pre & m & post & Hm & ->).
  induction pre as [|c pre IH].
  - rewrite app_empty_l.
    pose proof (match_at_complete m post Hm) as Hsome.
    destruct (m +:+ post) as [|c t] eqn:Ht; [contradiction Hsome; reflexivity|].
    cbn [has_match]. destruct (Re.match_at (String c t)); [reflexivity|contradiction].
  - rewrite app_cons. cbn [has_match].
    destruct (Re.match_at _); [reflexivity|exact IH].
Qed.

(** [print_result] only prints. *)
Lemma print_result_calls (cls : string) (self : instance) (result : bool)
    (err_msg : string) (st : pystate) :
  calls (snd (print_result cls self result err_msg st)) = calls st
  /\ files (snd (print_result cls self result err_msg st)) = files st
  /\ dirs (snd (print_result cls self result err_msg st)) = dirs st.
Proof.
  unfold print_result, bind, getattr.
  destruct (self !! "url") as [url|]; simpl; [|auto].
  destruct result; simpl; auto.
Qed.

(** C10. For every gem verifier whose [package_path] contains no substring
    matching ['-\d+\.'], [GEMShaVerifier.verify] raises the unpacking
    [ValueError] before any registry query, so no verification outcome is
    produced. Moreover the split is applied to the full path: when it yields
    the two pieces [name] and [rest], the path is [name], one delimiter and
    [rest], and the registry is queried for that [name], directory part
    included; so a delimiter in a directory component changes the derived
    name, as for ["/srv/gems-1.x/rake.gem"], whose base name has none. *)
Theorem gem_verify_name_split (w : world) (self : instance)
    (package_path : string) (st : pystate) :
  self !! "package_path" = Some (Some package_path) ->
  (~ contains_delimiter package_path ->
     GEMShaVerifier_verify w self st =
       (Raise (ValueError "not enough values to unpack (expected 2)"),
        snd (print ("Performing SHA256 checksum for package" +:+ LF) st)))
  /\ (forall name rest : string,
        Re.split package_path = [name; rest] ->
        (exists m, version_delimiter m /\ package_path = name +:+ m +:+ rest)
        /\ calls (snd (GEMShaVerifier_verify w self st)) =
             (calls st ++ [CallCurl (Some (RUBYORG_API name))])%list)
  /\ (Re.split "/srv/gems-1.x/rake.gem" = ["/srv/gems"; "x/rake.gem"]
      /\ Re.split (OsPath.basename "/srv/gems-1.x/rake.gem") = ["rake.gem"]).
Proof.
  intros Hattr. split; [|split; [|split; reflexivity]].
  - intros Hno.
    unfold GEMShaVerifier_verify, bind, print, getattr. simpl.
    rewrite Hattr. simpl.
    rewrite (split_no_delimiter _ Hno). reflexivity.
  - intros name rest Hsplit. split; [apply split_two_pieces; exact Hsplit|].
    unfold GEMShaVerifier_verify, bind, print, getattr. simpl.
    rewrite Hattr. simpl. rewrite Hsplit. simpl.
    unfold get_rubygems_info, bind, record_call. simpl.
    destruct (curl_perform w _ false) as [code body|msg partial]; simpl;
      [|reflexivity].
    unfold lift.
    destruct (json_loads w body) as [geminfo|e]; [|reflexivity].
    destruct (get_gemnumber_sha geminfo _) as [gemsha|e]; [|reflexivity].
    assert (Hrest : forall st1 : pystate,
      calls (snd ((calcsha <- calc_sha package_path ;;
                   print_result "GEMShaVerifier" self (json_eq_str gemsha calcsha) "" ;;;
                   ret (Some (json_eq_str gemsha calcsha))) st1)) = calls st1).
    { intros st1. unfold bind, calc_sha, calc_sha_with, read_file, bind.
      destruct (files st1 !! package_path) as [content|]; [|reflexivity].
      unfold ret at 1.
      match goal with
      | |- context [print_result ?c ?s ?r ?e st1] =>
          pose proof (print_result_calls c s r e st1) as (Hc & _ & _);
          destruct (print_result c s r e st1) as [[[]|e1] st2]; simpl in *; exact Hc
      end. }
    destruct geminfo; try reflexivity;
      match goal with
      | |- context [calc_sha _ ?s] => exact (Hrest s)
      end.
Qed.

Lemma gem_verify_name_split_witness :
  GEMShaVerifier_verify
    quiet_world
    (<["package_path" := Some "rake.gem"]> ∅)
    empty_machine
  = (Raise (ValueError "not enough values to unpack (expected 2)"),
     mkState ∅ ∅ None ["Performing SHA256 checksum for package" +:+ LF] []).
Proof.
  apply (proj1 (gem_verify_name_split _ (<["package_path" := Some "rake.gem"]> ∅)
                  "rake.gem" empty_machine ltac:(apply lookup_insert_eq))).
  intros Hdelim. apply has_match_complete in Hdelim. discriminate Hdelim.
Defined.

(** Unfolds the monad operations met so far in a run and reduces what is
    determined. *)
Ltac mstep :=
  unfold bind, ret, raise, lift, print, getattr, as_str, record_call, unpack2;
  cbv beta iota zeta;
  cbn [fst snd files dirs environ_GNUPGHOME stdout calls].

(** ** C3: the checksum strategy *)

Lemma select_gems_filter (items : list json) (number : string) :
  forallb is_dict items = true ->
  select_gems items number = Ret (List.filter (release_matches number) items).
Proof.
  induction items as [|gem items IH]; intros Hdict; [reflexivity|].
  simpl in Hdict. apply andb_prop in Hdict as [Hgem Hitems].
  destruct gem as [| | | | |entries]; try discriminate Hgem.
  simpl. rewrite (IH Hitems).
  destruct (dict_lookup "number" entries) as [[| | |v| |]|]; reflexivity.
Qed.

Lemma filter_is_dict (f : json -> bool) (items : list json) :
  forallb is_dict items = true -> forallb is_dict (List.filter f items) = true.
Proof.
  induction items as [|gem items IH]; intros Hdict; [reflexivity|].
  simpl in Hdict. apply andb_prop in Hdict as [Hgem Hitems].
  simpl. destruct (f gem); simpl; [rewrite Hgem|]; auto.
Qed.

(** What [get_gemnumber_sha] returns on a list of release records: the
    ['sha'] of the only release with the version, [None] when that release
    has no ['sha'] and when the releases with the version are not exactly
    one. *)
Lemma get_gemnumber_sha_releases (items : list json) (number : string) :
  forallb is_dict items = true ->
  get_gemnumber_sha (JList items) number =
    Ret (match List.filter (release_matches number) items with
         | [JDict entries] =>
             match dict_lookup "sha" entries with
             | Some v => v
             | None => JNull
             end
         | _ => JNull
         end).
Proof.
  intros Hdict. unfold get_gemnumber_sha, json_iter.
  rewrite (select_gems_filter _ _ Hdict).
  pose proof (filter_is_dict (release_matches number) _ Hdict) as Hfd.
  destruct (List.filter _ items) as [|gem [|gem' rest]]; try reflexivity.
  - simpl in Hfd. destruct gem; try discriminate Hfd. simpl.
    destruct (dict_lookup "sha" entries); reflexivity.
  - destruct gem; reflexivity.
Qed.

(** C3, as the code has it. For a gem verifier whose path splits into a
    name and a rest, a registry answer that decodes to a list of release
    records and a readable local file, [verify] returns [True] exactly when
    exactly one release has the looked-up version and its ['sha'] is the
    string equal to the SHA-256 hex digest of the file; in every other case,
    also when no release or more than one release has that version, it
    returns [False], the result of a digest mismatch. *)
Theorem gem_verify_checksum (w : world) (self : instance)
    (package_path name rest content body : string) (code : Z)
    (items : list json) (st : pystate) :
  self !! "package_path" = Some (Some package_path) ->
  is_Some (self !! "url") ->
  Re.split package_path = [name; rest] ->
  curl_perform w (Some (RUBYORG_API name)) false = CurlDone code body ->
  json_loads w body = Ret (JList items) ->
  forallb is_dict items = true ->
  files st !! package_path = Some content ->
  exists b : bool,
    fst (GEMShaVerifier_verify w self st) = Ret (Some b)
    /\ (b = true <->
        exists entries,
          List.filter (release_matches (gem_number package_path name)) items
            = [JDict entries]
          /\ dict_lookup "sha" entries = Some (JStr (SHA256.hexdigest_of content)))
    /\ (length (List.filter (release_matches (gem_number package_path name)) items)
          <> 1%nat -> outcome_of (Some b) = Failed).
Proof.
  intros Hattr [url Hurl] Hsplit Hcurl Hjson Hdict Hfile.
  pose proof (get_gemnumber_sha_releases items
                (gem_number package_path name) Hdict) as Hsha.
  set (gemsha := match List.filter _ items with
                 | [JDict entries] => _
                 | _ => JNull
                 end) in Hsha.
  exists (json_eq_str gemsha (SHA256.hexdigest_of content)).
  split; [|split].
  - unfold GEMShaVerifier_verify. mstep.
    rewrite Hattr. mstep. rewrite Hsplit. mstep.
    unfold get_rubygems_info. mstep.
    rewrite Hcurl. rewrite Hjson. mstep.
    fold (gem_number package_path name). rewrite Hsha.
    unfold calc_sha.
    rewrite (calc_sha_with_whole 4096 package_path content) by (simpl; auto; lia).
    unfold print_result. mstep. rewrite Hurl. mstep.
    destruct (json_eq_str gemsha _); reflexivity.
  - subst gemsha.
    destruct (List.filter _ items) as [|gem [|gem' others]].
    + split; [discriminate|]. intros (entries & Habs & _). discriminate Habs.
    + destruct gem as [| | | | |entries];
        try (split; [discriminate|]; intros (e & Habs & _); discriminate Habs).
      destruct (dict_lookup "sha" entries) as [v|] eqn:Hv.
      * split.
        -- intros Heq. exists entries. split; [reflexivity|].
           destruct v; try discriminate Heq. simpl in Heq.
           apply String.eqb_eq in Heq. subst. exact Hv.
        -- intros (e & [= <-] & Hlook). rewrite Hv in Hlook.
           injection Hlook as ->. simpl. apply String.eqb_refl.
      * split; [discriminate|]. intros (e & [= <-] & Hlook).
        rewrite Hv in Hlook. discriminate Hlook.
    + split.
      * destruct gem; discriminate.
      * intros (e & Habs & _). discriminate Habs.
  - subst gemsha. intros Hlen.
    destruct (List.filter _ items) as [|gem [|gem' others]].
    + reflexivity.
    + contradiction Hlen. reflexivity.
    + destruct gem; reflexivity.
Qed.

Example gem_number_bar : gem_number "bar-2.0.0.gem" "bar" = "2.0.0".
Proof. reflexivity. Qed.

Example gem_number_with_directory : gem_number "dl/bar-2.0.0.gem" "dl/bar" = "bar-2.0.0".
Proof. reflexivity. Qed.

Lemma gem_verify_checksum_witness :
  exists b : bool,
    fst (GEMShaVerifier_verify
           (registry_world 200 "[{...}]"
              (Ret (JList [JDict [("number", JStr "2.0.0"); ("sha", JStr sha_of_abc)];
                           JDict [("number", JStr "1.9.0"); ("sha", JStr "00")]])))
           bar_verifier gem_machine) = Ret (Some b)
    /\ (b = true <->
        exists entries,
          List.filter (release_matches (gem_number "bar-2.0.0.gem" "bar"))
            [JDict [("number", JStr "2.0.0"); ("sha", JStr sha_of_abc)];
             JDict [("number", JStr "1.9.0"); ("sha", JStr "00")]]
            = [JDict entries]
          /\ dict_lookup "sha" entries = Some (JStr (SHA256.hexdigest_of "abc")))
    /\ (length (List.filter (release_matches (gem_number "bar-2.0.0.gem" "bar"))
                  [JDict [("number", JStr "2.0.0"); ("sha", JStr sha_of_abc)];
                   JDict [("number", JStr "1.9.0"); ("sha", JStr "00")]])
          <> 1%nat -> outcome_of (Some b) = Failed).
Proof.
  apply (gem_verify_checksum _ bar_verifier "bar-2.0.0.gem" "bar" "0.0.gem" "abc"
           "[{...}]" 200 _ gem_machine).
  - apply lookup_insert_eq.
  - exists None. vm_compute. reflexivity.
  - reflexivity.
  - reflexivity.
  - reflexivity.
  - reflexivity.
  - apply lookup_singleton_eq.
Defined.

(** With a single release record whose digest is that of the file. *)
Example gem_verify_verified :
  fst (GEMShaVerifier_verify
         (registry_world 200 "[{...}]"
            (Ret (JList [JDict [("number", JStr "2.0.0"); ("sha", JStr sha_of_abc)]])))
         bar_verifier gem_machine) = Ret (Some true).
Proof. vm_compute. reflexivity. Qed.

(** C3 as the claim states it fails: with no release of the version in the
    registry answer, the outcome is not [Indeterminate]. *)
Lemma gem_verify_version_not_found_counterexample :
  ~ (length (List.filter (release_matches (gem_number "bar-2.0.0.gem" "bar")) [])
       <> 1%nat ->
     exists r, fst (GEMShaVerifier_verify
                      (registry_world 200 "[]" (Ret (JList [])))
                      bar_verifier gem_machine) = Ret r
               /\ outcome_of r = Indeterminate).
Proof.
  intros Hclaim. destruct Hclaim as (r & Hrun & Hout); [discriminate|].
  vm_compute in Hrun. injection Hrun as <-. discriminate Hout.
Qed.

(** With two releases of the version the result is [False] as well. *)
Example gem_verify_ambiguous_version :
  GEMShaVerifier_verify
    (registry_world 200 "[{...},{...}]"
       (Ret (JList [JDict [("number", JStr "2.0.0"); ("sha", JStr sha_of_abc)];
                    JDict [("number", JStr "2.0.0"); ("sha", JStr sha_of_abc)]])))
    bar_verifier gem_machine
  = (Ret (Some false),
     mkState {["bar-2.0.0.gem" := "abc"]} ∅ None
       ["Performing SHA256 checksum for package" +:+ LF;
        ESC +:+ "[91mERROR  :" +:+ ESC +:+ "[0m  verification failed "]
       [CallCurl (Some "https://rubygems.org/api/v1/versions/bar.json")]).
Proof. vm_compute. reflexivity. Qed.

(** ** C4: faults of the registry query *)

(** C4 fails on the code. For a gem verifier whose path splits into a name
    and a rest, a [pycurl.error] of the registry query and the exception of
    [json.loads] on a body that is not JSON both leave [verify] as they
    are: nothing in the strategy catches them. *)
Theorem gem_verify_registry_fault_propagates (w : world) (self : instance)
    (package_path name rest : string) (st : pystate) :
  self !! "package_path" = Some (Some package_path) ->
  Re.split package_path = [name; rest] ->
  (forall msg partial,
      curl_perform w (Some (RUBYORG_API name)) false = CurlError msg partial ->
      fst (GEMShaVerifier_verify w self st) = Raise (PycurlError msg))
  /\ (forall code body e,
        curl_perform w (Some (RUBYORG_API name)) false = CurlDone code body ->
        json_loads w body = Raise e ->
        fst (GEMShaVerifier_verify w self st) = Raise e).
Proof.
  intros Hattr Hsplit. split.
  - intros msg partial Hcurl.
    unfold GEMShaVerifier_verify. mstep.
    rewrite Hattr. mstep. rewrite Hsplit. mstep.
    unfold get_rubygems_info. mstep.
    rewrite Hcurl. reflexivity.
  - intros code body e Hcurl Hjson.
    unfold GEMShaVerifier_verify. mstep.
    rewrite Hattr. mstep. rewrite Hsplit. mstep.
    unfold get_rubygems_info. mstep.
    rewrite Hcurl, Hjson. reflexivity.
Qed.

Lemma gem_verify_registry_fault_propagates_witness :
  fst (GEMShaVerifier_verify
         (registry_world 502 "<html>Bad Gateway</html>"
            (Raise (JSONDecodeError "Expecting value: line 1 column 1 (char 0)")))
         bar_verifier gem_machine)
  = Raise (JSONDecodeError "Expecting value: line 1 column 1 (char 0)").
Proof.
  apply (proj2 (gem_verify_registry_fault_propagates _ bar_verifier
                  "bar-2.0.0.gem" "bar" "0.0.gem" gem_machine
                  ltac:(apply lookup_insert_eq) ltac:(reflexivity))
           502%Z "<html>Bad Gateway</html>");
    reflexivity.
Defined.

(** The transport failure on the same gem. *)
Example gem_verify_transport_error :
  fst (GEMShaVerifier_verify quiet_world bar_verifier gem_machine)
  = Raise (PycurlError "(6, 'Could not resolve host')").
Proof. vm_compute. reflexivity. Qed.

(** ** What is bound at import time *)

(** A process can only have answered where [Popen] is bound. *)
Lemma popen_bound (w : world) (args : list string) (st : pystate)
    (r : string * string * Z) :
  popen w args st = Ret r -> GPG_CLI w = true.
Proof.
  unfold popen, GPG_CLI. destruct (imported w); [discriminate|reflexivity].
Qed.

(** With [gpgme] importable the name [Popen] is never bound, and the
    key-identifier extraction raises before it starts a process. *)
Lemma get_keyid_without_popen (w : world) (sig_filename : string) (st : pystate) :
  GPG_CLI w = false ->
  get_keyid w sig_filename st
    = (Raise (NameError "name 'Popen' is not defined"), st).
Proof.
  intros Hcli. unfold get_keyid, parse_keyid. rewrite Hcli. reflexivity.
Qed.

(** ** C1: key-identifier extraction *)

(** C1 fails on the code. When the packet listing writes to standard
    error, [parse_keyid] returns [None] and [get_keyid] raises
    [AttributeError] on it; when the listing has no ['keyid'],
    [parse_keyid] and [get_keyid] raise [ValueError]. In neither case does
    [get_keyid] return a parse-failure result. *)
Theorem get_keyid_parse_failure_raises (w : world) (sig_filename : string)
    (st : pystate) (out err : string) (code : Z) :
  popen w ["gpg"; "--list-packet"; sig_filename] (visible st) = Ret (out, err, code) ->
  (err <> "" ->
     fst (parse_keyid w sig_filename st) = Ret None
     /\ fst (get_keyid w sig_filename st) =
          Raise (AttributeError "'NoneType' object has no attribute 'upper'"))
  /\ (err = "" -> PyStr.find "keyid" out = None ->
        fst (parse_keyid w sig_filename st) = Raise (ValueError "substring not found")
        /\ fst (get_keyid w sig_filename st) = Raise (ValueError "substring not found")).
Proof.
  intros Hpopen. pose proof (popen_bound _ _ _ _ Hpopen) as Hcli. split.
  - intros Herr.
    assert (Hparse : parse_keyid w sig_filename st =
              (Ret None,
               mkState (files st) (dirs st) (environ_GNUPGHOME st)
                 (stdout st ++ [err])
                 (calls st ++ [CallListPacket ["gpg"; "--list-packet"; sig_filename]]))).
    { unfold parse_keyid. rewrite Hcli. mstep.
      change (visible _) with (visible st). rewrite Hpopen.
      destruct (String.eqb_spec err "") as [->|_]; [contradiction|]. reflexivity. }
    split.
    + rewrite Hparse. reflexivity.
    + unfold get_keyid, bind. rewrite Hparse. reflexivity.
  - intros -> Hfind.
    assert (Hparse : parse_keyid w sig_filename st =
              (Raise (ValueError "substring not found"),
               mkState (files st) (dirs st) (environ_GNUPGHOME st) (stdout st)
                 (calls st ++ [CallListPacket ["gpg"; "--list-packet"; sig_filename]]))).
    { unfold parse_keyid. rewrite Hcli. mstep.
      change (visible _) with (visible st). rewrite Hpopen.
      cbn [String.eqb negb]. rewrite Hfind. reflexivity. }
    split.
    + rewrite Hparse. reflexivity.
    + unfold get_keyid, bind. rewrite Hparse. reflexivity.
Qed.

Lemma get_keyid_parse_failure_raises_witness :
  fst (get_keyid
         (listing_world "" ("gpg: no valid OpenPGP data found." +:+ LF) 2)
         "foo-1.2.3.tar.gz.asc" empty_machine)
  = Raise (AttributeError "'NoneType' object has no attribute 'upper'").
Proof.
  apply (proj1 (get_keyid_parse_failure_raises
                  (listing_world "" ("gpg: no valid OpenPGP data found." +:+ LF) 2)
                  "foo-1.2.3.tar.gz.asc" empty_machine
                  "" ("gpg: no valid OpenPGP data found." +:+ LF) 2
                  ltac:(reflexivity))).
  discriminate.
Defined.

(** A listing without the field, as for a file that holds another kind of
    packet. *)
Example get_keyid_no_keyid_field :
  fst (get_keyid
         (listing_world (":literal data packet:" +:+ LF) "" 0)
         "foo-1.2.3.tar.gz.asc" empty_machine)
  = Raise (ValueError "substring not found").
Proof. vm_compute. reflexivity. Qed.

(** Where the listing is clean, has the field and a line end after it, the
    result is the rest of that line, stripped and in upper case. *)
Lemma get_keyid_token (w : world) (sig_filename : string) (st : pystate)
    (out : string) (code : Z) (i j : nat) :
  popen w ["gpg"; "--list-packet"; sig_filename] (visible st) = Ret (out, "", code) ->
  PyStr.find "keyid" out = Some i ->
  PyStr.find LF (PyStr.drop (i + 6) out) = Some j ->
  fst (get_keyid w sig_filename st) =
    Ret (PyStr.upper (PyStr.strip (PyStr.take j (PyStr.drop (i + 6) out)))).
Proof.
  intros Hpopen Hi Hj.
  unfold get_keyid, parse_keyid. rewrite (popen_bound _ _ _ _ Hpopen). mstep.
  change (visible _) with (visible st). rewrite Hpopen.
  cbn [String.eqb negb]. rewrite Hi.
  change (String.length "keyid ") with 6%nat. rewrite Hj.
  unfold PyStr.slice.
  replace (i + 6 + j - (i + 6))%nat with j by lia.
  reflexivity.
Qed.

Example get_keyid_sample :
  fst (get_keyid (listing_world sample_listing "" 0)
         "foo-1.2.3.tar.gz.asc" empty_machine)
  = Ret "0123456789ABCDEF".
Proof. vm_compute. reflexivity. Qed.

(** ** C2: the download helper *)

(** C2 fails on the code in its first half. For a URL and a destination
    that [open] accepts: on a transport error [attempt_to_download] returns
    [None] without raising, but the destination file is still there,
    holding what was received; on a final status other than 200 the file is
    deleted and the status returned, and on 200 the file holds the body. *)
Theorem attempt_to_download_outcomes (w : world) (url sign_filename : string)
    (st : pystate) :
  os_open_wb w sign_filename (visible st) = Ret tt ->
  (forall msg partial,
      curl_perform w (Some url) true = CurlError msg partial ->
      fst (attempt_to_download w (Some url) sign_filename st) = Ret None
      /\ files (snd (attempt_to_download w (Some url) sign_filename st))
           !! sign_filename = Some partial)
  /\ (forall code body,
        curl_perform w (Some url) true = CurlDone code body ->
        fst (attempt_to_download w (Some url) sign_filename st) = Ret (Some code)
        /\ files (snd (attempt_to_download w (Some url) sign_filename st))
             !! sign_filename = (if (code =? 200)%Z then Some body else None)).
Proof.
  intros Hopen. split.
  - intros msg partial Hcurl.
    unfold attempt_to_download, open_wb, setopt_URL, write_file. mstep.
    rewrite Hopen. mstep.
    rewrite Hcurl. mstep. split; [reflexivity|apply lookup_insert_eq].
  - intros code body Hcurl.
    unfold attempt_to_download, open_wb, setopt_URL, write_file, os_unlink. mstep.
    rewrite Hopen. mstep.
    rewrite Hcurl. mstep.
    destruct (code =? 200)%Z; cbn [negb]; mstep.
    + split; [reflexivity|apply lookup_insert_eq].
    + rewrite lookup_insert_eq. mstep.
      split; [reflexivity|apply lookup_delete_eq].
Qed.

Lemma attempt_to_download_outcomes_witness :
  fst (attempt_to_download (broken_network "-----BEGIN PGP SIG")
         (Some "https://example.org/foo-1.2.3.tar.gz.asc")
         "foo-1.2.3.tar.gz.asc" empty_machine) = Ret None
  /\ files (snd (attempt_to_download (broken_network "-----BEGIN PGP SIG")
                   (Some "https://example.org/foo-1.2.3.tar.gz.asc")
                   "foo-1.2.3.tar.gz.asc" empty_machine))
       !! "foo-1.2.3.tar.gz.asc" = Some "-----BEGIN PGP SIG".
Proof.
  apply (proj1 (attempt_to_download_outcomes (broken_network "-----BEGIN PGP SIG")
                  "https://example.org/foo-1.2.3.tar.gz.asc"
                  "foo-1.2.3.tar.gz.asc" empty_machine ltac:(reflexivity))
           "(56, 'Recv failure: Connection reset by peer')").
  reflexivity.
Defined.

(** Even a transfer that fails before the first byte leaves the empty file
    that [open] created. *)
Example attempt_to_download_leaves_empty_file :
  path_exists "foo-1.2.3.tar.gz.asc"
    (snd (attempt_to_download quiet_world
            (Some "https://example.org/foo-1.2.3.tar.gz.asc")
            "foo-1.2.3.tar.gz.asc" empty_machine)) = true.
Proof. vm_compute. reflexivity. Qed.

(** ** C5: temporary keyring directories *)

Section Maintains.

Context (D : gset string) (E : option string).

Lemma maintains_bind {A B} (m : M A) (k : A -> M B) :
  maintains (keyring_state D E) m -> (forall a, maintains (keyring_state D E) (k a)) -> maintains (keyring_state D E) (bind m k).
Proof.
  intros Hm Hk st Hst. unfold bind.
  specialize (Hm st Hst). destruct (m st) as [[a|e] st']; simpl in *.
  - apply Hk, Hm.
  - exact Hm.
Qed.

Lemma maintains_ret {A} (a : A) : maintains (keyring_state D E) (ret a).
Proof. intros st Hst. exact Hst. Qed.

Lemma maintains_raise {A} (e : exn) : maintains (keyring_state D E) (@raise A e).
Proof. intros st Hst. exact Hst. Qed.

Lemma maintains_record_call (c : call) : maintains (keyring_state D E) (record_call c).
Proof. intros st Hst. exact Hst. Qed.

Lemma maintains_read_file (p : string) : maintains (keyring_state D E) (read_file p).
Proof.
  intros st Hst. unfold read_file. destruct (files st !! p); exact Hst.
Qed.

(** Asking the world changes nothing on the machine. *)
Lemma maintains_ask {A} (f : pystate -> outcome A) :
  maintains (keyring_state D E) (fun st => (f (visible st), st)).
Proof. intros st Hst. exact Hst. Qed.

Lemma maintains_exec_cmd (w : world) (args : list string) :
  maintains (keyring_state D E) (exec_cmd w args).
Proof.
  unfold exec_cmd. destruct (GPG_CLI w); [|apply maintains_raise].
  apply maintains_bind.
  - apply maintains_record_call.
  - intros _. apply (maintains_ask (popen w args)).
Qed.

Lemma maintains_GPGCli_verify (w : world) (ctx : GPGCli) (pubkey : option string)
    (tarfile signature : string) :
  maintains (keyring_state D E) (GPGCli_verify w ctx pubkey tarfile signature).
Proof.
  unfold GPGCli_verify. apply maintains_bind.
  - apply maintains_exec_cmd.
  - intros [[out err] code]. destruct (code =? 0)%Z; apply maintains_ret.
Qed.

End Maintains.

(** [GPGCli(pubkey, home)] points [GNUPGHOME] to [home] before anything can
    fail, and creates or removes no directory. *)
Lemma GPGCli_init_sets_home (w : world) (pubkey home : string) (st : pystate) :
  keyring_state (dirs st) (Some home)
    (snd (GPGCli_init w (Some pubkey) (Some home) st)).
Proof.
  unfold GPGCli_init.
  assert (Hrest : maintains (keyring_state (dirs st) (Some home))
            (r <- exec_cmd w ["gpg"; "--import"; pubkey] ;;
             let '(_, err, code) := r in
             if (code =? 0)%Z then ret tt else raise (Exception err))).
  { apply maintains_bind; [apply maintains_exec_cmd|].
    intros [[out err] code].
    destruct (code =? 0)%Z; [apply maintains_ret|apply maintains_raise]. }
  specialize (Hrest (mkState (files st) (dirs st) (Some home) (stdout st) (calls st))
                (conj eq_refl eq_refl)).
  unfold bind at 1 2 3. unfold ret at 1. unfold set_GNUPGHOME.
  destruct ((r <- exec_cmd w ["gpg"; "--import"; pubkey] ;;
             let '(_, err, code) := r in
             if (code =? 0)%Z then ret tt else raise (Exception err)) _)
    as [[[]|e] st'] eqn:Hrun; simpl in *; exact Hrest.
Qed.

(** Leaving the [with] block of a temporary keyring: [GNUPGHOME] is set, so
    the [del] succeeds and the directory is removed. *)
Lemma finally_removes_keyring {A} (r : outcome A) (tmp : string) (st : pystate) :
  environ_GNUPGHOME st = Some tmp ->
  dirs (snd (finally r (del_GNUPGHOME ;;; rmtree tmp) st)) = dirs st ∖ {[tmp]}.
Proof.
  intros Henv. unfold finally, bind, del_GNUPGHOME, rmtree. rewrite Henv.
  reflexivity.
Qed.

(** The block guarded by [gpg_ctx] (context, import, verification) creates
    and removes no directory and leaves [GNUPGHOME] as it is. *)
Lemma gpgme_block_keeps_keyring (w : world) (pubkey tarball signature tmp : string)
    (sig_bytes tar_bytes : string) (st2 : pystate) :
  environ_GNUPGHOME st2 = Some tmp ->
  keyring_state (dirs st2) (Some tmp)
    (snd (((fun s => (gpgme_context w (visible s), s)) ;;;
           _pubkey <- read_file pubkey ;;
           record_call (CallGpgmeImport pubkey) ;;;
           (fun s => (gpgme_import w _pubkey (visible s), s)) ;;;
           record_call (CallGpgmeVerify signature tarball) ;;;
           sigs <- (fun s => (gpgme_verify w sig_bytes tar_bytes (visible s), s)) ;;
           match sigs with
           | status :: _ => ret status
           | [] => raise (IndexError "list index out of range")
           end) st2)).
Proof.
  intros Henv.
  apply (maintains_bind (dirs st2) (Some tmp));
    [apply (maintains_ask _ _ (gpgme_context w))| |split; [reflexivity|exact Henv]].
  intros _. apply maintains_bind; [apply maintains_read_file|].
  intros key. apply maintains_bind; [apply maintains_record_call|]. intros _.
  apply maintains_bind; [apply (maintains_ask _ _ (gpgme_import w key))|].
  intros _.
  apply maintains_bind; [apply maintains_record_call|]. intros _.
  apply maintains_bind;
    [apply (maintains_ask _ _ (gpgme_verify w sig_bytes tar_bytes))|].
  intros [|status sigs]; [apply maintains_raise|apply maintains_ret].
Qed.

Lemma remove_fresh_dir (D : gset string) (d : string) :
  d ∉ D -> ({[d]} ∪ D) ∖ {[d]} = D.
Proof.
  intros Hfresh. apply set_eq. intros x.
  rewrite elem_of_difference, elem_of_union, elem_of_singleton.
  split.
  - intros [[->|Hx] Hne]; [contradiction Hne; reflexivity|exact Hx].
  - intros Hx. split; [right; exact Hx|]. intros ->. contradiction.
Qed.

(** C5. A verification with an explicit public key and no keyring
    directory from the caller leaves no temporary keyring behind, whatever
    the import and the verification do (succeed, fail or raise) and with
    either engine: the directory that [mkdtemp] creates is not on disk when
    [verify_cli] or [verify_gpgme] is left, and the directories on disk are
    those from before the call. A keyring directory supplied by the caller
    is still on disk afterwards. *)
Theorem temporary_keyring_removed (w : world) (pubkey tarball signature : string)
    (st : pystate) :
  let tmp := fresh_string_of_set ("/tmp/" +:+ "tmp.gpghome") (dirs st) in
  ((tmp ∉ dirs (snd (verify_cli w (Some pubkey) tarball signature None st)))
   /\ dirs (snd (verify_cli w (Some pubkey) tarball signature None st)) = dirs st
   /\ (tmp ∉ dirs (snd (verify_gpgme w (Some pubkey) tarball signature None st)))
   /\ dirs (snd (verify_gpgme w (Some pubkey) tarball signature None st)) = dirs st)
  /\ (forall gpghome : string,
        gpghome ∈ dirs st ->
        gpghome ∈ dirs (snd (verify_cli w (Some pubkey) tarball signature
                               (Some gpghome) st))
        /\ gpghome ∈ dirs (snd (verify_gpgme w (Some pubkey) tarball signature
                                  (Some gpghome) st))).
Proof.
  intros tmp.
  pose proof (fresh_string_of_set_fresh (dirs st) ("/tmp/" +:+ "tmp.gpghome"))
    as Hfresh.
  fold tmp in Hfresh.
  (* the command-line engine, temporary keyring *)
  assert (Hcli : dirs (snd (verify_cli w (Some pubkey) tarball signature None st))
                 = dirs st).
  { unfold verify_cli, cli_gpg_ctx, mkdtemp. fold tmp.
    set (st1 := mkState (files st) ({[tmp]} ∪ dirs st) (environ_GNUPGHOME st)
                  (stdout st) (calls st)).
    pose proof (GPGCli_init_sets_home w pubkey tmp st1) as Hinit.
    assert (Hblock : keyring_state (dirs st1) (Some tmp)
              (snd ((ctx <- GPGCli_init w (Some pubkey) (Some tmp) ;;
                     GPGCli_verify w ctx (Some pubkey) tarball signature) st1))).
    { unfold bind.
      destruct (GPGCli_init w (Some pubkey) (Some tmp) st1) as [[ctx|e] st'];
        simpl in *; [|exact Hinit].
      apply maintains_GPGCli_verify, Hinit. }
    destruct ((ctx <- GPGCli_init w (Some pubkey) (Some tmp) ;;
               GPGCli_verify w ctx (Some pubkey) tarball signature) st1)
      as [r st2].
    destruct Hblock as [Hdirs Henv]. simpl in Hdirs, Henv.
    rewrite (finally_removes_keyring r tmp st2 Henv), Hdirs.
    subst st1. simpl. apply remove_fresh_dir, Hfresh. }
  (* the native engine, temporary keyring *)
  assert (Hgpgme : dirs (snd (verify_gpgme w (Some pubkey) tarball signature None st))
                   = dirs st).
  { unfold verify_gpgme, bind at 1 2, read_file at 1 2.
    destruct (files st !! signature) as [sig_bytes|]; [|reflexivity].
    destruct (files st !! tarball) as [tar_bytes|]; [|reflexivity].
    unfold gpg_ctx, mkdtemp, set_GNUPGHOME. fold tmp.
    set (st2 := mkState (files st) ({[tmp]} ∪ dirs st) (Some tmp)
                  (stdout st) (calls st)).
    match goal with
    | |- context [let '(r, st3) := ?run in _] =>
        assert (Hblock : keyring_state (dirs st2) (Some tmp) (snd run))
          by exact (gpgme_block_keeps_keyring w pubkey tarball signature tmp
                      sig_bytes tar_bytes st2 eq_refl);
        destruct run as [r st3]
    end.
    destruct Hblock as [Hdirs Henv]. simpl in Hdirs, Henv.
    rewrite (finally_removes_keyring r tmp st3 Henv), Hdirs.
    subst st2. simpl. apply remove_fresh_dir, Hfresh. }
  split.
  - rewrite Hcli, Hgpgme. auto.
  - intros gpghome Hin. split.
    + unfold verify_cli, cli_gpg_ctx.
      pose proof (GPGCli_init_sets_home w pubkey gpghome st) as Hinit.
      assert (Hblock : keyring_state (dirs st) (Some gpghome)
                (snd ((ctx <- GPGCli_init w (Some pubkey) (Some gpghome) ;;
                       GPGCli_verify w ctx (Some pubkey) tarball signature) st))).
      { unfold bind.
        destruct (GPGCli_init w (Some pubkey) (Some gpghome) st) as [[ctx|e] st'];
          simpl in *; [|exact Hinit].
        apply maintains_GPGCli_verify, Hinit. }
      destruct ((ctx <- GPGCli_init w (Some pubkey) (Some gpghome) ;;
                 GPGCli_verify w ctx (Some pubkey) tarball signature) st)
        as [r st2].
      destruct Hblock as [Hdirs _]. simpl in Hdirs.
      unfold finally, ret. simpl. rewrite Hdirs. exact Hin.
    + unfold verify_gpgme, bind at 1 2, read_file at 1 2.
      destruct (files st !! signature) as [sig_bytes|]; [|exact Hin].
      destruct (files st !! tarball) as [tar_bytes|]; [|exact Hin].
      unfold gpg_ctx, mkdtemp, set_GNUPGHOME. fold tmp.
      set (st2 := mkState (files st) ({[tmp]} ∪ dirs st) (Some tmp)
                    (stdout st) (calls st)).
      match goal with
      | |- context [let '(r, st3) := ?run in _] =>
          assert (Hblock : keyring_state (dirs st2) (Some tmp) (snd run))
            by exact (gpgme_block_keeps_keyring w pubkey tarball signature tmp
                      sig_bytes tar_bytes st2 eq_refl);
          destruct run as [r st3]
      end.
      destruct Hblock as [Hdirs _]. simpl in Hdirs.
      unfold finally, ret. simpl. rewrite Hdirs.
      subst st2. simpl. apply elem_of_union_r, Hin.
Qed.

Lemma temporary_keyring_removed_witness :
  "/opt/pki/gpghome" ∈
    dirs (snd (verify_cli quiet_world (Some "author.pubkey") "foo-1.2.3.tar.gz"
                 "foo-1.2.3.tar.gz.asc" (Some "/opt/pki/gpghome") keyring_machine))
  /\ "/opt/pki/gpghome" ∈
       dirs (snd (verify_gpgme quiet_world (Some "author.pubkey") "foo-1.2.3.tar.gz"
                    "foo-1.2.3.tar.gz.asc" (Some "/opt/pki/gpghome") keyring_machine)).
Proof.
  apply (proj2 (temporary_keyring_removed quiet_world "author.pubkey"
                  "foo-1.2.3.tar.gz" "foo-1.2.3.tar.gz.asc" keyring_machine)).
  unfold keyring_machine. cbn [dirs]. apply elem_of_singleton_2. reflexivity.
Defined.

(** A failed import raises out of [verify_cli]; the temporary keyring is
    gone all the same. *)
Example verify_cli_import_failure :
  verify_cli (failing_gpg_world "gpg: no valid OpenPGP data found.")
    (Some "author.pubkey") "foo-1.2.3.tar.gz" "foo-1.2.3.tar.gz.asc" None
    empty_machine
  = (Raise (Exception "gpg: no valid OpenPGP data found."),
     mkState ∅ ∅ None [] [CallGpg ["gpg"; "--import"; "author.pubkey"]]).
Proof.
  unfold verify_cli, cli_gpg_ctx, mkdtemp, empty_machine. cbn [dirs].
  set (tmp := fresh_string_of_set _ _).
  unfold GPGCli_init, exec_cmd, GPG_CLI, popen, set_GNUPGHOME, finally,
    del_GNUPGHOME, rmtree.
  mstep. cbn.
  rewrite (remove_fresh_dir ∅ tmp) by apply not_elem_of_empty.
  reflexivity.
Qed.

(** ** C6: keys missing from the keyring *)

(** The packet listing depends on the files and the environment only; when
    it yields a key identifier, nothing is printed and one listing call is
    recorded. *)
Lemma get_keyid_visible (w : world) (sig_filename key_id : string)
    (st1 st2 : pystate) :
  visible st1 = visible st2 ->
  fst (get_keyid w sig_filename st1) = Ret key_id ->
  get_keyid w sig_filename st2 =
    (Ret key_id,
     mkState (files st2) (dirs st2) (environ_GNUPGHOME st2) (stdout st2)
       (calls st2 ++ [CallListPacket ["gpg"; "--list-packet"; sig_filename]])).
Proof.
  intros Hvis. unfold get_keyid, parse_keyid.
  destruct (GPG_CLI w); [|mstep; discriminate]. mstep.
  change (visible (mkState (files st1) _ _ _ _)) with (visible st1).
  change (visible (mkState (files st2) _ _ _ _)) with (visible st2).
  rewrite <- Hvis.
  destruct (popen w _ (visible st1)) as [[[out err] code]|e]; [|discriminate].
  destruct (negb (String.eqb err "")); [discriminate|].
  destruct (PyStr.find "keyid" out) as [i|]; [|discriminate].
  destruct (PyStr.find LF _) as [j|]; [|discriminate].
  mstep. intros [= <-]. reflexivity.
Qed.

(** C6. When the package and its signature are on disk, the signature
    yields the key identifier [key_id] and the keyring has no file
    [key_id.pkey], [GPGVerifier.verify] returns [None] after printing that
    the public key was not found in the keyring. The only external calls of
    the run are the two packet listings of the key-identifier extraction:
    neither [verify_cli] nor [verify_gpgme] runs, so there is no [gpg]
    import or verify command and no [gpgme] operation. *)
Theorem gpg_verify_key_not_in_keyring (w : world) (self : instance)
    (package_path package_sign_path key_id : string) (url : option string)
    (st : pystate) :
  self !! "package_path" = Some (Some package_path) ->
  self !! "package_sign_path" = Some (Some package_sign_path) ->
  self !! "url" = Some url ->
  path_exists package_path st = true ->
  path_exists package_sign_path st = true ->
  fst (get_keyid w package_sign_path st) = Ret key_id ->
  path_exists (script_dir w +:+ "/" +:+ "keyring" +:+ "/" +:+ key_id +:+ ".pkey") st
    = false ->
  GPGVerifier_verify w self st =
    (Ret None,
     mkState (files st) (dirs st) (environ_GNUPGHOME st)
       (stdout st ++
          ["Performing GPG signature verification for package" +:+ LF;
           ESC +:+ "[91mERROR  :" +:+ ESC +:+ "[0m " +:+
             match url with Some u => OsPath.basename u | None => "" end +:+
             " verification failed " +:+
             "Public key " +:+ key_id +:+ " not found in keyring"])
       (calls st ++
          [CallListPacket ["gpg"; "--list-packet"; package_sign_path];
           CallListPacket ["gpg"; "--list-packet"; package_sign_path]])).
Proof.
  intros Hpath Hsign Hurl Hpackage Hsignature Hkeyid Hkey.
  unfold GPGVerifier_verify. mstep.
  rewrite Hpath. unfold os_path_exists. mstep.
  change (path_exists package_path (mkState (files st) _ _ _ _))
    with (path_exists package_path st).
  rewrite Hpackage. cbn [negb]. mstep.
  rewrite Hsign. mstep.
  change (path_exists package_sign_path (mkState (files st) _ _ _ _))
    with (path_exists package_sign_path st).
  rewrite Hsignature. cbn [negb]. mstep.
  unfold get_pubkey_path. mstep. rewrite Hsign. mstep.
  match goal with
  | |- context [get_keyid w package_sign_path ?s] =>
      rewrite (get_keyid_visible w package_sign_path key_id st s eq_refl Hkeyid)
  end.
  mstep.
  match goal with
  | |- context [path_exists ?p ?s] =>
      change (path_exists p s)
        with (path_exists
                (script_dir w +:+ "/" +:+ "keyring" +:+ "/" +:+ key_id +:+ ".pkey") st)
  end.
  rewrite Hkey. cbn [negb]. mstep.
  match goal with
  | |- context [get_keyid w package_sign_path ?s] =>
      rewrite (get_keyid_visible w package_sign_path key_id st s eq_refl Hkeyid)
  end.
  mstep. unfold print_result. mstep. rewrite Hurl. mstep.
  unfold print_error. mstep.
  rewrite <- !app_assoc. reflexivity.
Qed.

Lemma gpg_verify_key_not_in_keyring_witness :
  GPGVerifier_verify (listing_world sample_listing "" 0) foo_verifier package_machine =
    (Ret None,
     mkState (files package_machine) (dirs package_machine)
       (environ_GNUPGHOME package_machine)
       (stdout package_machine ++
          ["Performing GPG signature verification for package" +:+ LF;
           ESC +:+ "[91mERROR  :" +:+ ESC +:+ "[0m " +:+ "" +:+
             " verification failed " +:+
             "Public key " +:+ "0123456789ABCDEF" +:+ " not found in keyring"])
       (calls package_machine ++
          [CallListPacket ["gpg"; "--list-packet"; "foo-1.2.3.tar.gz.asc"];
           CallListPacket ["gpg"; "--list-packet"; "foo-1.2.3.tar.gz.asc"]])).
Proof.
  apply (gpg_verify_key_not_in_keyring (listing_world sample_listing "" 0)
           foo_verifier "foo-1.2.3.tar.gz" "foo-1.2.3.tar.gz.asc"
           "0123456789ABCDEF" None package_machine);
    vm_compute; reflexivity.
Defined.

(** The same run from the command line entry point: the signature argument
    plays no part, the key is looked up and not found. *)
Example from_disk_key_not_in_keyring :
  fst (from_disk (listing_world sample_listing "" 0)
         "foo-1.2.3.tar.gz" "elsewhere.sig" package_machine) = Ret None
  /\ calls (snd (from_disk (listing_world sample_listing "" 0)
                   "foo-1.2.3.tar.gz" "elsewhere.sig" package_machine))
     = [CallListPacket ["gpg"; "--list-packet"; "foo-1.2.3.tar.gz.asc"];
        CallListPacket ["gpg"; "--list-packet"; "foo-1.2.3.tar.gz.asc"]].
Proof. split; vm_compute; reflexivity. Qed.

(** With the key in the keyring the engine does run: import into a
    temporary keyring, then verify. *)
Example from_disk_key_in_keyring :
  let st := mkState (<["/opt/autospec/keyring/0123456789ABCDEF.pkey" := "key"]>
                       (files package_machine)) ∅ None [] [] in
  fst (from_disk (listing_world sample_listing "" 0)
         "foo-1.2.3.tar.gz" "elsewhere.sig" st) = Ret (Some true)
  /\ calls (snd (from_disk (listing_world sample_listing "" 0)
                   "foo-1.2.3.tar.gz" "elsewhere.sig" st))
     = [CallListPacket ["gpg"; "--list-packet"; "foo-1.2.3.tar.gz.asc"];
        CallGpg ["gpg"; "--import"; "/opt/autospec/keyring/0123456789ABCDEF.pkey"];
        CallGpg ["gpg"; "--verify"; "foo-1.2.3.tar.gz.asc"; "foo-1.2.3.tar.gz"]].
Proof. split; vm_compute; reflexivity. Qed.

(** With the constructors of the script, [GEMShaVerifier] never gets a
    [package_path]: [from_disk] on a gem raises before any check. *)
Example from_disk_gem_has_no_package_path :
  fst (from_disk quiet_world "bar-2.0.0.gem" "bar-2.0.0.gem.asc" gem_machine)
  = Raise (AttributeError "'GEMShaVerifier' object has no attribute 'package_path'").
Proof. vm_compute. reflexivity. Qed.

(** [gpg_ctx] makes its temporary keyring whether or not the caller names
    a keyring directory, and removes it only when the caller names none:
    with [gpghome] given, the caller's directory and the temporary one are
    both on disk after [verify_gpgme]. *)
Lemma verify_gpgme_with_gpghome_keeps_both (w : world)
    (pubkey tarball signature gpghome sig_bytes tar_bytes : string) (st : pystate) :
  files st !! signature = Some sig_bytes ->
  files st !! tarball = Some tar_bytes ->
  dirs (snd (verify_gpgme w (Some pubkey) tarball signature (Some gpghome) st))
  = {[fresh_string_of_set ("/tmp/" +:+ "tmp.gpghome") (dirs st)]} ∪ dirs st.
Proof.
  intros Hsig Htar.
  unfold verify_gpgme, bind at 1 2, read_file at 1 2. rewrite Hsig, Htar.
  unfold gpg_ctx, mkdtemp, set_GNUPGHOME.
  set (tmp := fresh_string_of_set _ _).
  set (st2 := mkState (files st) ({[tmp]} ∪ dirs st) (Some tmp)
                (stdout st) (calls st)).
  match goal with
  | |- context [let '(r, st3) := ?run in _] =>
      assert (Hblock : keyring_state (dirs st2) (Some tmp) (snd run))
        by exact (gpgme_block_keeps_keyring w pubkey tarball signature tmp
                    sig_bytes tar_bytes st2 eq_refl);
      destruct run as [r st3]
  end.
  destruct Hblock as [Hdirs _]. simpl in Hdirs.
  unfold finally, ret. simpl. exact Hdirs.
Qed.

(** The same holds when the signature is not on disk and is first fetched
    with status 200: the fetch, then the two packet listings, and no engine
    call. *)
Lemma gpg_verify_fetched_signature_key_missing (w : world) (self : instance)
    (package_path package_sign_path key_id body key_url : string)
    (url : option string) (st : pystate) :
  self !! "package_path" = Some (Some package_path) ->
  self !! "package_sign_path" = Some (Some package_sign_path) ->
  self !! "url" = Some url ->
  self !! "key_url" = Some (Some key_url) ->
  path_exists package_path st = true ->
  path_exists package_sign_path st = false ->
  os_open_wb w package_sign_path (visible st) = Ret tt ->
  curl_perform w (Some key_url) true = CurlDone 200 body ->
  let fetched := snd (attempt_to_download w (Some key_url) package_sign_path st) in
  fst (get_keyid w package_sign_path fetched) = Ret key_id ->
  path_exists (script_dir w +:+ "/" +:+ "keyring" +:+ "/" +:+ key_id +:+ ".pkey")
    fetched = false ->
  fst (GPGVerifier_verify w self st) = Ret None
  /\ calls (snd (GPGVerifier_verify w self st)) =
       (calls st ++
          [CallCurl (Some key_url);
           CallListPacket ["gpg"; "--list-packet"; package_sign_path];
           CallListPacket ["gpg"; "--list-packet"; package_sign_path]])%list.
Proof.
  intros Hpath Hsign Hurl Hkurl Hpackage Hsignature Hopen Hcurl fetched Hkeyid Hkey.
  assert (Hfetch : attempt_to_download w (Some key_url) package_sign_path st =
            (Ret (Some 200%Z),
             mkState (<[package_sign_path := body]>
                        (<[package_sign_path := ""]> (files st)))
               (dirs st) (environ_GNUPGHOME st) (stdout st)
               (calls st ++ [CallCurl (Some key_url)]))).
  { unfold attempt_to_download, open_wb, setopt_URL, write_file. mstep.
    rewrite Hopen. mstep. rewrite Hcurl. reflexivity. }
  subst fetched. rewrite Hfetch in Hkeyid, Hkey. cbn [snd] in Hkeyid, Hkey.
  set (st1 := mkState _ _ _ _ _) in Hkeyid, Hkey.
  assert (Hrun : GPGVerifier_verify w self st =
    (Ret None,
     mkState (files st1) (dirs st1) (environ_GNUPGHOME st1)
       (stdout st ++
          ["Performing GPG signature verification for package" +:+ LF;
           ESC +:+ "[91mERROR  :" +:+ ESC +:+ "[0m " +:+
             match url with Some u => OsPath.basename u | None => "" end +:+
             " verification failed " +:+
             "Public key " +:+ key_id +:+ " not found in keyring"])
       (calls st ++
          [CallCurl (Some key_url);
           CallListPacket ["gpg"; "--list-packet"; package_sign_path];
           CallListPacket ["gpg"; "--list-packet"; package_sign_path]]))).
  { unfold GPGVerifier_verify. mstep.
    rewrite Hpath. unfold os_path_exists. mstep.
    change (path_exists package_path (mkState (files st) _ _ _ _))
      with (path_exists package_path st).
    rewrite Hpackage. cbn [negb]. mstep.
    rewrite Hsign. mstep.
    change (path_exists package_sign_path (mkState (files st) _ _ _ _))
      with (path_exists package_sign_path st).
    rewrite Hsignature. cbn [negb]. mstep.
    unfold get_sign, download_file. mstep. rewrite Hkurl. mstep.
    rewrite Hsign. mstep.
    unfold attempt_to_download, open_wb, setopt_URL, write_file. mstep.
    change (visible (mkState (files st) _ _ _ _)) with (visible st).
    rewrite Hopen. mstep.
    rewrite Hcurl. mstep. cbn [negb Z.eqb Pos.eqb]. mstep.
    unfold get_pubkey_path. mstep. rewrite Hsign. mstep.
    match goal with
    | |- context [get_keyid w package_sign_path ?s] =>
        rewrite (get_keyid_visible w package_sign_path key_id st1 s eq_refl Hkeyid)
    end.
    mstep.
    match goal with
    | |- context [path_exists ?p ?s] =>
        change (path_exists p s)
          with (path_exists
                  (script_dir w +:+ "/" +:+ "keyring" +:+ "/" +:+ key_id +:+ ".pkey")
                  st1)
    end.
    rewrite Hkey. cbn [negb]. mstep.
    match goal with
    | |- context [get_keyid w package_sign_path ?s] =>
        rewrite (get_keyid_visible w package_sign_path key_id st1 s eq_refl Hkeyid)
    end.
    mstep. unfold print_result. mstep. rewrite Hurl. mstep.
    unfold print_error. mstep.
    rewrite <- !app_assoc. reflexivity. }
  rewrite Hrun. split; reflexivity.
Qed.

(** ** C7: the dispatch table *)

Lemma length_app_str (a b : string) :
  String.length (a +:+ b) = (String.length a + String.length b)%nat.
Proof. induction a as [|c a IH]; [reflexivity|]. rewrite app_cons. simpl. lia. Qed.

Lemma has_char_app (c : ascii) (a b : string) :
  has_char c (a +:+ b) = has_char c a || has_char c b.
Proof.
  induction a as [|x a IH]; [reflexivity|].
  rewrite app_cons. simpl. rewrite IH. apply orb_assoc.
Qed.

Lemma has_char_drop (c : ascii) (n : nat) (s : string) :
  has_char c s = false -> has_char c (PyStr.drop n s) = false.
Proof.
  revert s; induction n as [|n IH]; intros [|x s] Hs; simpl; try assumption.
  simpl in Hs. apply orb_false_elim in Hs as [_ Hs]. apply IH, Hs.
Qed.

(** What [rfind_from] computes: the accumulator when the character is
    absent, otherwise the index of an occurrence with no later one. *)
Lemma rfind_from_spec (c : ascii) (s : string) (i acc : Z) :
  (has_char c s = false /\ PyStr.rfind_from c s i acc = acc)
  \/ (exists (k : nat) (t : string),
        PyStr.rfind_from c s i acc = (i + Z.of_nat k)%Z
        /\ PyStr.drop k s = String c t /\ has_char c t = false).
Proof.
  revert i acc; induction s as [|a s IH]; intros i acc.
  - left. split; reflexivity.
  - simpl. destruct (IH (i + 1)%Z (if Ascii.eqb a c then i else acc))
      as [[Habsent Heq] | (k & t & Heq & Hdrop & Ht)].
    + destruct (Ascii.eqb_spec a c) as [->|Hne].
      * right. exists O, s. rewrite Heq. split; [lia|]. split; [reflexivity|exact Habsent].
      * left. split; [exact Habsent|exact Heq].
    + right. exists (S k), t. rewrite Heq. split; [lia|]. split; assumption.
Qed.

Lemma rfind_absent (c : ascii) (s : string) (i acc : Z) :
  has_char c s = false -> PyStr.rfind_from c s i acc = acc.
Proof.
  revert i acc; induction s as [|a s IH]; intros i acc Hs; [reflexivity|].
  simpl in *. apply orb_false_elim in Hs as [Ha Hs].
  rewrite Ha. apply IH, Hs.
Qed.

Lemma rfind_from_app (c : ascii) (a b : string) (i acc : Z) :
  PyStr.rfind_from c (a +:+ b) i acc =
  PyStr.rfind_from c b (i + Z.of_nat (String.length a)) (PyStr.rfind_from c a i acc).
Proof.
  revert i acc; induction a as [|x a IH]; intros i acc.
  - simpl. rewrite app_empty_l. f_equal. lia.
  - rewrite app_cons. simpl. rewrite IH. f_equal. lia.
Qed.

Lemma rfind_slash_dir (dir : string) :
  dir = "" \/ (exists d, dir = d +:+ "/") ->
  (PyStr.rfind "/" dir + 1 = Z.of_nat (String.length dir))%Z.
Proof.
  intros [-> | (d & ->)]; [reflexivity|].
  unfold PyStr.rfind. rewrite rfind_from_app, length_app_str. simpl. lia.
Qed.

(** The loop of [splitext] over the stem: it finds a character other than
    the dot, or runs out at the last dot. *)
Lemma splitext_loop_stem (pre stem rest : string) (dotIndex : Z) :
  OsPath.splitext_loop (pre +:+ stem +:+ rest) dotIndex
    (Z.of_nat (String.length pre)) (String.length stem)
  = if all_dots stem then (pre +:+ stem +:+ rest, "")
    else (PyStr.zslice 0 dotIndex (pre +:+ stem +:+ rest),
          PyStr.drop (Z.to_nat dotIndex) (pre +:+ stem +:+ rest)).
Proof.
  revert pre; induction stem as [|c stem IH]; intros pre; [reflexivity|].
  cbn [String.length OsPath.splitext_loop all_dots].
  assert (Hc : PyStr.zslice (Z.of_nat (String.length pre))
                 (Z.of_nat (String.length pre) + 1)
                 (pre +:+ String c stem +:+ rest) = String c "").
  { unfold PyStr.zslice, PyStr.slice. rewrite Nat2Z.id.
    replace (Z.to_nat (Z.of_nat (String.length pre) + 1) - String.length pre)%nat
      with 1%nat by lia.
    rewrite drop_app_length, app_cons. reflexivity. }
  rewrite Hc.
  destruct (Ascii.eqb_spec c ".") as [->|Hne].
  - change (String.eqb "." ".") with true. cbv iota. cbn [andb].
    replace (pre +:+ String "." stem +:+ rest)
      with ((pre +:+ ".") +:+ stem +:+ rest)
      by (rewrite app_assoc_str, !app_cons, app_empty_l; reflexivity).
    replace (Z.of_nat (String.length pre) + 1)%Z
      with (Z.of_nat (String.length (pre +:+ ".")))
      by (rewrite length_app_str; simpl; lia).
    apply IH.
  - replace (String.eqb (String c "") ".") with false; [reflexivity|].
    symmetry. apply String.eqb_neq. intros [= ->]. contradiction.
Qed.

(** The extension of a name given by its parts. *)
Lemma get_file_ext_parts (dir stem t : string) :
  dir = "" \/ (exists d, dir = d +:+ "/") ->
  has_char "/" stem = false ->
  has_char "." t = false ->
  has_char "/" t = false ->
  get_file_ext (dir +:+ stem +:+ String "." t)
    = if all_dots stem then "" else String "." t.
Proof.
  intros Hdir Hstem Hdot Hslash.
  set (p := dir +:+ stem +:+ String "." t).
  assert (Hsep : (PyStr.rfind "/" p + 1 = Z.of_nat (String.length dir))%Z).
  { rewrite <- (rfind_slash_dir dir Hdir). f_equal.
    unfold p, PyStr.rfind. rewrite rfind_from_app.
    apply rfind_absent. rewrite has_char_app, Hstem. simpl. exact Hslash. }
  assert (Hdotidx : PyStr.rfind "." p
                    = Z.of_nat (String.length dir + String.length stem)).
  { unfold p, PyStr.rfind.
    rewrite <- (app_assoc_str dir stem), rfind_from_app, length_app_str.
    simpl PyStr.rfind_from.
    rewrite rfind_absent by exact Hdot. lia. }
  unfold get_file_ext, OsPath.splitext. fold p.
  replace (PyStr.rfind "/" p <? PyStr.rfind "." p)%Z with true
    by (symmetry; apply Z.ltb_lt; lia).
  rewrite Hsep, Hdotidx.
  replace (Z.to_nat (Z.of_nat (String.length dir + String.length stem)
                     - Z.of_nat (String.length dir)))
    with (String.length stem) by lia.
  unfold p. rewrite splitext_loop_stem.
  destruct (all_dots stem); [reflexivity|].
  cbn [snd]. rewrite Nat2Z.id.
  rewrite <- (app_assoc_str dir stem), <- length_app_str.
  apply drop_app_length.
Qed.

(** A name with a non-empty extension has these parts. *)
Lemma get_file_ext_decompose (filename : string) :
  get_file_ext filename <> "" ->
  exists dir stem t : string,
    filename = dir +:+ stem +:+ String "." t
    /\ (dir = "" \/ exists d, dir = d +:+ "/")
    /\ has_char "/" stem = false
    /\ has_char "." t = false
    /\ has_char "/" t = false.
Proof.
  unfold get_file_ext, OsPath.splitext. intros Hext.
  destruct (PyStr.rfind "/" filename <? PyStr.rfind "." filename)%Z eqn:Hlt;
    [|contradiction Hext; reflexivity].
  apply Z.ltb_lt in Hlt. clear Hext. unfold PyStr.rfind in Hlt.
  destruct (rfind_from_spec "." filename 0 (-1))
    as [[_ Hdot] | (k & t & Hdot & Hdrop & Ht)].
  { destruct (rfind_from_spec "/" filename 0 (-1))
      as [[_ Hsep] | (k' & t' & Hsep & _)]; lia. }
  destruct (rfind_from_spec "/" filename 0 (-1))
    as [[Habsent Hsep] | (k' & t' & Hsep & Hdrop' & Ht')].
  - exists "", (PyStr.take k filename), t.
    rewrite app_empty_l, <- Hdrop, take_drop.
    rewrite <- (take_drop k filename), has_char_app in Habsent.
    apply orb_false_elim in Habsent as [Htake Hdropk].
    rewrite Hdrop in Hdropk. simpl in Hdropk.
    repeat split; try assumption. left; reflexivity.
  - assert (Hkk : (k' < k)%nat) by lia.
    assert (Hinner : PyStr.drop (k - k' - 1) t' = String "." t).
    { rewrite <- Hdrop.
      replace k with (k' + S (k - k' - 1))%nat at 2 by lia.
      rewrite <- drop_drop, Hdrop'. reflexivity. }
    exists (PyStr.take k' filename +:+ "/"), (PyStr.take (k - k' - 1) t'), t.
    rewrite <- (take_drop (k - k' - 1) t'), has_char_app in Ht'.
    apply orb_false_elim in Ht' as [Hstem Hrest].
    rewrite Hinner in Hrest. simpl in Hrest.
    repeat split; try assumption.
    + rewrite <- Hinner, take_drop, app_assoc_str, app_cons, app_empty_l, <- Hdrop'.
      symmetry. apply take_drop.
    + right. eexists. reflexivity.
Qed.

(** The extension in words is the one [get_file_ext] computes. *)
Lemma has_extension_iff (filename t : string) :
  has_extension filename (String "." t) <-> get_file_ext filename = String "." t.
Proof.
  split.
  - intros (dir & stem & t' & -> & [= <-] & Hdir & Hstem & Hdots & Hdot & Hslash).
    rewrite (get_file_ext_parts dir stem t Hdir Hstem Hdot Hslash), Hdots.
    reflexivity.
  - intros Hext.
    destruct (get_file_ext_decompose filename) as
      (dir & stem & t' & -> & Hdir & Hstem & Hdot & Hslash);
      [rewrite Hext; discriminate|].
    rewrite (get_file_ext_parts dir stem t' Hdir Hstem Hdot Hslash) in Hext.
    destruct (all_dots stem) eqn:Hdots; [discriminate|].
    injection Hext as ->.
    exists dir, stem, t. repeat split; assumption.
Qed.

(** C7. [get_verifier] returns the GPG signature strategy exactly for the
    names whose extension is [.gz] and the registry-digest strategy exactly
    for those whose extension is [.gem]; it returns the class, never an
    instance. For every other name it returns [None], and [from_disk] and
    [from_url] return [None] after printing one line: no constructor runs
    (it would print the separator), no external call is made and nothing is
    raised. *)
Theorem get_verifier_closed_table (filename : string) :
  (get_verifier filename = Some GPGVerifier <-> has_extension filename ".gz")
  /\ (get_verifier filename = Some GEMShaVerifier <-> has_extension filename ".gem")
  /\ (~ has_extension filename ".gz" -> ~ has_extension filename ".gem" ->
      get_verifier filename = None
      /\ forall (w : world) (package_check : string) (st : pystate),
           from_disk w filename package_check st =
             (Ret None,
              mkState (files st) (dirs st) (environ_GNUPGHOME st)
                (stdout st ++ ["File " +:+ filename +:+ " is not verifiable"])
                (calls st)))
  /\ (~ has_extension (filename_from_url filename) ".gz" ->
      ~ has_extension (filename_from_url filename) ".gem" ->
      forall (w : world) (download_path : string) (st : pystate),
        from_url w filename download_path st =
          (Ret None,
           mkState (files st) (dirs st) (environ_GNUPGHOME st)
             (stdout st ++
                [ESC +:+ "[91mERROR  :" +:+ ESC +:+ "[0m " +:+
                   "File " +:+ filename_from_url filename +:+
                   " is not verifiable (yet)"])
             (calls st))).
Proof.
  assert (Htable : forall ext,
    VERIFIER_TYPES !! ext =
      (if String.eqb ext ".gz" then Some GPGVerifier
       else if String.eqb ext ".gem" then Some GEMShaVerifier else None)).
  { intros ext. unfold VERIFIER_TYPES.
    destruct (String.eqb_spec ext ".gz") as [->|Hgz].
    - apply lookup_insert_eq.
    - rewrite lookup_insert_ne by congruence.
      destruct (String.eqb_spec ext ".gem") as [->|Hgem].
      + apply lookup_insert_eq.
      + rewrite lookup_insert_ne by congruence. apply lookup_empty. }
  assert (Hgz : forall f, get_verifier f = Some GPGVerifier <-> has_extension f ".gz").
  { intros f. rewrite has_extension_iff. unfold get_verifier. rewrite Htable.
    destruct (String.eqb_spec (get_file_ext f) ".gz") as [->|Hne].
    - split; reflexivity.
    - split; [|contradiction].
      destruct (String.eqb (get_file_ext f) ".gem"); discriminate. }
  assert (Hgem : forall f,
            get_verifier f = Some GEMShaVerifier <-> has_extension f ".gem").
  { intros f. rewrite has_extension_iff. unfold get_verifier. rewrite Htable.
    destruct (String.eqb_spec (get_file_ext f) ".gz") as [->|Hne].
    - split; discriminate.
    - destruct (String.eqb_spec (get_file_ext f) ".gem") as [->|Hne'].
      + split; reflexivity.
      + split; [discriminate|contradiction]. }
  assert (Hnone : forall f, ~ has_extension f ".gz" -> ~ has_extension f ".gem" ->
                            get_verifier f = None).
  { intros f Hn1 Hn2.
    destruct (get_verifier f) as [[|]|] eqn:Hv; [| |reflexivity].
    - contradiction Hn1. apply Hgz, Hv.
    - contradiction Hn2. apply Hgem, Hv. }
  split; [apply Hgz|]. split; [apply Hgem|]. split.
  - intros Hn1 Hn2. split; [apply Hnone; assumption|].
    intros w package_check st.
    unfold from_disk. rewrite (Hnone _ Hn1 Hn2). reflexivity.
  - intros Hn1 Hn2 w download_path st.
    unfold from_url. rewrite (Hnone _ Hn1 Hn2). reflexivity.
Qed.

Lemma get_verifier_closed_table_witness :
  get_verifier "foo-1.2.3.tar.gz" = Some GPGVerifier
  /\ get_verifier "dl/bar-2.0.0.gem" = Some GEMShaVerifier
  /\ from_disk quiet_world "foo-1.2.3.zip" "foo-1.2.3.zip.asc" empty_machine
     = (Ret None,
        mkState ∅ ∅ None ["File foo-1.2.3.zip is not verifiable"] []).
Proof.
  split; [|split].
  - apply (proj1 (get_verifier_closed_table "foo-1.2.3.tar.gz")).
    exists "", "foo-1.2.3.tar", "gz".
    repeat split; try reflexivity. left; reflexivity.
  - apply (proj1 (proj2 (get_verifier_closed_table "dl/bar-2.0.0.gem"))).
    exists "dl/", "bar-2.0.0", "gem".
    repeat split; try reflexivity. right; exists "dl"; reflexivity.
  - apply (proj1 (proj2 (proj2 (get_verifier_closed_table "foo-1.2.3.zip")))).
    + intros Hgz. apply has_extension_iff in Hgz. discriminate Hgz.
    + intros Hgem. apply has_extension_iff in Hgem. discriminate Hgem.
Defined.

(** A name that ends with [.gz] without having it as extension is not
    dispatched. *)
Example get_verifier_hidden : get_verifier "dl.d/.gz" = None.
Proof. vm_compute. reflexivity. Qed.

(** * Further properties of the script *)

(** ** Gems through the entry points *)

(** A verifier made by [GEMShaVerifier.__init__] has no [package_path]. *)
Lemma gem_constructor_attributes (kwargs : gmap string string) (st : pystate) :
  exists self : instance,
    GEMShaVerifier_init kwargs st = (Ret self, snd (print SEPT st))
    /\ self !! "package_path" = None.
Proof.
  eexists. split; [reflexivity|].
  rewrite lookup_insert_ne by discriminate.
  rewrite lookup_insert_ne by discriminate.
  apply lookup_empty.
Qed.

(** X1. Whatever the world and the machine, [from_disk] and [from_url] on a
    name with the extension [.gem] raise [AttributeError]: the gem verifier
    they construct has no [package_path], which [verify] reads first. No
    external call is made. *)
Theorem gem_entry_points_raise (w : world) (st : pystate) :
  (forall package_path package_check : string,
      get_file_ext package_path = ".gem" ->
      fst (from_disk w package_path package_check st) =
        Raise (AttributeError "'GEMShaVerifier' object has no attribute 'package_path'")
      /\ calls (snd (from_disk w package_path package_check st)) = calls st)
  /\ (forall url download_path : string,
        get_file_ext (filename_from_url url) = ".gem" ->
        fst (from_url w url download_path st) =
          Raise (AttributeError "'GEMShaVerifier' object has no attribute 'package_path'")
        /\ calls (snd (from_url w url download_path st)) = calls st).
Proof.
  assert (Hverify : forall kwargs,
    (v <- construct GEMShaVerifier kwargs ;;
     r <- verify w GEMShaVerifier v ;; Verifier_del ;;; ret r) st =
    (Raise (AttributeError "'GEMShaVerifier' object has no attribute 'package_path'"),
     snd (print ("Performing SHA256 checksum for package" +:+ LF)
            (snd (print SEPT st))))).
  { intros kwargs.
    destruct (gem_constructor_attributes kwargs st) as (self & Hctor & Hattr).
    unfold construct, verify, bind at 1. rewrite Hctor.
    unfold GEMShaVerifier_verify. mstep. rewrite Hattr. reflexivity. }
  split.
  - intros package_path package_check Hext. unfold from_disk.
    replace (get_verifier package_path) with (Some GEMShaVerifier)
      by (unfold get_verifier; rewrite Hext; reflexivity).
    rewrite Hverify. split; reflexivity.
  - intros url download_path Hext. unfold from_url.
    replace (get_verifier (filename_from_url url)) with (Some GEMShaVerifier)
      by (unfold get_verifier; rewrite Hext; reflexivity).
    rewrite Hverify. split; reflexivity.
Qed.

Lemma gem_entry_points_raise_witness :
  fst (from_disk quiet_world "dl/bar-2.0.0.gem" "dl/bar-2.0.0.gem.asc" gem_machine) =
    Raise (AttributeError "'GEMShaVerifier' object has no attribute 'package_path'")
  /\ calls (snd (from_disk quiet_world "dl/bar-2.0.0.gem" "dl/bar-2.0.0.gem.asc"
                   gem_machine)) = calls gem_machine.
Proof.
  apply (proj1 (gem_entry_points_raise quiet_world gem_machine)).
  reflexivity.
Defined.

(** ** The command line *)

(** [from_disk] builds the same verifier whatever its second argument is. *)
Lemma construct_ignores_package_check (cls : verifier_class)
    (package_path package_check package_check' : string) :
  construct cls (<["package_path" := package_path]>
                   (<["package_check" := package_check]> ∅))
  = construct cls (<["package_path" := package_path]>
                     (<["package_check" := package_check']> ∅)).
Proof.
  destruct cls; unfold construct, GPGVerifier_init, GEMShaVerifier_init, Verifier_init.
  - rewrite !(from_disk_kwargs package_path package_check "url") by discriminate.
    rewrite !(from_disk_kwargs package_path package_check' "url") by discriminate.
    rewrite !(from_disk_kwargs package_path package_check "package_sign_path")
      by discriminate.
    rewrite !(from_disk_kwargs package_path package_check' "package_sign_path")
      by discriminate.
    rewrite !(from_disk_kwargs package_path package_check "key_url") by discriminate.
    rewrite !(from_disk_kwargs package_path package_check' "key_url") by discriminate.
    rewrite !lookup_insert_eq. reflexivity.
  - rewrite !(from_disk_kwargs package_path package_check "url") by discriminate.
    rewrite !(from_disk_kwargs package_path package_check' "url") by discriminate.
    rewrite !(from_disk_kwargs package_path package_check "package_sign_path")
      by discriminate.
    rewrite !(from_disk_kwargs package_path package_check' "package_sign_path")
      by discriminate.
    reflexivity.
Qed.

(** X2. A run of [main] is determined by [--tar] alone: two command lines
    with the same [--tar] value give the same run, whatever their [--sig],
    [--pubkey] and [--gnupghome] values are, for every kind of file. *)
Theorem main_depends_on_tar_only (w : world) (args args' : namespace) (st : pystate) :
  arg_tar args = arg_tar args' ->
  main w args st = main w args' st.
Proof.
  intros Htar. unfold main, from_disk. rewrite <- Htar.
  destruct (get_verifier (arg_tar args)) as [cls|]; [|reflexivity].
  rewrite (construct_ignores_package_check cls (arg_tar args)
             (arg_sig args) (arg_sig args')).
  reflexivity.
Qed.

Lemma main_depends_on_tar_only_witness :
  main (listing_world sample_listing "" 0)
    (mkArgs "foo-1.2.3.tar.gz" "foo-1.2.3.tar.gz.asc" None None) package_machine
  = main (listing_world sample_listing "" 0)
      (mkArgs "foo-1.2.3.tar.gz" "other.sig" (Some "author.pubkey")
         (Some "/opt/pki/gpghome")) package_machine.
Proof.
  apply main_depends_on_tar_only. reflexivity.
Defined.

(** ** The GPG strategy step by step *)

(** The steps of [GPGVerifier.verify] up to the call of [get_sign], for a
    package that is on disk and a signature that is not. *)
Ltac reach_fetch Hpath Hsign Hpackage Hsignature :=
  mstep;
  rewrite Hpath; unfold os_path_exists; mstep;
  match goal with
  | |- context [path_exists ?p (mkState (files ?s) ?d ?e ?o ?c)] =>
      change (path_exists p (mkState (files s) d e o c)) with (path_exists p s)
  end;
  rewrite Hpackage; cbn [negb]; mstep;
  rewrite Hsign; mstep;
  match goal with
  | |- context [path_exists ?p (mkState (files ?s) ?d ?e ?o ?c)] =>
      change (path_exists p (mkState (files s) d e o c)) with (path_exists p s)
  end;
  rewrite Hsignature; cbn [negb]; mstep.

(** X3. When the package file is not on disk, [GPGVerifier.verify] returns
    [None] after the line saying that the package was not found; it makes no
    external call (no fetch, no packet listing, no engine) and leaves files,
    directories and environment as they are. *)
Theorem gpg_verify_package_missing (w : world) (self : instance)
    (package_path : string) (url : option string) (st : pystate) :
  self !! "package_path" = Some (Some package_path) ->
  self !! "url" = Some url ->
  path_exists package_path st = false ->
  GPGVerifier_verify w self st =
    (Ret None,
     mkState (files st) (dirs st) (environ_GNUPGHOME st)
       (stdout st ++
          ["Performing GPG signature verification for package" +:+ LF;
           ESC +:+ "[91mERROR  :" +:+ ESC +:+ "[0m " +:+
             match url with Some u => OsPath.basename u | None => "" end +:+
             " verification failed " +:+ package_path +:+ " not found"])
       (calls st)).
Proof.
  intros Hpath Hurl Hmissing.
  unfold GPGVerifier_verify. mstep.
  rewrite Hpath. unfold os_path_exists. mstep.
  change (path_exists package_path (mkState (files st) _ _ _ _))
    with (path_exists package_path st).
  rewrite Hmissing. cbn [negb]. mstep.
  unfold print_result. mstep. rewrite Hurl. mstep.
  unfold print_error, fmt. mstep.
  rewrite <- !app_assoc. reflexivity.
Qed.

Lemma gpg_verify_package_missing_witness :
  GPGVerifier_verify quiet_world foo_verifier empty_machine =
    (Ret None,
     mkState ∅ ∅ None
       ["Performing GPG signature verification for package" +:+ LF;
        ESC +:+ "[91mERROR  :" +:+ ESC +:+ "[0m " +:+ "" +:+
          " verification failed " +:+ "foo-1.2.3.tar.gz" +:+ " not found"]
       []).
Proof.
  apply (gpg_verify_package_missing quiet_world foo_verifier "foo-1.2.3.tar.gz"
           None empty_machine); vm_compute; reflexivity.
Defined.

(** The status test of [get_sign]. *)
Lemma not_200_dispatch {A} (code : Z) (a b : A) :
  code <> 200%Z -> match code with 200%Z => a | _ => b end = b.
Proof.
  intros Hcode. destruct code as [|q|q]; try reflexivity.
  do 8 (destruct q as [q|q|]; try reflexivity).
  contradiction Hcode; reflexivity.
Qed.

(** X4. When the package is on disk and the signature is not,
    [GPGVerifier.verify] cannot go on without fetching it. With a key URL
    and a destination that [open] accepts, a fetch that ends with a status
    other than 200 or with a transport error makes it return [None]; the
    only external call is the fetch, so no key identifier is extracted and
    no engine runs; after a status other than 200 no signature file is
    left, after a transport error the file holds what was received. With no
    key URL, as in a verifier that [from_disk] builds, it raises
    [TypeError] when the URL is set: no transfer is made and the empty file
    that [open] created stays. When [open] refuses the destination, its
    exception leaves [verify], with no transfer and no file. *)
Theorem gpg_verify_signature_unobtainable (w : world) (self : instance)
    (package_path package_sign_path : string) (url key_url : option string)
    (st : pystate) :
  self !! "package_path" = Some (Some package_path) ->
  self !! "package_sign_path" = Some (Some package_sign_path) ->
  self !! "url" = Some url ->
  self !! "key_url" = Some key_url ->
  path_exists package_path st = true ->
  path_exists package_sign_path st = false ->
  (forall u code body,
      key_url = Some u ->
      os_open_wb w package_sign_path (visible st) = Ret tt ->
      curl_perform w (Some u) true = CurlDone code body -> code <> 200%Z ->
      fst (GPGVerifier_verify w self st) = Ret None
      /\ calls (snd (GPGVerifier_verify w self st))
         = (calls st ++ [CallCurl (Some u)])%list
      /\ files (snd (GPGVerifier_verify w self st)) !! package_sign_path = None)
  /\ (forall u msg partial,
        key_url = Some u ->
        os_open_wb w package_sign_path (visible st) = Ret tt ->
        curl_perform w (Some u) true = CurlError msg partial ->
        fst (GPGVerifier_verify w self st) = Ret None
        /\ calls (snd (GPGVerifier_verify w self st))
           = (calls st ++ [CallCurl (Some u)])%list
        /\ files (snd (GPGVerifier_verify w self st)) !! package_sign_path
             = Some partial)
  /\ (key_url = None ->
      os_open_wb w package_sign_path (visible st) = Ret tt ->
      fst (GPGVerifier_verify w self st)
        = Raise (TypeError "unsetopt() is not supported for this option")
      /\ calls (snd (GPGVerifier_verify w self st)) = calls st
      /\ files (snd (GPGVerifier_verify w self st)) !! package_sign_path = Some "")
  /\ (forall e,
        os_open_wb w package_sign_path (visible st) = Raise e ->
        fst (GPGVerifier_verify w self st) = Raise e
        /\ calls (snd (GPGVerifier_verify w self st)) = calls st
        /\ files (snd (GPGVerifier_verify w self st)) = files st).
Proof.
  intros Hpath Hsign Hurl Hkurl Hpackage Hsignature.
  assert (Hgo : forall u, key_url = Some u ->
            os_open_wb w package_sign_path (visible st) = Ret tt ->
            forall result, curl_perform w (Some u) true = result ->
            GPGVerifier_verify w self st =
              (Ret None,
               mkState
                 (match result with
                  | CurlDone code body =>
                      if (code =? 200)%Z then files st
                      else delete package_sign_path
                             (<[package_sign_path := body]>
                                (<[package_sign_path := ""]> (files st)))
                  | CurlError _ partial =>
                      <[package_sign_path := partial]>
                        (<[package_sign_path := ""]> (files st))
                  end)
                 (dirs st) (environ_GNUPGHOME st)
                 (stdout (snd (GPGVerifier_verify w self st)))
                 (calls st ++ [CallCurl (Some u)]))
            \/ exists body, result = CurlDone 200%Z body).
  { intros u -> Hopen result Hcurl.
    destruct result as [code body|msg partial].
    - destruct (Z.eq_dec code 200%Z) as [->|Hcode]; [right; eexists; reflexivity|left].
      assert (Hne : (code =? 200)%Z = false) by (apply Z.eqb_neq; exact Hcode).
      rewrite Hne.
      unfold GPGVerifier_verify. reach_fetch Hpath Hsign Hpackage Hsignature.
      unfold get_sign, download_file. mstep. rewrite Hkurl. mstep.
      rewrite Hsign. mstep.
      unfold attempt_to_download, open_wb, setopt_URL, write_file, os_unlink. mstep.
      change (visible (mkState (files st) _ _ _ _)) with (visible st).
      rewrite Hopen. mstep.
      rewrite Hcurl. mstep. rewrite Hne. cbn [negb]. mstep.
      rewrite lookup_insert_eq. mstep.
      rewrite (not_200_dispatch code _ _ Hcode).
      unfold print_error, print_result. mstep. rewrite Hurl. mstep.
      unfold print_error. mstep. reflexivity.
    - left.
      unfold GPGVerifier_verify. reach_fetch Hpath Hsign Hpackage Hsignature.
      unfold get_sign, download_file. mstep. rewrite Hkurl. mstep.
      rewrite Hsign. mstep.
      unfold attempt_to_download, open_wb, setopt_URL, write_file. mstep.
      change (visible (mkState (files st) _ _ _ _)) with (visible st).
      rewrite Hopen. mstep.
      rewrite Hcurl. mstep.
      unfold print_error, print_result. mstep. rewrite Hurl. mstep.
      unfold print_error. mstep. reflexivity. }
  split; [|split; [|split]].
  - intros u code body Hu Hopen Hcurl Hcode.
    destruct (Hgo u Hu Hopen _ Hcurl) as [Hrun | (b & [= -> _])];
      [|contradiction Hcode; reflexivity].
    rewrite Hrun. cbn [fst snd calls files].
    replace (code =? 200)%Z with false by (symmetry; apply Z.eqb_neq; exact Hcode).
    repeat split. apply lookup_delete_eq.
  - intros u msg partial Hu Hopen Hcurl.
    destruct (Hgo u Hu Hopen _ Hcurl) as [Hrun | (b & Habs)]; [|discriminate Habs].
    rewrite Hrun. cbn [fst snd calls files].
    repeat split. apply lookup_insert_eq.
  - intros -> Hopen.
    unfold GPGVerifier_verify. reach_fetch Hpath Hsign Hpackage Hsignature.
    unfold get_sign, download_file. mstep. rewrite Hkurl. mstep.
    rewrite Hsign. mstep.
    unfold attempt_to_download, open_wb, setopt_URL. mstep.
    change (visible (mkState (files st) _ _ _ _)) with (visible st).
    rewrite Hopen. mstep.
    repeat split. apply lookup_insert_eq.
  - intros e Hopen.
    unfold GPGVerifier_verify. reach_fetch Hpath Hsign Hpackage Hsignature.
    unfold get_sign, download_file. mstep. rewrite Hkurl. mstep.
    rewrite Hsign. mstep.
    unfold attempt_to_download, open_wb. mstep.
    change (visible (mkState (files st) _ _ _ _)) with (visible st).
    rewrite Hopen. mstep.
    repeat split.
Qed.

Lemma gpg_verify_signature_unobtainable_witness :
  fst (GPGVerifier_verify (status_world 404 "Not Found") foo_url_verifier
         unsigned_machine) = Ret None
  /\ calls (snd (GPGVerifier_verify (status_world 404 "Not Found") foo_url_verifier
                   unsigned_machine))
     = (calls unsigned_machine
          ++ [CallCurl (Some "https://example.org/foo-1.2.3.tar.gz.asc")])%list
  /\ files (snd (GPGVerifier_verify (status_world 404 "Not Found") foo_url_verifier
                   unsigned_machine)) !! "foo-1.2.3.tar.gz.asc" = None.
Proof.
  apply (proj1 (gpg_verify_signature_unobtainable (status_world 404 "Not Found")
                  foo_url_verifier "foo-1.2.3.tar.gz" "foo-1.2.3.tar.gz.asc"
                  (Some "https://example.org/foo-1.2.3.tar.gz")
                  (Some "https://example.org/foo-1.2.3.tar.gz.asc")
                  unsigned_machine
                  ltac:(vm_compute; reflexivity) ltac:(vm_compute; reflexivity)
                  ltac:(vm_compute; reflexivity) ltac:(vm_compute; reflexivity)
                  ltac:(vm_compute; reflexivity) ltac:(vm_compute; reflexivity))
           "https://example.org/foo-1.2.3.tar.gz.asc" 404%Z "Not Found").
  - reflexivity.
  - reflexivity.
  - reflexivity.
  - discriminate.
Defined.

(** The run of the command line on a package without signature: the
    verifier has no key URL, and the exception of [setopt] ends the run. *)
Example from_disk_missing_signature_raises :
  from_disk quiet_world "foo-1.2.3.tar.gz" "foo-1.2.3.tar.gz.asc" unsigned_machine
  = (Raise (TypeError "unsetopt() is not supported for this option"),
     mkState {["foo-1.2.3.tar.gz" := "data"; "foo-1.2.3.tar.gz.asc" := ""]} ∅ None
       [SEPT; "Performing GPG signature verification for package" +:+ LF] []).
Proof. vm_compute. reflexivity. Qed.

(** ** The command-line engine *)

(** X5. A failed import is fatal: when [gpg --import] of the public key
    ends with a code other than 0, [verify_cli] raises [Exception] with the
    standard error of the import, and [gpg --verify] is never run. This
    holds with a temporary keyring and with one named by the caller. *)
Theorem verify_cli_import_failure_fatal (w : world)
    (pubkey tarball signature : string) (gpghome : option string) (st : pystate)
    (out err : string) (code : Z) :
  let home := match gpghome with
              | Some h => h
              | None => fresh_string_of_set ("/tmp/" +:+ "tmp.gpghome") (dirs st)
              end in
  let seen := mkState (files st)
                (match gpghome with
                 | Some _ => dirs st
                 | None => {[home]} ∪ dirs st
                 end) (Some home) [] [] in
  popen w ["gpg"; "--import"; pubkey] seen = Ret (out, err, code) ->
  code <> 0%Z ->
  fst (verify_cli w (Some pubkey) tarball signature gpghome st) = Raise (Exception err)
  /\ calls (snd (verify_cli w (Some pubkey) tarball signature gpghome st))
     = (calls st ++ [CallGpg ["gpg"; "--import"; pubkey]])%list.
Proof.
  intros home seen Hpopen Hcode.
  assert (Hne : (code =? 0)%Z = false) by (apply Z.eqb_neq; exact Hcode).
  pose proof (popen_bound _ _ _ _ Hpopen) as Hcli.
  destruct gpghome as [h|]; subst home seen;
    unfold verify_cli, cli_gpg_ctx, mkdtemp, GPGCli_init, exec_cmd, set_GNUPGHOME;
    rewrite Hcli;
    mstep; unfold visible; mstep; rewrite Hpopen; mstep; rewrite Hne;
    unfold finally, del_GNUPGHOME, rmtree; mstep; split; reflexivity.
Qed.

Lemma verify_cli_import_failure_fatal_witness :
  fst (verify_cli (failing_gpg_world "gpg: no valid OpenPGP data found.")
         (Some "author.pubkey") "foo-1.2.3.tar.gz" "foo-1.2.3.tar.gz.asc"
         (Some "/opt/pki/gpghome") keyring_machine)
    = Raise (Exception "gpg: no valid OpenPGP data found.")
  /\ calls (snd (verify_cli (failing_gpg_world "gpg: no valid OpenPGP data found.")
                   (Some "author.pubkey") "foo-1.2.3.tar.gz" "foo-1.2.3.tar.gz.asc"
                   (Some "/opt/pki/gpghome") keyring_machine))
     = (calls keyring_machine ++ [CallGpg ["gpg"; "--import"; "author.pubkey"]])%list.
Proof.
  apply (verify_cli_import_failure_fatal
           (failing_gpg_world "gpg: no valid OpenPGP data found.")
           "author.pubkey" "foo-1.2.3.tar.gz" "foo-1.2.3.tar.gz.asc"
           (Some "/opt/pki/gpghome") keyring_machine "" _ 2%Z).
  - reflexivity.
  - discriminate.
Defined.

(** X6. Without a public key [verify_cli] runs against the ambient keyring:
    it ignores the keyring argument, creates no directory, leaves
    [GNUPGHOME] alone and runs [gpg --verify] on the signature and the
    package once; the result is [None] exactly when the exit code is 0, and
    otherwise the standard error of the command. *)
Theorem verify_cli_ambient_keyring (w : world) (tarball signature : string)
    (gpghome : option string) (st : pystate) (out err : string) (code : Z) :
  popen w ["gpg"; "--verify"; signature; tarball] (visible st) = Ret (out, err, code) ->
  verify_cli w None tarball signature gpghome st =
    (Ret (if (code =? 0)%Z then None else Some err),
     mkState (files st) (dirs st) (environ_GNUPGHOME st) (stdout st)
       (calls st ++ [CallGpg ["gpg"; "--verify"; signature; tarball]])).
Proof.
  intros Hpopen.
  unfold verify_cli, cli_gpg_ctx, GPGCli_init, GPGCli_verify, exec_cmd.
  rewrite (popen_bound _ _ _ _ Hpopen). mstep.
  cbn [cli_args app].
  change (visible (mkState (files st) _ _ _ _)) with (visible st).
  rewrite Hpopen. mstep. destruct (code =? 0)%Z; reflexivity.
Qed.

Lemma verify_cli_ambient_keyring_witness :
  verify_cli (failing_gpg_world "gpg: BAD signature") None "foo-1.2.3.tar.gz"
    "foo-1.2.3.tar.gz.asc" (Some "/opt/pki/gpghome") keyring_machine =
    (Ret (if (2 =? 0)%Z then None else Some "gpg: BAD signature"),
     mkState (files keyring_machine) (dirs keyring_machine)
       (environ_GNUPGHOME keyring_machine) (stdout keyring_machine)
       (calls keyring_machine ++
          [CallGpg ["gpg"; "--verify"; "foo-1.2.3.tar.gz.asc"; "foo-1.2.3.tar.gz"]])).
Proof.
  apply (verify_cli_ambient_keyring (failing_gpg_world "gpg: BAD signature")
           "foo-1.2.3.tar.gz" "foo-1.2.3.tar.gz.asc" (Some "/opt/pki/gpghome")
           keyring_machine "" "gpg: BAD signature" 2%Z).
  reflexivity.
Defined.

(** The block guarded by [cli_gpg_ctx] (import, verification) creates and
    removes no directory and leaves [GNUPGHOME] pointing to the keyring. *)
Lemma cli_block_keeps_keyring (w : world) (pubkey tarball signature home : string)
    (st1 : pystate) :
  keyring_state (dirs st1) (Some home)
    (snd ((ctx <- GPGCli_init w (Some pubkey) (Some home) ;;
           GPGCli_verify w ctx (Some pubkey) tarball signature) st1)).
Proof.
  pose proof (GPGCli_init_sets_home w pubkey home st1) as Hinit.
  unfold bind.
  destruct (GPGCli_init w (Some pubkey) (Some home) st1) as [[ctx|e] st'];
    simpl in *; [|exact Hinit].
  apply maintains_GPGCli_verify, Hinit.
Qed.

Lemma finally_unsets_GNUPGHOME {A} (r : outcome A) (tmp : string) (st : pystate) :
  environ_GNUPGHOME st = Some tmp ->
  environ_GNUPGHOME (snd (finally r (del_GNUPGHOME ;;; rmtree tmp) st)) = None.
Proof.
  intros Henv. unfold finally, bind, del_GNUPGHOME, rmtree. rewrite Henv.
  reflexivity.
Qed.

(** X7. The engines do not restore [GNUPGHOME]. After [verify_cli] with a
    public key and a temporary keyring the variable is unset, whatever it
    was before and however the call ends; with a keyring named by the
    caller it is left set to that keyring. After [verify_gpgme] on readable
    inputs it is unset with a temporary keyring and, with a keyring named
    by the caller, left set to the temporary directory that was made. *)
Theorem engines_leave_GNUPGHOME_changed (w : world)
    (pubkey tarball signature : string) (st : pystate) :
  environ_GNUPGHOME (snd (verify_cli w (Some pubkey) tarball signature None st)) = None
  /\ (forall gpghome : string,
        environ_GNUPGHOME
          (snd (verify_cli w (Some pubkey) tarball signature (Some gpghome) st))
        = Some gpghome)
  /\ (forall sig_bytes tar_bytes : string,
        files st !! signature = Some sig_bytes ->
        files st !! tarball = Some tar_bytes ->
        environ_GNUPGHOME
          (snd (verify_gpgme w (Some pubkey) tarball signature None st)) = None
        /\ forall gpghome : string,
             environ_GNUPGHOME
               (snd (verify_gpgme w (Some pubkey) tarball signature (Some gpghome) st))
             = Some (fresh_string_of_set ("/tmp/" +:+ "tmp.gpghome") (dirs st))).
Proof.
  split; [|split].
  - unfold verify_cli, cli_gpg_ctx, mkdtemp.
    set (tmp := fresh_string_of_set _ _).
    set (st1 := mkState _ _ _ _ _).
    pose proof (cli_block_keeps_keyring w pubkey tarball signature tmp st1) as Hblock.
    destruct ((ctx <- GPGCli_init w (Some pubkey) (Some tmp) ;;
               GPGCli_verify w ctx (Some pubkey) tarball signature) st1) as [r st2].
    destruct Hblock as [_ Henv]. simpl in Henv.
    apply finally_unsets_GNUPGHOME, Henv.
  - intros gpghome. unfold verify_cli, cli_gpg_ctx.
    pose proof (cli_block_keeps_keyring w pubkey tarball signature gpghome st)
      as Hblock.
    destruct ((ctx <- GPGCli_init w (Some pubkey) (Some gpghome) ;;
               GPGCli_verify w ctx (Some pubkey) tarball signature) st) as [r st2].
    destruct Hblock as [_ Henv]. simpl in Henv.
    unfold finally, ret. simpl. exact Henv.
  - intros sig_bytes tar_bytes Hsig Htar.
    assert (Hrun : forall gpghome : option string,
      environ_GNUPGHOME
        (snd (verify_gpgme w (Some pubkey) tarball signature gpghome st))
      = match gpghome with
        | None => None
        | Some _ => Some (fresh_string_of_set ("/tmp/" +:+ "tmp.gpghome") (dirs st))
        end).
    { intros gpghome.
      unfold verify_gpgme, bind at 1 2, read_file at 1 2. rewrite Hsig, Htar.
      unfold gpg_ctx, mkdtemp, set_GNUPGHOME.
      set (tmp := fresh_string_of_set _ _).
      set (st2 := mkState (files st) ({[tmp]} ∪ dirs st) (Some tmp)
                    (stdout st) (calls st)).
      match goal with
      | |- context [let '(r, st3) := ?run in _] =>
          assert (Hblock : keyring_state (dirs st2) (Some tmp) (snd run))
            by exact (gpgme_block_keeps_keyring w pubkey tarball signature tmp
                        sig_bytes tar_bytes st2 eq_refl);
          destruct run as [r st3]
      end.
      destruct Hblock as [_ Henv]. simpl in Henv.
      destruct gpghome as [h|].
      - unfold finally, ret. simpl. exact Henv.
      - apply finally_unsets_GNUPGHOME, Henv. }
    split; [exact (Hrun None)|]. intros gpghome. exact (Hrun (Some gpghome)).
Qed.

Lemma engines_leave_GNUPGHOME_changed_witness :
  environ_GNUPGHOME
    (snd (verify_gpgme quiet_world (Some "author.pubkey") "foo-1.2.3.tar.gz"
            "foo-1.2.3.tar.gz.asc" None package_machine)) = None
  /\ forall gpghome : string,
       environ_GNUPGHOME
         (snd (verify_gpgme quiet_world (Some "author.pubkey") "foo-1.2.3.tar.gz"
                 "foo-1.2.3.tar.gz.asc" (Some gpghome) package_machine))
       = Some (fresh_string_of_set ("/tmp/" +:+ "tmp.gpghome") (dirs package_machine)).
Proof.
  apply (proj2 (proj2 (engines_leave_GNUPGHOME_changed quiet_world "author.pubkey"
                         "foo-1.2.3.tar.gz" "foo-1.2.3.tar.gz.asc" package_machine))
           "signature" "data");
    vm_compute; reflexivity.
Defined.

(** ** The native engine *)

(** X8. [verify_gpgme] reads the signature and the package before it makes
    a keyring: when either file cannot be read it raises [OSError] with the
    machine untouched (no temporary directory, [GNUPGHOME] as before, no
    engine operation). *)
Theorem verify_gpgme_unreadable_input (w : world) (pubkey gpghome : option string)
    (tarball signature : string) (st : pystate) :
  (files st !! signature = None ->
   verify_gpgme w pubkey tarball signature gpghome st =
     (Raise (OSError ("No such file or directory: " +:+ signature)), st))
  /\ (forall sig_bytes,
        files st !! signature = Some sig_bytes ->
        files st !! tarball = None ->
        verify_gpgme w pubkey tarball signature gpghome st =
          (Raise (OSError ("No such file or directory: " +:+ tarball)), st)).
Proof.
  split.
  - intros Hsig. unfold verify_gpgme, bind, read_file. rewrite Hsig. reflexivity.
  - intros sig_bytes Hsig Htar.
    unfold verify_gpgme, bind, read_file. rewrite Hsig, Htar. reflexivity.
Qed.

Lemma verify_gpgme_unreadable_input_witness :
  verify_gpgme quiet_world (Some "author.pubkey") "foo-1.2.3.tar.gz"
    "foo-1.2.3.tar.gz.asc" None unsigned_machine =
    (Raise (OSError ("No such file or directory: " +:+ "foo-1.2.3.tar.gz.asc")),
     unsigned_machine).
Proof.
  apply (proj1 (verify_gpgme_unreadable_input quiet_world (Some "author.pubkey") None
                  "foo-1.2.3.tar.gz" "foo-1.2.3.tar.gz.asc" unsigned_machine)).
  vm_compute. reflexivity.
Defined.

(** X9. With readable inputs, a context, and an import that succeed,
    [verify_gpgme] returns the status of the first signature the engine
    reports and nothing else: the statuses of further signatures play no
    part, and an empty report raises [IndexError]. *)
Theorem verify_gpgme_first_signature (w : world)
    (pubkey tarball signature : string) (st : pystate)
    (sig_bytes tar_bytes key_bytes : string) (sigs : list (option string)) :
  let tmp := fresh_string_of_set ("/tmp/" +:+ "tmp.gpghome") (dirs st) in
  let seen := mkState (files st) ({[tmp]} ∪ dirs st) (Some tmp) [] [] in
  files st !! signature = Some sig_bytes ->
  files st !! tarball = Some tar_bytes ->
  files st !! pubkey = Some key_bytes ->
  gpgme_context w seen = Ret tt ->
  gpgme_import w key_bytes seen = Ret tt ->
  gpgme_verify w sig_bytes tar_bytes seen = Ret sigs ->
  fst (verify_gpgme w (Some pubkey) tarball signature None st) =
    match sigs with
    | status :: _ => Ret status
    | [] => Raise (IndexError "list index out of range")
    end.
Proof.
  intros tmp seen Hsig Htar Hkey Hctx Himport Hverify.
  unfold verify_gpgme, bind at 1 2, read_file at 1 2. rewrite Hsig, Htar.
  unfold gpg_ctx, mkdtemp, set_GNUPGHOME. fold tmp.
  unfold read_file. mstep. rewrite Hkey. mstep.
  unfold visible. mstep. fold seen.
  rewrite Hctx, Himport, Hverify.
  unfold finally, del_GNUPGHOME, rmtree. mstep.
  destruct sigs as [|status others]; reflexivity.
Qed.

Lemma verify_gpgme_first_signature_witness :
  fst (verify_gpgme (gpgme_world [None; Some "Bad signature"]) (Some "author.pubkey")
         "foo-1.2.3.tar.gz" "foo-1.2.3.tar.gz.asc" None signed_machine)
  = Ret None.
Proof.
  apply (verify_gpgme_first_signature (gpgme_world [None; Some "Bad signature"])
           "author.pubkey" "foo-1.2.3.tar.gz" "foo-1.2.3.tar.gz.asc" signed_machine
           "signature" "data" "key" [None; Some "Bad signature"]);
    vm_compute; reflexivity.
Defined.

(** ** Invariants of whole runs *)

Section Invariants.

(** A property of the machine that what is printed and the log of calls do
    not affect. *)
Context (I : pystate -> Prop).
Context (I_visible : forall s s', visible s = visible s' -> I s -> I s').

Lemma inv_bind {A B} (m : M A) (k : A -> M B) :
  maintains I m -> (forall a, maintains I (k a)) -> maintains I (bind m k).
Proof.
  intros Hm Hk st Hst. unfold bind.
  specialize (Hm st Hst). destruct (m st) as [[a|e] st']; simpl in *.
  - apply Hk, Hm.
  - exact Hm.
Qed.

Lemma inv_ret {A} (a : A) : maintains I (ret a).
Proof. intros st Hst. exact Hst. Qed.

Lemma inv_raise {A} (e : exn) : maintains I (@raise A e).
Proof. intros st Hst. exact Hst. Qed.

Lemma inv_lift {A} (o : outcome A) : maintains I (lift o).
Proof. intros st Hst. exact Hst. Qed.

Lemma inv_ask {A} (f : pystate -> outcome A) :
  maintains I (fun st => (f (visible st), st)).
Proof. intros st Hst. exact Hst. Qed.

Lemma inv_print (line : string) : maintains I (print line).
Proof. intros st Hst. apply (I_visible st); [reflexivity|exact Hst]. Qed.

Lemma inv_record_call (c : call) : maintains I (record_call c).
Proof. intros st Hst. apply (I_visible st); [reflexivity|exact Hst]. Qed.

Lemma inv_getattr (cls : string) (self : instance) (attr : string) :
  maintains I (getattr cls self attr).
Proof. unfold getattr. destruct (self !! attr); [apply inv_ret|apply inv_raise]. Qed.

Lemma inv_as_str (v : option string) : maintains I (as_str v).
Proof. destruct v; [apply inv_ret|apply inv_raise]. Qed.

Lemma inv_os_path_exists (p : option string) : maintains I (os_path_exists p).
Proof. destruct p; [|apply inv_raise]. intros st Hst. exact Hst. Qed.

Lemma inv_read_file (p : string) : maintains I (read_file p).
Proof. intros st Hst. unfold read_file. destruct (files st !! p); exact Hst. Qed.

Lemma inv_print_result (cls : string) (self : instance) (result : bool)
    (err_msg : string) :
  maintains I (print_result cls self result err_msg).
Proof.
  unfold print_result. apply inv_bind; [apply inv_getattr|].
  intros url. destruct result; apply inv_print.
Qed.

Lemma inv_exec_cmd (w : world) (args : list string) : maintains I (exec_cmd w args).
Proof.
  unfold exec_cmd. destruct (GPG_CLI w); [|apply inv_raise].
  apply inv_bind; [apply inv_record_call|].
  intros _. apply (inv_ask (popen w args)).
Qed.

Lemma inv_get_keyid (w : world) (sig_filename : string) :
  maintains I (get_keyid w sig_filename).
Proof.
  unfold get_keyid, parse_keyid.
  apply inv_bind.
  - apply inv_bind.
    { destruct (GPG_CLI w); [|apply inv_raise].
      apply inv_bind; [apply inv_record_call|]. intros _.
      apply (inv_ask (popen w _)). }
    intros [[out err] code].
    destruct (negb (String.eqb err "")).
    + apply inv_bind; [apply inv_print|]. intros _. apply inv_ret.
    + destruct (PyStr.find "keyid" out) as [i|]; [|apply inv_raise].
      destruct (PyStr.find LF _) as [j|]; [apply inv_ret|apply inv_raise].
  - intros [k|]; [apply inv_ret|apply inv_raise].
Qed.

Lemma inv_get_sign (w : world) (self : instance) :
  (forall url dest,
      self !! "package_sign_path" = Some (Some dest) ->
      maintains I (attempt_to_download w url dest)) ->
  maintains I (get_sign w self).
Proof.
  intros Hfetch st Hst.
  unfold get_sign, download_file, getattr.
  destruct (self !! "key_url") as [key_url|]; [|exact Hst].
  destruct (self !! "package_sign_path") as [[dest|]|] eqn:Hdest; try exact Hst.
  unfold bind at 1 2 3 4, ret at 1 2, as_str, ret at 1.
  pose proof (Hfetch key_url dest eq_refl st Hst) as Hdone.
  destruct (attempt_to_download w key_url dest st) as [[code|e] st']; simpl in *;
    [|exact Hdone].
  assert (Hfail : forall msg, I (snd ((print_error msg ;;; ret false) st'))).
  { intros msg. apply (inv_bind (print_error msg) (fun _ => ret false));
      [apply inv_print|intros _; apply inv_ret|exact Hdone]. }
  destruct code as [c|]; [|apply Hfail].
  destruct c as [|q|q]; try apply Hfail.
  do 8 (destruct q as [q|q|]; try apply Hfail).
  exact Hdone.
Qed.

(** [GPGVerifier.verify] maintains such a property when the fetch of the
    signature and the engines do. *)
Lemma inv_GPGVerifier_verify (w : world) (self : instance) :
  (forall url dest,
      self !! "package_sign_path" = Some (Some dest) ->
      maintains I (attempt_to_download w url dest)) ->
  (forall pubkey tarball signature,
      maintains I (verify_cli w (Some pubkey) tarball signature None)) ->
  (forall pubkey tarball signature,
      maintains I (verify_gpgme w (Some pubkey) tarball signature None)) ->
  maintains I (GPGVerifier_verify w self).
Proof.
  intros Hfetch Hcli Hgpgme. unfold GPGVerifier_verify.
  apply inv_bind; [apply inv_print|]. intros _.
  apply inv_bind; [apply inv_getattr|]. intros package_path.
  apply inv_bind; [apply inv_os_path_exists|]. intros found.
  destruct (negb found).
  { apply inv_bind; [apply inv_print_result|]. intros _. apply inv_ret. }
  apply inv_bind; [apply inv_getattr|]. intros package_sign_path.
  apply inv_bind; [apply inv_os_path_exists|]. intros have_sign.
  apply inv_bind.
  { destruct (negb have_sign); [|apply inv_ret].
    apply inv_bind; [apply inv_get_sign, Hfetch|]. intros got. apply inv_ret. }
  intros missing. destruct missing.
  { apply inv_bind; [apply inv_print_result|]. intros _. apply inv_ret. }
  apply inv_bind.
  { unfold get_pubkey_path.
    apply inv_bind; [apply inv_getattr|]. intros v.
    apply inv_bind; [apply inv_as_str|]. intros sig_filename.
    apply inv_bind; [apply inv_get_keyid|]. intros keyid. apply inv_ret. }
  intros pub_key.
  apply inv_bind; [apply inv_os_path_exists|]. intros have_key.
  destruct (negb have_key).
  { apply inv_bind; [apply inv_as_str|]. intros sig_filename.
    apply inv_bind; [apply inv_get_keyid|]. intros key_id.
    apply inv_bind; [apply inv_print_result|]. intros _. apply inv_ret. }
  apply inv_bind; [apply inv_as_str|]. intros tarball.
  apply inv_bind; [apply inv_as_str|]. intros signature.
  apply inv_bind.
  { destruct (GPG_CLI w); [apply Hcli|apply Hgpgme]. }
  intros [strerror|];
    (apply inv_bind; [apply inv_print_result|]; intros _; apply inv_ret).
Qed.

End Invariants.

Lemma visible_dirs (s s' : pystate) : visible s = visible s' -> dirs s = dirs s'.
Proof. intros Hvis. exact (f_equal dirs Hvis). Qed.

Lemma visible_files (s s' : pystate) : visible s = visible s' -> files s = files s'.
Proof. intros Hvis. exact (f_equal files Hvis). Qed.

(** The fetch creates and removes no directory. *)
Lemma attempt_to_download_dirs (w : world) (url : option string) (dest : string)
    (st : pystate) :
  dirs (snd (attempt_to_download w url dest st)) = dirs st.
Proof.
  unfold attempt_to_download, open_wb, setopt_URL, write_file, os_unlink. mstep.
  destruct (os_open_wb w dest (visible st)); mstep; [|reflexivity].
  destruct url as [u|]; mstep; [|reflexivity].
  destruct (curl_perform w (Some u) true) as [code body|msg partial]; mstep;
    [|reflexivity].
  destruct (negb (code =? 200)%Z); mstep; [|reflexivity].
  rewrite lookup_insert_eq. reflexivity.
Qed.


(** Both engines leave the directories as they were when they make their
    own keyring. *)
Lemma verify_cli_keeps_dirs (w : world) (pubkey tarball signature : string)
    (st : pystate) :
  dirs (snd (verify_cli w (Some pubkey) tarball signature None st)) = dirs st.
Proof.
  pose proof (fresh_string_of_set_fresh (dirs st) ("/tmp/" +:+ "tmp.gpghome"))
    as Hfresh.
  unfold verify_cli, cli_gpg_ctx, mkdtemp.
  set (tmp := fresh_string_of_set _ _) in *.
  set (st1 := mkState _ _ _ _ _).
  pose proof (cli_block_keeps_keyring w pubkey tarball signature tmp st1) as Hblock.
  destruct ((ctx <- GPGCli_init w (Some pubkey) (Some tmp) ;;
             GPGCli_verify w ctx (Some pubkey) tarball signature) st1) as [r st2].
  destruct Hblock as [Hdirs Henv]. simpl in Hdirs, Henv.
  rewrite (finally_removes_keyring r tmp st2 Henv), Hdirs.
  subst st1. simpl. apply remove_fresh_dir, Hfresh.
Qed.

Lemma verify_gpgme_keeps_dirs (w : world) (pubkey tarball signature : string)
    (st : pystate) :
  dirs (snd (verify_gpgme w (Some pubkey) tarball signature None st)) = dirs st.
Proof.
  pose proof (fresh_string_of_set_fresh (dirs st) ("/tmp/" +:+ "tmp.gpghome"))
    as Hfresh.
  unfold verify_gpgme, bind at 1 2, read_file at 1 2.
  destruct (files st !! signature) as [sig_bytes|]; [|reflexivity].
  destruct (files st !! tarball) as [tar_bytes|]; [|reflexivity].
  unfold gpg_ctx, mkdtemp, set_GNUPGHOME.
  set (tmp := fresh_string_of_set _ _) in *.
  set (st2 := mkState (files st) ({[tmp]} ∪ dirs st) (Some tmp)
                (stdout st) (calls st)).
  match goal with
  | |- context [let '(r, st3) := ?run in _] =>
      assert (Hblock : keyring_state (dirs st2) (Some tmp) (snd run))
        by exact (gpgme_block_keeps_keyring w pubkey tarball signature tmp
                    sig_bytes tar_bytes st2 eq_refl);
      destruct run as [r st3]
  end.
  destruct Hblock as [Hdirs Henv]. simpl in Hdirs, Henv.
  rewrite (finally_removes_keyring r tmp st3 Henv), Hdirs.
  subst st2. simpl. apply remove_fresh_dir, Hfresh.
Qed.

(** Neither engine writes or deletes a file. *)
Lemma verify_cli_keeps_files (w : world) (pubkey gpghome : option string)
    (tarball signature : string) (st : pystate) :
  files (snd (verify_cli w pubkey tarball signature gpghome st)) = files st.
Proof.
  unfold verify_cli, cli_gpg_ctx, mkdtemp, GPGCli_init, GPGCli_verify, exec_cmd,
    set_GNUPGHOME, finally, del_GNUPGHOME, rmtree.
  destruct (GPG_CLI w), pubkey as [pk|], gpghome as [h|]; mstep;
    repeat match goal with
           | |- context [popen ?w' ?a ?s] =>
               destruct (popen w' a s) as [[[? ?] ?]|?]; mstep
           | |- context [(?c =? 0)%Z] => destruct (c =? 0)%Z; mstep
           end;
    reflexivity.
Qed.

Lemma verify_gpgme_keeps_files (w : world) (pubkey gpghome : option string)
    (tarball signature : string) (st : pystate) :
  files (snd (verify_gpgme w pubkey tarball signature gpghome st)) = files st.
Proof.
  unfold verify_gpgme, gpg_ctx, mkdtemp, set_GNUPGHOME, finally, del_GNUPGHOME,
    rmtree, read_file.
  mstep.
  destruct (files st !! signature); mstep; [|reflexivity].
  destruct (files st !! tarball); mstep; [|reflexivity].
  destruct pubkey as [pk|]; mstep.
  - destruct (gpgme_context w _); mstep;
      [|destruct gpghome; reflexivity].
    destruct (files st !! pk); mstep; [|destruct gpghome; reflexivity].
    destruct (gpgme_import w _ _); mstep; [|destruct gpghome; reflexivity].
    destruct (gpgme_verify w _ _ _) as [[|status sigs]|e]; mstep;
      destruct gpghome; reflexivity.
  - destruct (gpgme_context w _); mstep; [|reflexivity].
    destruct (gpgme_verify w _ _ _) as [[|status sigs]|e]; reflexivity.
Qed.

(** X10. Whatever the world does and however the run ends,
    [GPGVerifier.verify] leaves the directories of the machine as they
    were: no temporary keyring of the verification survives the strategy. *)
Theorem gpg_verify_keeps_directories (w : world) (self : instance) (st : pystate) :
  dirs (snd (GPGVerifier_verify w self st)) = dirs st.
Proof.
  apply (inv_GPGVerifier_verify (fun s => dirs s = dirs st)).
  - intros s s' Hvis Hs. rewrite <- (visible_dirs s s' Hvis). exact Hs.
  - intros url dest _ s Hs. rewrite attempt_to_download_dirs. exact Hs.
  - intros pubkey tarball signature s Hs. rewrite verify_cli_keeps_dirs. exact Hs.
  - intros pubkey tarball signature s Hs. rewrite verify_gpgme_keeps_dirs. exact Hs.
  - reflexivity.
Qed.



(** ** The results a strategy can return *)

Lemma ro_bind {A B} (P : B -> Prop) (m : M A) (k : A -> M B) :
  (forall a, returns_only P (k a)) -> returns_only P (bind m k).
Proof.
  intros Hk st b. unfold bind.
  destruct (m st) as [[a|e] st'] eqn:Hm; [apply Hk|discriminate].
Qed.

Lemma ro_ret {A} (P : A -> Prop) (a : A) : P a -> returns_only P (ret a).
Proof. intros Ha st b [= <-]. exact Ha. Qed.

Lemma ro_raise {A} (P : A -> Prop) (e : exn) : returns_only P (raise e).
Proof. intros st b. discriminate. Qed.

(** X12. [GPGVerifier.verify] never returns [False]: every normal result is
    [True] or [None], so a signature the engine rejects and a verification
    that could not be attempted give the same return value. *)
Theorem gpg_verify_returns_true_or_none (w : world) (self : instance) (st : pystate)
    (r : option bool) :
  fst (GPGVerifier_verify w self st) = Ret r -> r = Some true \/ r = None.
Proof.
  revert st r.
  change (returns_only (fun r => r = Some true \/ r = None) (GPGVerifier_verify w self)).
  unfold GPGVerifier_verify.
  apply ro_bind; intros _.
  apply ro_bind; intros package_path.
  apply ro_bind; intros found.
  destruct (negb found); [apply ro_bind; intros _; apply ro_ret; auto|].
  apply ro_bind; intros package_sign_path.
  apply ro_bind; intros have_sign.
  apply ro_bind; intros missing.
  destruct missing; [apply ro_bind; intros _; apply ro_ret; auto|].
  apply ro_bind; intros pub_key.
  apply ro_bind; intros have_key.
  destruct (negb have_key).
  { apply ro_bind; intros sig_filename. apply ro_bind; intros key_id.
    apply ro_bind; intros _. apply ro_ret; auto. }
  apply ro_bind; intros tarball.
  apply ro_bind; intros signature.
  apply ro_bind; intros [strerror|];
    apply ro_bind; intros _; apply ro_ret; auto.
Qed.

Lemma gpg_verify_returns_true_or_none_witness :
  Some true = Some true \/ Some true = @None bool.
Proof.
  apply (gpg_verify_returns_true_or_none (listing_world sample_listing "" 0)
           foo_verifier signed_machine (Some true)).
  vm_compute. reflexivity.
Defined.

(** X13. [GEMShaVerifier.verify] never returns [None]: every normal result
    is [True] or [False]. The branch that prints ["unable to parse info"] is
    dead, because a registry answer that decodes to [None] makes
    [get_gemnumber_sha] raise [TypeError] one statement earlier. *)
Theorem gem_verify_returns_a_boolean (w : world) (self : instance) (st : pystate)
    (r : option bool) :
  fst (GEMShaVerifier_verify w self st) = Ret r -> exists b : bool, r = Some b.
Proof.
  revert st r.
  change (returns_only (fun r => exists b : bool, r = Some b)
            (GEMShaVerifier_verify w self)).
  unfold GEMShaVerifier_verify.
  apply ro_bind; intros _.
  apply ro_bind; intros attr.
  apply ro_bind; intros package_path.
  apply ro_bind; intros name_rest.
  apply ro_bind; intros geminfo.
  destruct geminfo;
    try (apply ro_bind; intros gemsha; apply ro_bind; intros calcsha;
         apply ro_bind; intros _; apply ro_ret; eexists; reflexivity).
  intros st r. unfold bind, lift. cbn. discriminate.
Qed.

Lemma gem_verify_returns_a_boolean_witness : exists b : bool, Some false = Some b.
Proof.
  apply (gem_verify_returns_a_boolean (registry_world 200 "[]" (Ret (JList [])))
           bar_verifier gem_machine (Some false)).
  vm_compute. reflexivity.
Defined.

(** A registry answer of [null] in particular raises. *)
Example gem_verify_null_answer :
  fst (GEMShaVerifier_verify (registry_world 200 "null" (Ret JNull))
         bar_verifier gem_machine)
  = Raise (TypeError "object is not iterable").
Proof. vm_compute. reflexivity. Qed.

(** ** A complete verification with the command-line engine *)

(** X14. With the command-line engine, the package and its signature on
    disk, the key of the signature in the keyring and a successful import,
    [GPGVerifier.verify] runs one packet listing, [gpg --import] of the
    keyring entry and [gpg --verify] of the signature over the package; it
    returns [True] after the success line exactly when [gpg --verify] exits
    with 0, and otherwise [None] after a failure line that carries the
    standard error of [gpg --verify]. *)
Theorem gpg_verify_cli_outcome (w : world) (self : instance)
    (package_path package_sign_path key_id : string) (url : option string)
    (st : pystate) (out1 err1 out2 err2 : string) (code : Z) :
  let pub_key := script_dir w +:+ "/" +:+ "keyring" +:+ "/" +:+ key_id +:+ ".pkey" in
  let tmp := fresh_string_of_set ("/tmp/" +:+ "tmp.gpghome") (dirs st) in
  let seen := mkState (files st) ({[tmp]} ∪ dirs st) (Some tmp) [] [] in
  let name := match url with Some u => OsPath.basename u | None => "" end in
  GPG_CLI w = true ->
  self !! "package_path" = Some (Some package_path) ->
  self !! "package_sign_path" = Some (Some package_sign_path) ->
  self !! "url" = Some url ->
  package_path <> "" ->
  path_exists package_path st = true ->
  path_exists package_sign_path st = true ->
  fst (get_keyid w package_sign_path st) = Ret key_id ->
  path_exists pub_key st = true ->
  popen w ["gpg"; "--import"; pub_key] seen = Ret (out1, err1, 0%Z) ->
  popen w ["gpg"; "--verify"; package_sign_path; package_path] seen
    = Ret (out2, err2, code) ->
  fst (GPGVerifier_verify w self st) = Ret (if (code =? 0)%Z then Some true else None)
  /\ stdout (snd (GPGVerifier_verify w self st)) =
       (stdout st ++
          ["Performing GPG signature verification for package" +:+ LF;
           if (code =? 0)%Z
           then ESC +:+ "[92mSUCCESS:" +:+ ESC +:+ "[0m " +:+ name +:+
                  " verification was successful"
           else ESC +:+ "[91mERROR  :" +:+ ESC +:+ "[0m " +:+ name +:+
                  " verification failed " +:+ err2])%list
  /\ calls (snd (GPGVerifier_verify w self st)) =
       (calls st ++
          [CallListPacket ["gpg"; "--list-packet"; package_sign_path];
           CallGpg ["gpg"; "--import"; pub_key];
           CallGpg ["gpg"; "--verify"; package_sign_path; package_path]])%list.
Proof.
  intros pub_key tmp seen name Hcli Hpath Hsign Hurl Hnonempty Hpackage Hsignature
    Hkeyid Hkey Himport Hverify.
  assert (Htruthy : PyStr.truthy package_path = true).
  { unfold PyStr.truthy. destruct (String.eqb_spec package_path ""); [contradiction|].
    reflexivity. }
  unfold GPGVerifier_verify. mstep.
  rewrite Hpath. unfold os_path_exists. mstep.
  change (path_exists package_path (mkState (files st) _ _ _ _))
    with (path_exists package_path st).
  rewrite Hpackage. cbn [negb]. mstep.
  rewrite Hsign. mstep.
  change (path_exists package_sign_path (mkState (files st) _ _ _ _))
    with (path_exists package_sign_path st).
  rewrite Hsignature. cbn [negb]. mstep.
  unfold get_pubkey_path. mstep. rewrite Hsign. mstep.
  match goal with
  | |- context [get_keyid w package_sign_path ?s] =>
      rewrite (get_keyid_visible w package_sign_path key_id st s eq_refl Hkeyid)
  end.
  mstep. fold pub_key.
  match goal with
  | |- context [path_exists pub_key ?s] =>
      change (path_exists pub_key s) with (path_exists pub_key st)
  end.
  rewrite Hkey. cbn [negb]. mstep. rewrite Hcli.
  unfold verify_cli, cli_gpg_ctx, mkdtemp, GPGCli_init, GPGCli_verify, exec_cmd,
    set_GNUPGHOME.
  rewrite Hcli.
  mstep. fold tmp. unfold visible. mstep. fold seen.
  rewrite Himport. mstep. cbn [Z.eqb cli_args app]. mstep. fold seen.
  rewrite Hverify. mstep.
  unfold finally, del_GNUPGHOME, rmtree. mstep.
  destruct (code =? 0)%Z; mstep; unfold print_result; mstep; rewrite Hurl; mstep;
    rewrite ?Htruthy; unfold print_success, print_error; mstep;
    rewrite <- !app_assoc; repeat split; reflexivity.
Qed.

Lemma gpg_verify_cli_outcome_witness :
  fst (GPGVerifier_verify (gpg_world "gpg: BAD signature" 1) foo_verifier signed_machine)
    = Ret (if (1 =? 0)%Z then Some true else None)
  /\ stdout (snd (GPGVerifier_verify (gpg_world "gpg: BAD signature" 1) foo_verifier
                    signed_machine)) =
       (stdout signed_machine ++
          ["Performing GPG signature verification for package" +:+ LF;
           if (1 =? 0)%Z
           then ESC +:+ "[92mSUCCESS:" +:+ ESC +:+ "[0m " +:+ "" +:+
                  " verification was successful"
           else ESC +:+ "[91mERROR  :" +:+ ESC +:+ "[0m " +:+ "" +:+
                  " verification failed " +:+ "gpg: BAD signature"])%list
  /\ calls (snd (GPGVerifier_verify (gpg_world "gpg: BAD signature" 1) foo_verifier
                   signed_machine)) =
       (calls signed_machine ++
          [CallListPacket ["gpg"; "--list-packet"; "foo-1.2.3.tar.gz.asc"];
           CallGpg ["gpg"; "--import"; "/opt/autospec/keyring/0123456789ABCDEF.pkey"];
           CallGpg ["gpg"; "--verify"; "foo-1.2.3.tar.gz.asc"; "foo-1.2.3.tar.gz"]])%list.
Proof.
  apply (gpg_verify_cli_outcome (gpg_world "gpg: BAD signature" 1) foo_verifier
           "foo-1.2.3.tar.gz" "foo-1.2.3.tar.gz.asc" "0123456789ABCDEF" None
           signed_machine "" "gpg: key imported" "" "gpg: BAD signature" 1%Z);
    try (vm_compute; reflexivity).
  discriminate.
Defined.

(** ** The GPG strategy where [gpgme] is importable *)

(** X29. Where [import gpgme] succeeded ([GPG_CLI] is false), a
    [GPGVerifier.verify] that finds the package and its signature on disk
    raises [NameError] when it extracts the key identifier: [Popen] was
    never imported. Nothing but the first line is printed and no external
    call is made, so the native engine that [GPG_CLI] selects is not
    reached. *)
Theorem gpg_verify_without_popen (w : world) (self : instance)
    (package_path package_sign_path : string) (st : pystate) :
  GPG_CLI w = false ->
  self !! "package_path" = Some (Some package_path) ->
  self !! "package_sign_path" = Some (Some package_sign_path) ->
  path_exists package_path st = true ->
  path_exists package_sign_path st = true ->
  GPGVerifier_verify w self st =
    (Raise (NameError "name 'Popen' is not defined"),
     mkState (files st) (dirs st) (environ_GNUPGHOME st)
       (stdout st ++ ["Performing GPG signature verification for package" +:+ LF])
       (calls st)).
Proof.
  intros Hcli Hpath Hsign Hpackage Hsignature.
  unfold GPGVerifier_verify. mstep.
  rewrite Hpath. unfold os_path_exists. mstep.
  change (path_exists package_path (mkState (files st) _ _ _ _))
    with (path_exists package_path st).
  rewrite Hpackage. cbn [negb]. mstep.
  rewrite Hsign. mstep.
  change (path_exists package_sign_path (mkState (files st) _ _ _ _))
    with (path_exists package_sign_path st).
  rewrite Hsignature. cbn [negb]. mstep.
  unfold get_pubkey_path. mstep. rewrite Hsign. mstep.
  rewrite get_keyid_without_popen by exact Hcli.
  reflexivity.
Qed.

Lemma gpg_verify_without_popen_witness :
  GPGVerifier_verify (gpgme_world [None]) foo_verifier signed_machine =
    (Raise (NameError "name 'Popen' is not defined"),
     mkState (files signed_machine) (dirs signed_machine)
       (environ_GNUPGHOME signed_machine)
       (stdout signed_machine
          ++ ["Performing GPG signature verification for package" +:+ LF])
       (calls signed_machine)).
Proof.
  apply (gpg_verify_without_popen (gpgme_world [None]) foo_verifier
           "foo-1.2.3.tar.gz" "foo-1.2.3.tar.gz.asc" signed_machine);
    vm_compute; reflexivity.
Defined.

(** ** Fetched signatures *)

(** A fetch that ends with status 200 makes [get_sign] return [True] with
    the body stored at the signature path. *)
Lemma get_sign_fetches (w : world) (self : instance)
    (package_sign_path body key_url : string) (st : pystate) :
  self !! "package_sign_path" = Some (Some package_sign_path) ->
  self !! "key_url" = Some (Some key_url) ->
  os_open_wb w package_sign_path (visible st) = Ret tt ->
  curl_perform w (Some key_url) true = CurlDone 200 body ->
  get_sign w self st =
    (Ret true,
     mkState (<[package_sign_path := body]> (<[package_sign_path := ""]> (files st)))
       (dirs st) (environ_GNUPGHOME st) (stdout st)
       (calls st ++ [CallCurl (Some key_url)])).
Proof.
  intros Hsign Hkurl Hopen Hcurl.
  unfold get_sign, download_file. mstep. rewrite Hkurl. mstep.
  rewrite Hsign. mstep.
  unfold attempt_to_download, open_wb, setopt_URL, write_file. mstep.
  rewrite Hopen. mstep.
  rewrite Hcurl. reflexivity.
Qed.

(** After a fetch with status 200 the rest of [GPGVerifier.verify] leaves
    the signature file alone. *)
Lemma gpg_verify_signature_kept_aux (w : world) (self : instance)
    (package_path package_sign_path body key_url : string) (st : pystate) :
  self !! "package_path" = Some (Some package_path) ->
  self !! "package_sign_path" = Some (Some package_sign_path) ->
  self !! "key_url" = Some (Some key_url) ->
  path_exists package_path st = true ->
  path_exists package_sign_path st = false ->
  os_open_wb w package_sign_path (visible st) = Ret tt ->
  curl_perform w (Some key_url) true = CurlDone 200 body ->
  files (snd (GPGVerifier_verify w self st)) !! package_sign_path = Some body.
Proof.
  intros Hpath Hsign Hkurl Hpackage Hsignature Hopen Hcurl.
  unfold GPGVerifier_verify.
  unfold bind at 1, print at 1. cbv beta iota zeta.
  unfold bind at 1, getattr at 1. rewrite Hpath. unfold ret at 1. cbv beta iota zeta.
  unfold bind at 1, os_path_exists at 1. cbv beta iota zeta.
  change (path_exists package_path (mkState (files st) _ _ _ _))
    with (path_exists package_path st).
  rewrite Hpackage. cbn [negb]. cbv beta iota zeta.
  unfold bind at 1, getattr at 1. rewrite Hsign. unfold ret at 1. cbv beta iota zeta.
  unfold bind at 1, os_path_exists at 1. cbv beta iota zeta.
  change (path_exists package_sign_path (mkState (files st) _ _ _ _))
    with (path_exists package_sign_path st).
  rewrite Hsignature. cbn [negb]. cbv beta iota zeta.
  unfold bind at 1 2.
  match goal with
  | |- context [get_sign w self ?s] =>
      rewrite (get_sign_fetches w self package_sign_path body key_url s Hsign Hkurl
                 Hopen Hcurl)
  end.
  unfold ret at 1. cbn [negb]. cbv beta iota zeta.
  cbn [files dirs environ_GNUPGHOME stdout calls].
  match goal with
  | |- files (snd (?tail ?s)) !! _ = _ =>
      assert (Htail : maintains (fun s' => files s' !! package_sign_path = Some body)
                        tail);
      [|apply (Htail s); apply lookup_insert_eq]
  end.
  assert (Hstable : forall s s', visible s = visible s' ->
            files s !! package_sign_path = Some body ->
            files s' !! package_sign_path = Some body).
  { intros s s' Hvis Hs. rewrite <- (visible_files s s' Hvis). exact Hs. }
  apply inv_bind.
  { unfold get_pubkey_path.
    apply inv_bind; [apply inv_getattr|]. intros v.
    apply inv_bind; [apply inv_as_str|]. intros sig_filename.
    apply inv_bind; [apply inv_get_keyid, Hstable|]. intros keyid. apply inv_ret. }
  intros pub_key.
  apply inv_bind; [apply inv_os_path_exists|]. intros have_key.
  destruct (negb have_key).
  { apply inv_bind; [apply inv_as_str|]. intros sig_filename.
    apply inv_bind; [apply inv_get_keyid, Hstable|]. intros key_id.
    apply inv_bind; [apply inv_print_result, Hstable|]. intros _. apply inv_ret. }
  apply inv_bind; [apply inv_as_str|]. intros tarball.
  apply inv_bind; [apply inv_as_str|]. intros signature.
  apply inv_bind.
  { destruct (GPG_CLI w); intros s Hs.
    - rewrite verify_cli_keeps_files. exact Hs.
    - rewrite verify_gpgme_keeps_files. exact Hs. }
  intros [strerror|];
    (apply inv_bind; [apply inv_print_result, Hstable|]; intros _; apply inv_ret).
Qed.

(** X15. A signature that [GPGVerifier.verify] fetches with status 200 is
    kept: when the package is on disk, the signature is not, the verifier
    has a key URL and [open] accepts the destination, the file named by
    [package_sign_path] holds after the run the body served for the key
    URL, however the rest of the verification ends (unparseable signature,
    missing key, engine failure or success). *)
Theorem gpg_verify_keeps_fetched_signature (w : world) (self : instance)
    (package_path package_sign_path body key_url : string) (st : pystate) :
  self !! "package_path" = Some (Some package_path) ->
  self !! "package_sign_path" = Some (Some package_sign_path) ->
  self !! "key_url" = Some (Some key_url) ->
  path_exists package_path st = true ->
  path_exists package_sign_path st = false ->
  os_open_wb w package_sign_path (visible st) = Ret tt ->
  curl_perform w (Some key_url) true = CurlDone 200 body ->
  files (snd (GPGVerifier_verify w self st)) !! package_sign_path = Some body.
Proof.
  intros Hpath Hsign Hkurl Hpackage Hsignature Hopen Hcurl.
  exact (gpg_verify_signature_kept_aux w self package_path package_sign_path body
           key_url st Hpath Hsign Hkurl Hpackage Hsignature Hopen Hcurl).
Qed.

Lemma gpg_verify_keeps_fetched_signature_witness :
  files (snd (GPGVerifier_verify (status_world 200 "signature") foo_url_verifier
                unsigned_machine)) !! "foo-1.2.3.tar.gz.asc" = Some "signature".
Proof.
  apply (gpg_verify_keeps_fetched_signature (status_world 200 "signature")
           foo_url_verifier "foo-1.2.3.tar.gz" "foo-1.2.3.tar.gz.asc" "signature"
           "https://example.org/foo-1.2.3.tar.gz.asc" unsigned_machine);
    vm_compute; reflexivity.
Defined.

(** The verifier [from_url] builds: the signature is expected next to the
    package and fetched from the package URL followed by [.asc]. *)
Lemma from_url_constructs (url package_path : string) (st : pystate) :
  exists v : instance,
    construct GPGVerifier (<["package_path" := package_path]> (<["url" := url]> ∅)) st
      = (Ret v, snd (print SEPT st))
    /\ v !! "package_path" = Some (Some package_path)
    /\ v !! "package_sign_path" = Some (Some (package_path +:+ ".asc"))
    /\ v !! "key_url" = Some (Some (url +:+ ".asc"))
    /\ v !! "url" = Some (Some url).
Proof.
  exists (<["package_sign_path" := Some (package_path +:+ ".asc")]>
            (<["key_url" := Some (url +:+ ".asc")]>
               (<["package_path" := Some package_path]>
                  (<["key_url" := None]>
                     (<["package_sign_path" := None]>
                        (<["url" := Some url]> ∅)))))).
  split.
  - unfold construct, GPGVerifier_init, Verifier_init.
    assert (Hk : forall key, key <> "package_path" -> key <> "url" ->
              (<["package_path" := package_path]>
                 (<["url" := url]> (∅ : gmap string string))) !! key = None).
    { intros key H1 H2. rewrite !lookup_insert_ne by congruence. apply lookup_empty. }
    rewrite (Hk "package_sign_path") by discriminate.
    rewrite (Hk "key_url") by discriminate.
    rewrite lookup_insert_eq.
    rewrite (lookup_insert_ne _ "package_path" "url") by discriminate.
    rewrite lookup_insert_eq.
    vm_compute. reflexivity.
  - repeat split; vm_compute; reflexivity.
Qed.

(** X16. [from_url] on a [.gz] URL whose package is in the download
    directory and whose signature is not: the signature is requested from
    the URL followed by [.asc], and with status 200 the body is stored as
    the package path followed by [.asc] (a file that [open] accepts), where
    it remains when [from_url] is left. *)
Theorem from_url_fetches_signature (w : world) (url download_path body : string)
    (st : pystate) :
  let package_path := OsPath.join download_path (filename_from_url url) in
  get_file_ext (filename_from_url url) = ".gz" ->
  path_exists package_path st = true ->
  path_exists (package_path +:+ ".asc") st = false ->
  os_open_wb w (package_path +:+ ".asc") (visible st) = Ret tt ->
  curl_perform w (Some (url +:+ ".asc")) true = CurlDone 200 body ->
  files (snd (from_url w url download_path st)) !! (package_path +:+ ".asc")
    = Some body.
Proof.
  intros package_path Hext Hpackage Hsignature Hopen Hcurl.
  unfold from_url. fold package_path.
  replace (get_verifier (filename_from_url url)) with (Some GPGVerifier)
    by (unfold get_verifier; rewrite Hext; reflexivity).
  destruct (from_url_constructs url package_path st)
    as (v & Hctor & Hpath & Hsign & Hkurl & _).
  unfold bind at 1. rewrite Hctor. cbv beta iota.
  pose proof (gpg_verify_signature_kept_aux w v package_path
                (package_path +:+ ".asc") body (url +:+ ".asc")
                (snd (print SEPT st)) Hpath Hsign Hkurl Hpackage Hsignature
                Hopen Hcurl)
    as Hkept.
  unfold verify, bind at 1.
  destruct (GPGVerifier_verify w v (snd (print SEPT st))) as [[r|e] st2];
    simpl in Hkept; [|exact Hkept].
  exact Hkept.
Qed.

Lemma from_url_fetches_signature_witness :
  files (snd (from_url (status_world 200 "signature")
                "https://example.org/dist/foo-1.2.3.tar.gz" "" unsigned_machine))
    !! ("foo-1.2.3.tar.gz" +:+ ".asc") = Some "signature".
Proof.
  apply (from_url_fetches_signature (status_world 200 "signature")
           "https://example.org/dist/foo-1.2.3.tar.gz" "" "signature"
           unsigned_machine);
    vm_compute; reflexivity.
Defined.

(** ** The fetch leaves the rest of the machine alone *)


(** Without a URL nothing is transferred: the call raises, and the empty
    destination file stays. *)
Example attempt_to_download_without_url :
  attempt_to_download (status_world 200 "signature") None "foo-1.2.3.tar.gz.asc"
    empty_machine
  = (Raise (TypeError "unsetopt() is not supported for this option"),
     mkState {["foo-1.2.3.tar.gz.asc" := ""]} ∅ None [] []).
Proof. vm_compute. reflexivity. Qed.

(** A destination in a directory that does not exist: [open] raises, and
    nothing is transferred or written. *)
Example attempt_to_download_unopenable :
  attempt_to_download (read_only_world "[Errno 2] No such file or directory")
    (Some "https://example.org/foo-1.2.3.tar.gz.asc")
    "missing/foo-1.2.3.tar.gz.asc" empty_machine
  = (Raise (OSError "[Errno 2] No such file or directory"), empty_machine).
Proof. vm_compute. reflexivity. Qed.


(** ** The gem strategy on malformed or reordered registry answers *)

Lemma select_gems_non_dict (items : list json) (number : string) :
  forallb is_dict items = false ->
  select_gems items number = Raise (AttributeError "object has no attribute 'get'").
Proof.
  induction items as [|gem items IH]; intros Hdict; [discriminate|].
  simpl in Hdict.
  destruct gem as [| | | | |entries]; try reflexivity.
  simpl in Hdict. specialize (IH Hdict). simpl. rewrite IH.
  destruct (dict_lookup "number" entries); reflexivity.
Qed.

(** X18. [get_gemnumber_sha] needs a list of objects. It raises
    [AttributeError] when the decoded answer is a list with an element that
    is not an object (even when another element has the version), or a
    non-empty object such as an error document; it raises [TypeError] for
    [null], a boolean or a number. *)
Theorem get_gemnumber_sha_malformed (number : string) :
  (forall items, forallb is_dict items = false ->
     get_gemnumber_sha (JList items) number
       = Raise (AttributeError "object has no attribute 'get'"))
  /\ (forall key value entries,
        get_gemnumber_sha (JDict ((key, value) :: entries)) number
          = Raise (AttributeError "object has no attribute 'get'"))
  /\ get_gemnumber_sha JNull number = Raise (TypeError "object is not iterable")
  /\ (forall b, get_gemnumber_sha (JBool b) number
                  = Raise (TypeError "object is not iterable"))
  /\ (forall literal, get_gemnumber_sha (JNum literal) number
                        = Raise (TypeError "object is not iterable")).
Proof.
  split; [|split; [|repeat split]].
  - intros items Hdict. unfold get_gemnumber_sha, json_iter.
    rewrite (select_gems_non_dict _ _ Hdict). reflexivity.
  - intros key value entries. reflexivity.
Qed.

Lemma get_gemnumber_sha_malformed_witness :
  get_gemnumber_sha
    (JList [JDict [("number", JStr "2.0.0"); ("sha", JStr sha_of_abc)]; JStr "oops"])
    "2.0.0"
  = Raise (AttributeError "object has no attribute 'get'").
Proof.
  apply (proj1 (get_gemnumber_sha_malformed "2.0.0")). reflexivity.
Defined.

Lemma filter_Permutation_bool {A} (f : A -> bool) (l l' : list A) :
  Permutation l l' -> Permutation (List.filter f l) (List.filter f l').
Proof.
  induction 1 as [|x l l' _ IH|x y l|l l' l'' _ IH1 _ IH2]; simpl.
  - constructor.
  - destruct (f x); [constructor|]; exact IH.
  - destruct (f x), (f y); try reflexivity. constructor.
  - etransitivity; eassumption.
Qed.

Lemma forallb_Permutation {A} (f : A -> bool) (l l' : list A) :
  Permutation l l' -> forallb f l = forallb f l'.
Proof.
  induction 1 as [|x l l' _ IH|x y l|l l' l'' _ IH1 _ IH2]; simpl.
  - reflexivity.
  - rewrite IH. reflexivity.
  - destruct (f x), (f y); reflexivity.
  - congruence.
Qed.

(** X19. The digest [get_gemnumber_sha] finds does not depend on the order
    in which the registry lists the releases: two lists of release records
    that are permutations of each other give the same result. *)
Theorem get_gemnumber_sha_order_independent (items items' : list json)
    (number : string) :
  Permutation items items' ->
  forallb is_dict items = true ->
  get_gemnumber_sha (JList items) number = get_gemnumber_sha (JList items') number.
Proof.
  intros Hperm Hdict.
  assert (Hdict' : forallb is_dict items' = true)
    by (rewrite <- (forallb_Permutation is_dict _ _ Hperm); exact Hdict).
  rewrite (get_gemnumber_sha_releases items number Hdict).
  rewrite (get_gemnumber_sha_releases items' number Hdict').
  pose proof (filter_Permutation_bool (release_matches number) _ _ Hperm) as Hf.
  destruct (List.filter (release_matches number) items) as [|gem [|gem2 rest]].
  - apply Permutation_nil in Hf. rewrite Hf. reflexivity.
  - apply Permutation_length_1_inv in Hf. rewrite Hf. reflexivity.
  - pose proof (Permutation_length Hf) as Hlen.
    destruct (List.filter (release_matches number) items')
      as [|gem' [|gem2' rest']]; try discriminate Hlen.
    destruct gem, gem'; reflexivity.
Qed.

Lemma get_gemnumber_sha_order_independent_witness :
  get_gemnumber_sha
    (JList [JDict [("number", JStr "2.0.0"); ("sha", JStr sha_of_abc)];
            JDict [("number", JStr "1.9.0"); ("sha", JStr "00")]]) "2.0.0"
  = get_gemnumber_sha
      (JList [JDict [("number", JStr "1.9.0"); ("sha", JStr "00")];
              JDict [("number", JStr "2.0.0"); ("sha", JStr sha_of_abc)]]) "2.0.0".
Proof.
  apply get_gemnumber_sha_order_independent.
  - apply perm_swap.
  - reflexivity.
Defined.

(** X20. [GEMShaVerifier.verify] asks the registry before it opens the
    gem: when the local file is missing it raises [OSError] instead of
    returning a result, and the registry query has already been made. *)
Theorem gem_verify_missing_file (w : world) (self : instance)
    (package_path name rest body : string) (code : Z) (items : list json)
    (st : pystate) :
  self !! "package_path" = Some (Some package_path) ->
  Re.split package_path = [name; rest] ->
  curl_perform w (Some (RUBYORG_API name)) false = CurlDone code body ->
  json_loads w body = Ret (JList items) ->
  forallb is_dict items = true ->
  files st !! package_path = None ->
  fst (GEMShaVerifier_verify w self st)
    = Raise (OSError ("No such file or directory: " +:+ package_path))
  /\ calls (snd (GEMShaVerifier_verify w self st))
     = (calls st ++ [CallCurl (Some (RUBYORG_API name))])%list.
Proof.
  intros Hattr Hsplit Hcurl Hjson Hdict Hfile.
  unfold GEMShaVerifier_verify. mstep.
  rewrite Hattr. mstep. rewrite Hsplit. mstep.
  unfold get_rubygems_info. mstep.
  rewrite Hcurl. rewrite Hjson. mstep.
  fold (gem_number package_path name).
  rewrite (get_gemnumber_sha_releases items _ Hdict).
  unfold calc_sha, calc_sha_with, read_file. mstep. rewrite Hfile.
  split; reflexivity.
Qed.

Lemma gem_verify_missing_file_witness :
  fst (GEMShaVerifier_verify (registry_world 200 "[]" (Ret (JList [])))
         bar_verifier empty_machine)
    = Raise (OSError ("No such file or directory: " +:+ "bar-2.0.0.gem"))
  /\ calls (snd (GEMShaVerifier_verify (registry_world 200 "[]" (Ret (JList [])))
                   bar_verifier empty_machine))
     = (calls empty_machine ++ [CallCurl (Some (RUBYORG_API "bar"))])%list.
Proof.
  apply (gem_verify_missing_file (registry_world 200 "[]" (Ret (JList [])))
           bar_verifier "bar-2.0.0.gem" "bar" "0.0.gem" "[]" 200 [] empty_machine);
    reflexivity.
Defined.

(** ** Construction of a GPG verifier *)

(** X21. [GPGVerifier.__init__] raises [TypeError] when it is given neither
    a [package_sign_path] nor a [package_path]. Otherwise it prints the
    separator and returns a verifier in which an explicit [key_url] wins
    over the one derived from [url] (the URL followed by [.asc]), and an
    explicit [package_sign_path] over the one derived from [package_path]
    (the path followed by [.asc]). *)
Theorem GPGVerifier_init_attributes (kwargs : gmap string string) (st : pystate) :
  match kwargs !! "package_sign_path", kwargs !! "package_path" with
  | None, None =>
      GPGVerifier_init kwargs st
        = (Raise (TypeError "expected str, not NoneType"), snd (print SEPT st))
  | explicit, package_path =>
      exists v : instance,
        GPGVerifier_init kwargs st = (Ret v, snd (print SEPT st))
        /\ v !! "url" = Some (kwargs !! "url")
        /\ v !! "package_path" = Some package_path
        /\ v !! "key_url" =
             Some (match kwargs !! "key_url", kwargs !! "url" with
                   | Some k, _ => Some k
                   | None, Some u => Some (u +:+ ".asc")
                   | None, None => None
                   end)
        /\ v !! "package_sign_path" =
             Some (match explicit, package_path with
                   | Some p, _ => Some p
                   | None, Some p => Some (p +:+ ".asc")
                   | None, None => None
                   end)
  end.
Proof.
  unfold GPGVerifier_init, Verifier_init.
  generalize (kwargs !! "package_sign_path") as explicit.
  generalize (kwargs !! "package_path") as package_path.
  generalize (kwargs !! "key_url") as key_url.
  generalize (kwargs !! "url") as url.
  intros [u|] [k|] [p|] [e|]; mstep;
    repeat (first [rewrite lookup_insert_eq
                  | rewrite lookup_insert_ne by discriminate]; mstep);
    try reflexivity;
    (eexists; split; [reflexivity|];
     repeat split;
     repeat first [rewrite lookup_insert_eq
                  | rewrite lookup_insert_ne by discriminate];
     reflexivity).
Qed.

(** ** Extensions *)

Lemma splitext_loop_cases (p : string) (dotIndex filenameIndex : Z) (fuel : nat) :
  OsPath.splitext_loop p dotIndex filenameIndex fuel = (p, "")
  \/ OsPath.splitext_loop p dotIndex filenameIndex fuel =
       (PyStr.zslice 0 dotIndex p, PyStr.drop (Z.to_nat dotIndex) p).
Proof.
  revert filenameIndex; induction fuel as [|fuel IH]; intros filenameIndex.
  - left. reflexivity.
  - simpl. destruct (String.eqb _ "."); [apply IH|right; reflexivity].
Qed.

(** X22. The extension [get_file_ext] returns is a suffix of the name, and
    it is either empty or a dot followed by characters that are neither
    dots nor slashes: only the last suffix of the last path component
    counts, and what is before it is returned unchanged by [splitext]. *)
Theorem get_file_ext_shape (filename : string) :
  fst (OsPath.splitext filename) +:+ get_file_ext filename = filename
  /\ (get_file_ext filename = ""
      \/ exists t, get_file_ext filename = String "." t
                   /\ has_char "." t = false /\ has_char "/" t = false).
Proof.
  unfold get_file_ext, OsPath.splitext.
  destruct (PyStr.rfind "/" filename <? PyStr.rfind "." filename)%Z eqn:Hlt;
    [|split; [apply app_empty_r|left; reflexivity]].
  apply Z.ltb_lt in Hlt.
  destruct (splitext_loop_cases filename (PyStr.rfind "." filename)
              (PyStr.rfind "/" filename + 1)
              (Z.to_nat (PyStr.rfind "." filename - (PyStr.rfind "/" filename + 1))))
    as [-> | ->]; [split; [apply app_empty_r|left; reflexivity]|].
  cbn [fst snd]. split.
  - unfold PyStr.zslice, PyStr.slice. cbn [Z.to_nat PyStr.drop].
    rewrite Nat.sub_0_r. apply take_drop.
  - right. unfold PyStr.rfind in *.
    destruct (rfind_from_spec "." filename 0 (-1))
      as [[_ Hdot] | (k & t & Hdot & Hdrop & Ht)].
    + destruct (rfind_from_spec "/" filename 0 (-1))
        as [[_ Hsep] | (k' & t' & Hsep & _)]; lia.
    + rewrite Hdot. replace (Z.to_nat (0 + Z.of_nat k)) with k by lia.
      exists t. split; [exact Hdrop|]. split; [exact Ht|].
      destruct (rfind_from_spec "/" filename 0 (-1))
        as [[Habsent _] | (k' & t' & Hsep & Hdrop' & Ht')].
      * pose proof (has_char_drop "/" k filename Habsent) as Hk.
        rewrite Hdrop in Hk. simpl in Hk. exact Hk.
      * assert (Hkk : (k' < k)%nat) by lia.
        pose proof (has_char_drop "/" (k - k' - 1) t' Ht') as Hk.
        replace (PyStr.drop (k - k' - 1) t') with (String "." t) in Hk.
        { simpl in Hk. exact Hk. }
        rewrite <- Hdrop.
        replace k with (k' + S (k - k' - 1))%nat at 1 by lia.
        rewrite <- drop_drop, Hdrop'. reflexivity.
Qed.

(** The extension of a name made of a directory part, a stem that starts
    with a character other than the dot, and a last suffix. *)
Lemma get_file_ext_named (dir b e : string) (c : ascii) :
  dir = "" \/ (exists d, dir = d +:+ "/") ->
  c <> "."%char ->
  has_char "/" (String c b) = false ->
  has_char "." e = false ->
  has_char "/" e = false ->
  get_file_ext (dir +:+ String c b +:+ "." +:+ e) = "." +:+ e.
Proof.
  intros Hdir Hc Hstem Hdot Hslash.
  set (stem := String c b) in *.
  set (p := dir +:+ stem +:+ "." +:+ e).
  assert (Hsep : (PyStr.rfind "/" p + 1 = Z.of_nat (String.length dir))%Z).
  { rewrite <- (rfind_slash_dir dir Hdir). f_equal.
    unfold p, PyStr.rfind. rewrite rfind_from_app.
    apply rfind_absent. rewrite !has_char_app, Hstem, Hslash. reflexivity. }
  assert (Hdotidx : PyStr.rfind "." p
                    = Z.of_nat (String.length dir + String.length stem)).
  { unfold p, PyStr.rfind.
    rewrite <- (app_assoc_str dir stem), rfind_from_app, length_app_str.
    rewrite app_cons, app_empty_l. simpl PyStr.rfind_from.
    rewrite rfind_absent by exact Hdot. unfold stem. simpl String.length. lia. }
  unfold get_file_ext, OsPath.splitext. fold p.
  assert (Hlen : (0 < String.length stem)%nat) by (unfold stem; simpl; lia).
  replace (PyStr.rfind "/" p <? PyStr.rfind "." p)%Z with true
    by (symmetry; apply Z.ltb_lt; lia).
  rewrite Hsep, Hdotidx.
  replace (Z.to_nat (Z.of_nat (String.length dir + String.length stem)
                     - Z.of_nat (String.length dir)))
    with (S (String.length b)) by (unfold stem; simpl; lia).
  cbn [OsPath.splitext_loop].
  unfold PyStr.zslice, PyStr.slice.
  replace (Z.to_nat (Z.of_nat (String.length dir) + 1)
           - Z.to_nat (Z.of_nat (String.length dir)))%nat with 1%nat by lia.
  rewrite Nat2Z.id.
  unfold p at 1. rewrite drop_app_length. unfold stem at 1.
  rewrite app_cons. cbn [PyStr.take].
  replace (String.eqb (String c "") ".") with false.
  2:{ symmetry. apply String.eqb_neq. intros [= ->]. contradiction. }
  cbn [snd]. rewrite Nat2Z.id.
  unfold p. rewrite <- (app_assoc_str dir stem), <- length_app_str.
  apply drop_app_length.
Qed.

(** X23. A name whose last path component starts with a character other
    than the dot is dispatched by its last suffix: with [.gz] to the GPG
    verifier and with [.gem] to the gem verifier, whatever the directory
    part is and whatever other dots the name has. *)
Theorem get_verifier_by_last_suffix (dir b : string) (c : ascii) :
  dir = "" \/ (exists d, dir = d +:+ "/") ->
  c <> "."%char ->
  has_char "/" (String c b) = false ->
  get_verifier (dir +:+ String c b +:+ ".gz") = Some GPGVerifier
  /\ get_verifier (dir +:+ String c b +:+ ".gem") = Some GEMShaVerifier
  /\ get_file_ext (dir +:+ String c b +:+ ".tar.gz") = ".gz".
Proof.
  intros Hdir Hc Hstem. split; [|split].
  - unfold get_verifier.
    change (dir +:+ String c b +:+ ".gz") with (dir +:+ String c b +:+ "." +:+ "gz").
    rewrite (get_file_ext_named dir b "gz" c Hdir Hc Hstem eq_refl eq_refl).
    reflexivity.
  - unfold get_verifier.
    change (dir +:+ String c b +:+ ".gem") with (dir +:+ String c b +:+ "." +:+ "gem").
    rewrite (get_file_ext_named dir b "gem" c Hdir Hc Hstem eq_refl eq_refl).
    reflexivity.
  - replace (dir +:+ String c b +:+ ".tar.gz")
      with (dir +:+ String c (b +:+ ".tar") +:+ "." +:+ "gz").
    + apply get_file_ext_named; try assumption; try reflexivity.
      simpl in *. rewrite has_char_app. apply orb_false_elim in Hstem as [-> ->].
      reflexivity.
    + rewrite !app_cons, app_assoc_str. reflexivity.
Qed.

Lemma get_verifier_by_last_suffix_witness :
  get_verifier ("/var/cache/dl.d/" +:+ String "f" "oo-1.2.3" +:+ ".gz")
    = Some GPGVerifier
  /\ get_verifier ("/var/cache/dl.d/" +:+ String "f" "oo-1.2.3" +:+ ".gem")
     = Some GEMShaVerifier
  /\ get_file_ext ("/var/cache/dl.d/" +:+ String "f" "oo-1.2.3" +:+ ".tar.gz") = ".gz".
Proof.
  apply (get_verifier_by_last_suffix "/var/cache/dl.d/" "oo-1.2.3" "f").
  - right. exists "/var/cache/dl.d". reflexivity.
  - discriminate.
  - reflexivity.
Defined.

(** ** How many pieces the path of a gem splits into *)







(** ** What the key identifier is *)

Lemma startswith_app (sub a b : string) :
  PyStr.startswith sub a = true -> PyStr.startswith sub (a +:+ b) = true.
Proof.
  revert a; induction sub as [|x sub IH]; intros a Ha; [reflexivity|].
  destruct a as [|y a]; [discriminate|].
  rewrite app_cons. simpl in *.
  destruct (Ascii.eqb x y); [apply IH, Ha|discriminate].
Qed.

Lemma startswith_app_long (sub a b : string) :
  (String.length sub <= String.length a)%nat ->
  PyStr.startswith sub (a +:+ b) = PyStr.startswith sub a.
Proof.
  revert a; induction sub as [|x sub IH]; intros a Hlen; [reflexivity|].
  destruct a as [|y a]; [simpl in Hlen; lia|].
  rewrite app_cons. simpl in *.
  destruct (Ascii.eqb x y); [apply IH; lia|reflexivity].
Qed.

Lemma find_fits (sub a : string) (i : nat) :
  PyStr.find sub a = Some i -> (i + String.length sub <= String.length a)%nat.
Proof.
  revert i; induction a as [|y a IH]; intros i.
  - simpl. destruct sub; [intros [= <-]; simpl; lia|discriminate].
  - cbn [PyStr.find].
    destruct (PyStr.startswith sub (String y a)) eqn:Hstart.
    + intros [= <-]. clear IH. revert y a Hstart.
      induction sub as [|x sub IHs]; intros y a Hstart; [simpl; lia|].
      simpl in Hstart. destruct (Ascii.eqb x y); [|discriminate].
      destruct a as [|z a].
      * destruct sub; [simpl; lia|discriminate].
      * specialize (IHs z a Hstart). simpl in *. lia.
    + destruct (PyStr.find sub a) as [j|] eqn:Hfind; [|discriminate].
      intros [= <-]. specialize (IH j eq_refl). simpl. lia.
Qed.

(** The first occurrence in a string is the first occurrence in every
    extension of it. *)
Lemma find_app (sub a b : string) (i : nat) :
  PyStr.find sub a = Some i -> PyStr.find sub (a +:+ b) = Some i.
Proof.
  revert i; induction a as [|y a IH]; intros i.
  - simpl. destruct sub; [|discriminate]. intros [= <-].
    rewrite app_empty_l. destruct b; reflexivity.
  - intros Hfind. pose proof (find_fits _ _ _ Hfind) as Hfits.
    rewrite app_cons. cbn [PyStr.find] in *.
    rewrite <- app_cons, startswith_app_long by lia.
    destruct (PyStr.startswith sub (String y a)); [exact Hfind|].
    destruct (PyStr.find sub a) as [j|]; [|discriminate].
    rewrite (IH j eq_refl). exact Hfind.
Qed.

Lemma find_char_app (ch : ascii) (tok post : string) :
  has_char ch tok = false ->
  PyStr.find (String ch "") (tok +:+ String ch post) = Some (String.length tok).
Proof.
  induction tok as [|y tok IH]; intros Htok.
  - rewrite app_empty_l. simpl. rewrite Ascii.eqb_refl. reflexivity.
  - simpl in Htok. apply orb_false_elim in Htok as [Hy Htok].
    rewrite app_cons. cbn [PyStr.find PyStr.startswith].
    rewrite Ascii.eqb_sym, Hy. rewrite (IH Htok). reflexivity.
Qed.

Lemma take_app_length (a b : string) : PyStr.take (String.length a) (a +:+ b) = a.
Proof.
  induction a as [|c a IH]; [destruct b; reflexivity|].
  rewrite app_cons. simpl. rewrite IH. reflexivity.
Qed.

(** X25. The key identifier is read off the first ['keyid'] of the packet
    listing: when the listing is clean and reads [pre], ['keyid'], one
    character, [tok], a line end and more, with no earlier ['keyid'] and no
    line end in [tok], [get_keyid] returns [tok] stripped and in upper
    case. The character after ['keyid'] is skipped whatever it is, and
    later packets of the listing play no part. *)
Theorem get_keyid_first_field (w : world) (sig_filename : string) (st : pystate)
    (pre tok post : string) (c : ascii) (code : Z) :
  popen w ["gpg"; "--list-packet"; sig_filename] (visible st)
    = Ret (pre +:+ "keyid" +:+ String c (tok +:+ LF +:+ post), "", code) ->
  PyStr.find "keyid" (pre +:+ "keyid") = Some (String.length pre) ->
  has_char (ascii_of_nat 10) tok = false ->
  fst (get_keyid w sig_filename st) = Ret (PyStr.upper (PyStr.strip tok)).
Proof.
  intros Hpopen Hfirst Htok.
  set (out := pre +:+ "keyid" +:+ String c (tok +:+ LF +:+ post)) in *.
  assert (Hfind : PyStr.find "keyid" out = Some (String.length pre)).
  { unfold out. rewrite <- app_assoc_str. apply find_app, Hfirst. }
  assert (Hdrop : PyStr.drop (String.length pre + 6) out = tok +:+ LF +:+ post).
  { unfold out.
    replace (pre +:+ "keyid" +:+ String c (tok +:+ LF +:+ post))
      with ((pre +:+ "keyid" +:+ String c "") +:+ (tok +:+ LF +:+ post)).
    - replace (String.length pre + 6)%nat
        with (String.length (pre +:+ "keyid" +:+ String c ""))
        by (rewrite !length_app_str; simpl; lia).
      apply drop_app_length.
    - rewrite !app_assoc_str. reflexivity. }
  rewrite (get_keyid_token w sig_filename st out code (String.length pre)
             (String.length tok) Hpopen Hfind).
  - rewrite Hdrop, take_app_length. reflexivity.
  - rewrite Hdrop. apply find_char_app, Htok.
Qed.

Lemma get_keyid_first_field_witness :
  fst (get_keyid
         (listing_world
            (":signature packet: algo 1, " +:+ "keyid" +:+
             String " " ("0123456789abcdef" +:+ LF +:+
                         ":signature packet: algo 1, keyid ffffffffffffffff" +:+ LF))
            "" 0)
         "foo-1.2.3.tar.gz.asc" empty_machine)
  = Ret (PyStr.upper (PyStr.strip "0123456789abcdef")).
Proof.
  apply (get_keyid_first_field _ "foo-1.2.3.tar.gz.asc" empty_machine
           ":signature packet: algo 1, " "0123456789abcdef"
           (":signature packet: algo 1, keyid ffffffffffffffff" +:+ LF) " " 0%Z);
    reflexivity.
Defined.

Lemma upper_char_idempotent (c : ascii) :
  PyStr.upper_char (PyStr.upper_char c) = PyStr.upper_char c.
Proof. destruct c as [[] [] [] [] [] [] [] []]; reflexivity. Qed.

Lemma isspace_upper_char (c : ascii) :
  PyStr.isspace (PyStr.upper_char c) = PyStr.isspace c.
Proof. destruct c as [[] [] [] [] [] [] [] []]; reflexivity. Qed.

Lemma upper_idempotent (s : string) : PyStr.upper (PyStr.upper s) = PyStr.upper s.
Proof.
  induction s as [|c s IH]; [reflexivity|].
  simpl. rewrite upper_char_idempotent, IH. reflexivity.
Qed.

Lemma lstrip_upper (s : string) :
  PyStr.lstrip (PyStr.upper s) = PyStr.upper (PyStr.lstrip s).
Proof.
  induction s as [|c s IH]; [reflexivity|].
  cbn [PyStr.upper PyStr.lstrip]. rewrite isspace_upper_char.
  destruct (PyStr.isspace c); [exact IH|reflexivity].
Qed.

Lemma rstrip_upper (s : string) :
  PyStr.rstrip (PyStr.upper s) = PyStr.upper (PyStr.rstrip s).
Proof.
  induction s as [|c s IH]; [reflexivity|].
  cbn [PyStr.upper PyStr.rstrip]. rewrite IH, isspace_upper_char.
  destruct (PyStr.rstrip s) as [|y r]; cbn [PyStr.upper].
  - destruct (PyStr.isspace c); reflexivity.
  - reflexivity.
Qed.

Lemma rstrip_idempotent (s : string) :
  PyStr.rstrip (PyStr.rstrip s) = PyStr.rstrip s.
Proof.
  induction s as [|c s IH]; [reflexivity|].
  cbn [PyStr.rstrip].
  destruct (PyStr.rstrip s) as [|y r] eqn:Hr.
  - destruct (PyStr.isspace c) eqn:Hc; [reflexivity|].
    cbn [PyStr.rstrip]. rewrite Hc. reflexivity.
  - cbn [PyStr.rstrip] in *. rewrite IH. reflexivity.
Qed.

Lemma lstrip_starts_black (s : string) : starts_black (PyStr.lstrip s) = true.
Proof.
  induction s as [|c s IH]; [reflexivity|].
  cbn [PyStr.lstrip]. destruct (PyStr.isspace c) eqn:Hc; [exact IH|].
  simpl. rewrite Hc. reflexivity.
Qed.

Lemma rstrip_starts_black (s : string) :
  starts_black s = true -> starts_black (PyStr.rstrip s) = true.
Proof.
  destruct s as [|c s]; [reflexivity|]. simpl starts_black at 1. intros Hc.
  cbn [PyStr.rstrip]. apply negb_true_iff in Hc.
  destruct (PyStr.rstrip s); [rewrite Hc|]; simpl; rewrite Hc; reflexivity.
Qed.

Lemma lstrip_black (s : string) : starts_black s = true -> PyStr.lstrip s = s.
Proof.
  destruct s as [|c s]; [reflexivity|]. simpl. intros Hc.
  apply negb_true_iff in Hc. rewrite Hc. reflexivity.
Qed.

Lemma strip_idempotent (s : string) : PyStr.strip (PyStr.strip s) = PyStr.strip s.
Proof.
  unfold PyStr.strip.
  rewrite (lstrip_black (PyStr.rstrip (PyStr.lstrip s)))
    by (apply rstrip_starts_black, lstrip_starts_black).
  apply rstrip_idempotent.
Qed.

Lemma strip_upper (s : string) :
  PyStr.strip (PyStr.upper s) = PyStr.upper (PyStr.strip s).
Proof. unfold PyStr.strip. rewrite lstrip_upper, rstrip_upper. reflexivity. Qed.

(** X26. Every key identifier [get_keyid] returns is in canonical form:
    converting it to upper case or stripping it again changes nothing. So
    the keyring file name made from it has no lower-case letter and no
    white space at either end of the identifier. *)
Theorem get_keyid_canonical (w : world) (sig_filename key_id : string) (st : pystate) :
  fst (get_keyid w sig_filename st) = Ret key_id ->
  PyStr.upper key_id = key_id /\ PyStr.strip key_id = key_id.
Proof.
  unfold get_keyid, parse_keyid.
  destruct (GPG_CLI w); [|mstep; discriminate]. mstep.
  destruct (popen w _ _) as [[[out err] code]|e]; [|discriminate].
  destruct (negb (String.eqb err "")); [discriminate|].
  destruct (PyStr.find "keyid" out) as [i|]; [|discriminate].
  destruct (PyStr.find LF _) as [j|]; [|discriminate].
  mstep. intros [= <-]. split.
  - apply upper_idempotent.
  - rewrite strip_upper, strip_idempotent. reflexivity.
Qed.

Lemma get_keyid_canonical_witness :
  PyStr.upper "0123456789ABCDEF" = "0123456789ABCDEF"
  /\ PyStr.strip "0123456789ABCDEF" = "0123456789ABCDEF".
Proof.
  apply (get_keyid_canonical (listing_world sample_listing "" 0)
           "foo-1.2.3.tar.gz.asc" "0123456789ABCDEF" empty_machine).
  vm_compute. reflexivity.
Defined.

(** ** The version a gem is looked up under *)

Lemma replace_nonempty (old new s : string) :
  old <> "" -> PyStr.replace old new s = PyStr.replace_from old new 0 s.
Proof. destruct old; [contradiction|reflexivity]. Qed.

Lemma replace_from_skip (old new : string) (k : nat) (s : string) :
  PyStr.replace_from old new k s = PyStr.replace_from old new 0 (PyStr.drop k s).
Proof.
  revert k; induction s as [|c s IH]; intros [|k]; try reflexivity.
  simpl PyStr.replace_from at 1. rewrite IH. reflexivity.
Qed.

Lemma startswith_decompose (old s : string) :
  PyStr.startswith old s = true -> s = old +:+ PyStr.drop (String.length old) s.
Proof.
  revert s; induction old as [|x old IH]; intros s Hs; [reflexivity|].
  destruct s as [|y s]; [discriminate|]. simpl in Hs.
  destruct (Ascii.eqb_spec x y) as [->|]; [|discriminate].
  rewrite app_cons. simpl. f_equal. apply IH, Hs.
Qed.

Lemma startswith_has_char (c : ascii) (old s : string) :
  PyStr.startswith old s = true -> has_char c old = true -> has_char c s = true.
Proof.
  intros Hs Hc. rewrite (startswith_decompose old s Hs), has_char_app, Hc.
  reflexivity.
Qed.

(** A pattern with a character the string lacks does not occur in it. *)
Lemma replace_absent_char (c : ascii) (old new s : string) :
  has_char c old = true -> has_char c s = false -> PyStr.replace old new s = s.
Proof.
  intros Hold Hs.
  rewrite replace_nonempty by (intros ->; discriminate Hold).
  induction s as [|y s IH]; [reflexivity|].
  cbn [PyStr.replace_from].
  destruct (PyStr.startswith old (String y s)) eqn:Hstart.
  - rewrite (startswith_has_char c _ _ Hstart Hold) in Hs. discriminate.
  - rewrite IH; [reflexivity|]. simpl in Hs. apply orb_false_elim in Hs as [_ Hs].
    exact Hs.
Qed.

Lemma replace_absent (old new s : string) :
  old <> "" -> PyStr.find old s = None -> PyStr.replace_from old new 0 s = s.
Proof.
  intros Hold. induction s as [|y s IH]; intros Hfind; [reflexivity|].
  cbn [PyStr.find PyStr.replace_from] in *.
  destruct (PyStr.startswith old (String y s)); [discriminate|].
  destruct (PyStr.find old s); [discriminate|].
  rewrite IH; reflexivity.
Qed.

(** The first occurrence is replaced and the rest is treated alike. *)
Lemma replace_at_find (old new s : string) (i : nat) :
  old <> "" ->
  PyStr.find old s = Some i ->
  PyStr.replace_from old new 0 s =
    PyStr.take i s +:+ new +:+
    PyStr.replace_from old new 0 (PyStr.drop (i + String.length old) s).
Proof.
  intros Hold. revert i; induction s as [|y s IH]; intros i Hfind.
  - destruct old; [contradiction|discriminate].
  - cbn [PyStr.find PyStr.replace_from] in *.
    destruct (PyStr.startswith old (String y s)) eqn:Hstart.
    + injection Hfind as <-. rewrite app_empty_l. f_equal.
      rewrite replace_from_skip. f_equal.
      destruct old as [|x old]; [contradiction|]. simpl. rewrite Nat.sub_0_r.
      reflexivity.
    + destruct (PyStr.find old s) as [j|]; [|discriminate].
      injection Hfind as <-. rewrite (IH j eq_refl). reflexivity.
Qed.

(** Replacing introduces no character that neither the string nor the
    replacement has. *)
Lemma has_char_replace_from (c : ascii) (old new : string) (k : nat) (s : string) :
  has_char c new = false -> has_char c s = false ->
  has_char c (PyStr.replace_from old new k s) = false.
Proof.
  intros Hnew. revert k; induction s as [|y s IH]; intros k Hs; [reflexivity|].
  simpl in Hs. apply orb_false_elim in Hs as [Hy Hs].
  destruct k as [|k]; cbn [PyStr.replace_from]; [|apply IH, Hs].
  destruct (PyStr.startswith old (String y s)).
  - rewrite has_char_app, Hnew. apply IH, Hs.
  - simpl. rewrite Hy. apply IH, Hs.
Qed.

Lemma basename_plain (p : string) : has_char "/" p = false -> OsPath.basename p = p.
Proof.
  intros Hp. unfold OsPath.basename, PyStr.rfind.
  rewrite rfind_absent by exact Hp. reflexivity.
Qed.

(** The version computed for a name of the form [name-ver.gem] without
    directory, where [.gem] occurs only at the end and [name-] does not
    occur again inside [ver]. *)
Lemma gem_number_plain (name ver : string) :
  has_char "/" (name +:+ "-" +:+ ver) = false ->
  PyStr.find ".gem" (name +:+ "-" +:+ ver +:+ ".gem")
    = Some (String.length (name +:+ "-" +:+ ver)) ->
  PyStr.find (name +:+ "-") ver = None ->
  gem_number (name +:+ "-" +:+ ver +:+ ".gem") name = ver.
Proof.
  intros Hslash Hgem Hver.
  assert (Hold : name +:+ "-" <> "").
  { intros Heq. apply (f_equal String.length) in Heq.
    rewrite length_app_str in Heq. simpl in Heq. lia. }
  set (stem := name +:+ "-" +:+ ver) in *.
  assert (Hpath : name +:+ "-" +:+ ver +:+ ".gem" = stem +:+ ".gem")
    by (unfold stem; rewrite !app_assoc_str; reflexivity).
  unfold gem_number. rewrite Hpath in *.
  rewrite basename_plain by (rewrite has_char_app, Hslash; reflexivity).
  rewrite (replace_nonempty ".gem") by discriminate.
  rewrite (replace_at_find ".gem" "" _ _ ltac:(discriminate) Hgem).
  rewrite take_app_length.
  replace (String.length stem + String.length ".gem")%nat
    with (String.length (stem +:+ ".gem")) by (rewrite length_app_str; reflexivity).
  rewrite <- (app_empty_r (stem +:+ ".gem")) at 2.
  rewrite drop_app_length. cbn [PyStr.replace_from]. rewrite !app_empty_r.
  rewrite replace_nonempty by exact Hold.
  assert (Hfirst : PyStr.find (name +:+ "-") stem = Some O).
  { unfold stem. rewrite <- app_assoc_str.
    generalize (name +:+ "-") as old. intros old.
    assert (Hself : PyStr.startswith old (old +:+ ver) = true).
    { apply startswith_app. induction old as [|y s IH]; [reflexivity|].
      simpl. rewrite Ascii.eqb_refl. exact IH. }
    destruct (old +:+ ver); cbn [PyStr.find]; rewrite Hself; reflexivity. }
  rewrite (replace_at_find _ "" _ _ Hold Hfirst).
  cbn [PyStr.take]. rewrite !app_empty_l.
  unfold stem at 1. rewrite <- app_assoc_str. cbn [Nat.add].
  rewrite drop_app_length.
  apply replace_absent; assumption.
Qed.

(** X27. For a gem in the current directory whose path is
    [name-ver.gem] and splits into [name] and a rest, where [.gem] occurs
    only at the end and [name-] does not occur again inside [ver]:
    [GEMShaVerifier.verify] asks the registry about [name], looks up the
    release [ver], and returns whether the digest recorded for it is the
    SHA-256 hex digest of the file. *)
Theorem gem_verify_plain_name_version (w : world) (self : instance)
    (package_path name ver rest content body : string) (code : Z)
    (items : list json) (st : pystate) :
  package_path = name +:+ "-" +:+ ver +:+ ".gem" ->
  self !! "package_path" = Some (Some package_path) ->
  is_Some (self !! "url") ->
  Re.split package_path = [name; rest] ->
  has_char "/" (name +:+ "-" +:+ ver) = false ->
  PyStr.find ".gem" package_path = Some (String.length (name +:+ "-" +:+ ver)) ->
  PyStr.find (name +:+ "-") ver = None ->
  curl_perform w (Some (RUBYORG_API name)) false = CurlDone code body ->
  json_loads w body = Ret (JList items) ->
  forallb is_dict items = true ->
  files st !! package_path = Some content ->
  exists gemsha : json,
    get_gemnumber_sha (JList items) ver = Ret gemsha
    /\ fst (GEMShaVerifier_verify w self st)
       = Ret (Some (json_eq_str gemsha (SHA256.hexdigest_of content)))
    /\ calls (snd (GEMShaVerifier_verify w self st))
       = (calls st ++ [CallCurl (Some (RUBYORG_API name))])%list.
Proof.
  intros Hshape Hattr [url Hurl] Hsplit Hslash Hgem Hver Hcurl Hjson Hdict Hfile.
  assert (Hnum : gem_number package_path name = ver).
  { rewrite Hshape in Hgem |- *. apply gem_number_plain; assumption. }
  eexists. split; [apply (get_gemnumber_sha_releases items ver Hdict)|].
  unfold GEMShaVerifier_verify. mstep.
  rewrite Hattr. mstep. rewrite Hsplit. mstep.
  unfold get_rubygems_info. mstep.
  rewrite Hcurl. rewrite Hjson. mstep.
  fold (gem_number package_path name). rewrite Hnum.
  rewrite (get_gemnumber_sha_releases items ver Hdict).
  unfold calc_sha.
  rewrite (calc_sha_with_whole 4096 package_path content) by (simpl; auto; lia).
  unfold print_result. mstep. rewrite Hurl. mstep.
  destruct (json_eq_str _ _); split; reflexivity.
Qed.

Lemma gem_verify_plain_name_version_witness :
  exists gemsha : json,
    get_gemnumber_sha
      (JList [JDict [("number", JStr "1.9.0"); ("sha", JStr "00")];
              JDict [("number", JStr "2.0.0"); ("sha", JStr sha_of_abc)]]) "2.0.0"
      = Ret gemsha
    /\ fst (GEMShaVerifier_verify
              (registry_world 200 "[{...}]"
                 (Ret (JList [JDict [("number", JStr "1.9.0"); ("sha", JStr "00")];
                              JDict [("number", JStr "2.0.0");
                                     ("sha", JStr sha_of_abc)]])))
              bar_verifier gem_machine)
       = Ret (Some (json_eq_str gemsha (SHA256.hexdigest_of "abc")))
    /\ calls (snd (GEMShaVerifier_verify
                     (registry_world 200 "[{...}]"
                        (Ret (JList [JDict [("number", JStr "1.9.0");
                                            ("sha", JStr "00")];
                                     JDict [("number", JStr "2.0.0");
                                            ("sha", JStr sha_of_abc)]])))
                     bar_verifier gem_machine))
       = (calls gem_machine ++ [CallCurl (Some (RUBYORG_API "bar"))])%list.
Proof.
  apply (gem_verify_plain_name_version _ bar_verifier "bar-2.0.0.gem" "bar" "2.0.0"
           "0.0.gem" "abc" "[{...}]" 200 _ gem_machine).
  - reflexivity.
  - apply lookup_insert_eq.
  - exists None. vm_compute. reflexivity.
  - reflexivity.
  - reflexivity.
  - reflexivity.
  - reflexivity.
  - reflexivity.
  - reflexivity.
  - reflexivity.
  - apply lookup_singleton_eq.
Defined.

(** The name that [re.split] yields need not be the text before the last
    hyphen: for [a-1.b-c.gem] it is [a], and the version looked up is
    [1.b-c]. *)
Example gem_number_early_delimiter :
  Re.split "a-1.b-c.gem" = ["a"; "b-c.gem"]
  /\ gem_number "a-1.b-c.gem" "a" = "1.b-c".
Proof. split; reflexivity. Qed.

(** X28. For a gem given with a directory part, the name that [re.split]
    yields contains the directory, so [name-] does not occur in the base
    name and nothing is removed from it: the version looked up is the whole
    base name without [.gem], name included. *)
Theorem gem_number_with_directory_part (package_path name : string) :
  has_char "/" name = true ->
  gem_number package_path name
    = PyStr.replace ".gem" "" (OsPath.basename package_path).
Proof.
  intros Hname. unfold gem_number.
  apply (replace_absent_char "/").
  - rewrite has_char_app, Hname. reflexivity.
  - assert (Hbase : has_char "/" (OsPath.basename package_path) = false).
    { unfold OsPath.basename, PyStr.rfind.
      destruct (rfind_from_spec "/" package_path 0 (-1))
        as [[Habsent ->] | (k & t & -> & Hdrop & Ht)].
      - exact Habsent.
      - replace (Z.to_nat (0 + Z.of_nat k + 1)) with (k + 1)%nat by lia.
        rewrite <- drop_drop, Hdrop. exact Ht. }
    rewrite replace_nonempty by discriminate.
    apply has_char_replace_from; [reflexivity|exact Hbase].
Qed.

Lemma gem_number_with_directory_part_witness :
  has_char "/" "pkgs/bar" = true /\
  gem_number "pkgs/bar-2.0.0.gem" "pkgs/bar" = "bar-2.0.0".
Proof.
  split; [reflexivity|].
  exact (gem_number_with_directory_part "pkgs/bar-2.0.0.gem" "pkgs/bar" eq_refl).
Defined.
